(** * pyutils, [time_handling]: the date/time conversion layer

    A shallow embedding of [time_handling/time_formatters.py] and of the
    parts of [time_handling/time_formatters_TEST_AND_NEW_METHODS.py] that
    compute total times, together with the properties of the design document
    that concern them.

    The Python code is dynamically typed and relies on three things of the
    interpreter that decide most of its behaviour: exceptions and the
    [try]/[except] clauses that filter them by class, the binding of call
    arguments to parameters (a call with the wrong number of arguments
    raises [TypeError] before the callee's body runs), and comparisons with
    [None].  Module [Py] models exactly that fragment.  Calls into
    third-party libraries (datetime, numpy, pandas, arrow, dateutil) are
    kept abstract: they go through an oracle and are recorded in a call log,
    so that "nothing was parsed or converted yet" is a statement about the
    log. *)

From Stdlib Require Import ZArith List String Ascii Bool Lia.
From Stdlib Require Import DecimalString Uint63 Floats.

#[local] Set Warnings "-inexact-float".
Import ListNotations.

Local Open Scope string_scope.
Local Open Scope Z_scope.

(* ================================================================== *)
(** * The fragment of Python the code relies on *)
(* ================================================================== *)

Module Py.

(** ** Exceptions *)

(** The exception classes that the code raises or filters; [Exception] is
    the base class raised as such.  [LibValueError] stands for a library's
    own subclass of [ValueError] (arrow's [ParserError], pandas'
    [OutOfBoundsDatetime], ...), [LibError] for any other subclass of
    [Exception]. *)
Inductive exn_class : Type :=
| ValueError
| TypeError
| RuntimeError
| KeyError
| IndexError
| AttributeError
| UnboundLocalError
| Exception
| LibValueError (name : string)
| LibError (name : string).

(** An exception object: its class and [str(err)]. *)
Record exn : Type := Exn { exn_cls : exn_class; exn_msg : string }.

(** [isinstance(err, ValueError)], what [except ValueError] tests. *)
Definition is_ValueError (e : exn) : bool :=
  match exn_cls e with
  | ValueError | LibValueError _ => true
  | _ => false
  end.

Definition is_RuntimeError (e : exn) : bool :=
  match exn_cls e with RuntimeError => true | _ => false end.

(** [except (KeyError, IndexError, ValueError)]. *)
Definition is_Key_Index_ValueError (e : exn) : bool :=
  match exn_cls e with
  | KeyError | IndexError | ValueError | LibValueError _ => true
  | _ => false
  end.

(** [except Exception]: every class above derives from [Exception]. *)
Definition is_Exception (e : exn) : bool := true.

Inductive outcome (A : Type) : Type :=
| Ok (a : A)
| Raise (e : exn).
Arguments Ok {A} a.
Arguments Raise {A} e.

Definition returns {A} (o : outcome A) : bool :=
  match o with Ok _ => true | Raise _ => false end.

Definition raises_class {A} (p : exn -> bool) (o : outcome A) : bool :=
  match o with Ok _ => false | Raise e => p e end.

(** ** Values *)

(** A date-time of the standard library: the fields of
    [datetime.datetime]; [tzinfo] is the UTC offset in minutes of an aware
    value. *)
Record datetime : Type := Datetime {
  year : Z; month : Z; day : Z;
  hour : Z; minute : Z; second : Z; microsecond : Z;
  tzinfo : option Z
}.

(** The cells of a pandas column. *)
Inductive cell : Type :=
| CNone
| CInt (z : Z)
| CFloat (f : float)
| CStr (s : string)
| CObj (tyname : string) (id : Z).

Definition column : Type := list cell.

(** A DataFrame: its columns in order, each under its label. *)
Definition dataframe : Type := list (string * column).

(** The values that travel through the module.  [VClass] is a class object
    such as [np.float16]; [VObject] is an object of a third-party type,
    known by its type name and an identity. *)
Inductive pyval : Type :=
| VNone
| VInt (z : Z)
| VFloat (f : float)
| VStr (s : string)
| VClass (name : string)
| VDatetime (d : datetime)
| VSeries (c : column)
| VDataFrame (df : dataframe)
| VObject (tyname : string) (id : Z).

(** [type(v).__name__] *)
Definition type_name (v : pyval) : string :=
  match v with
  | VNone => "NoneType"
  | VInt _ => "int"
  | VFloat _ => "float"
  | VStr _ => "str"
  | VClass _ => "type"
  | VDatetime _ => "datetime"
  | VSeries _ => "Series"
  | VDataFrame _ => "DataFrame"
  | VObject ty _ => ty
  end.

(** ** Strings *)

Definition lower_ascii (c : ascii) : ascii :=
  let n := nat_of_ascii c in
  if (Nat.leb 65 n && Nat.leb n 90)%bool then ascii_of_nat (n + 32) else c.

(** [s.lower()] on ASCII text. *)
Fixpoint lower (s : string) : string :=
  match s with
  | EmptyString => EmptyString
  | String c r => String (lower_ascii c) (lower r)
  end.

(** [str(z)] for an [int]. *)
Definition str_int (z : Z) : string := NilZero.string_of_int (Z.to_int z).

Fixpoint join (sep : string) (l : list string) : string :=
  match l with
  | [] => EmptyString
  | [x] => x
  | x :: r => x ++ sep ++ join sep r
  end.

(** [repr(s)] for a string without quotes or escapes, which is what the
    option tables hold. *)
Definition repr_str (s : string) : string := "'" ++ s ++ "'".

(** [str(l)] for a list, given the [repr] of its elements. *)
Definition str_list {A} (repr : A -> string) (l : list A) : string :=
  "[" ++ join ", " (map repr l) ++ "]".

(** What an f-string needs to know of a value, and what [in] needs. *)
Class Showable (A : Type) : Type := {
  py_str : A -> string;
  py_repr : A -> string;
  py_eqb : A -> A -> bool
}.

#[export] Instance Showable_string : Showable string :=
  {| py_str := fun s => s; py_repr := repr_str; py_eqb := String.eqb |}.

(** [x in l] *)
Definition py_in {A} `{Showable A} (x : A) (l : list A) : bool :=
  existsb (py_eqb x) l.

(** A precision class given to numpy: by name (["d"], ["int"], ...) or as a
    class object ([np.float64], ...). *)
Inductive class_spec : Type :=
| ByName (s : string)
| NumpyClass (name : string).

Definition class_spec_eqb (a b : class_spec) : bool :=
  match a, b with
  | ByName x, ByName y => String.eqb x y
  | NumpyClass x, NumpyClass y => String.eqb x y
  | _, _ => false
  end.

Definition class_spec_str (a : class_spec) : string :=
  match a with
  | ByName s => s
  | NumpyClass n => "<class 'numpy." ++ n ++ "'>"
  end.

Definition class_spec_repr (a : class_spec) : string :=
  match a with
  | ByName s => repr_str s
  | NumpyClass n => "<class 'numpy." ++ n ++ "'>"
  end.

#[export] Instance Showable_class_spec : Showable class_spec :=
  {| py_str := class_spec_str; py_repr := class_spec_repr;
     py_eqb := class_spec_eqb |}.

Definition class_val (a : class_spec) : pyval :=
  match a with
  | ByName s => VStr s
  | NumpyClass n => VClass n
  end.

(** The line feed of a string literal. *)
Definition nl : string := String (ascii_of_nat 10) EmptyString.

(** ** Computations: exceptions and a log of library calls *)

(** One call into a third-party library: what was called, with which
    positional and keyword arguments. *)
Record lib_call : Type := LibCall {
  callee : string;
  call_args : list pyval;
  call_kwargs : list (string * pyval)
}.

Definition log : Type := list lib_call.

(** A computation either returns or raises, and extends the log. *)
Definition M (A : Type) : Type := log -> outcome A * log.

Definition ret {A} (a : A) : M A := fun l => (Ok a, l).

Definition raise {A} (e : exn) : M A := fun l => (Raise e, l).

Definition bind {A B} (m : M A) (k : A -> M B) : M B :=
  fun l =>
    match m l with
    | (Ok a, l') => k a l'
    | (Raise e, l') => (Raise e, l')
    end.

Definition lift {A} (o : outcome A) : M A := fun l => (o, l).

(** [try: m  except C as err: handler err], where [catches] is
    [isinstance(err, C)]. *)
Definition try_except {A} (m : M A) (catches : exn -> bool)
    (handler : exn -> M A) : M A :=
  fun l =>
    match m l with
    | (Ok a, l') => (Ok a, l')
    | (Raise e, l') => if catches e then handler e l' else (Raise e, l')
    end.

(** A run from the empty log. *)
Definition run {A} (m : M A) : outcome A * log := m [].

Declare Scope py_scope.
Delimit Scope py_scope with py.
Notation "x <- m ;; k" := (bind m (fun x => k))
  (at level 61, m at next level, right associativity) : py_scope.
Notation "m ;; k" := (bind m (fun _ => k))
  (at level 61, right associativity) : py_scope.
Local Open Scope py_scope.

(** ** Truth values and comparisons with [None] *)

(** [not s] for a value that is a string or [None]. *)
Definition falsy (s : option string) : bool :=
  match s with
  | None => true
  | Some s => String.eqb s EmptyString
  end.

(** [a <= b] where [b] may be [None]: ordering an [int] against [None]
    raises [TypeError]. *)
Definition int_le_opt (a : Z) (b : option Z) : M bool :=
  match b with
  | Some b => ret (a <=? b)
  | None => raise (Exn TypeError
      "'<=' not supported between instances of 'int' and 'NoneType'")
  end.

(** [a <= b <= c], which is [a <= b and b <= c] with [b] evaluated once. *)
Definition int_between_opt (a : Z) (b : option Z) (c : Z) : M bool :=
  lo <- int_le_opt a b ;;
  if lo then
    match b with
    | Some b => ret (b <=? c)
    | None => ret false
    end
  else ret false.

(** [a > b] where [a] may be [None]. *)
Definition opt_gt_int (a : option Z) (b : Z) : M bool :=
  match a with
  | Some a => ret (b <? a)
  | None => raise (Exn TypeError
      "'>' not supported between instances of 'NoneType' and 'int'")
  end.

(** ** Callables and the binding of arguments *)

(** A function or lambda whose parameters are all positional-or-keyword
    and have no default, with or without a trailing [*args]; this is the
    shape of every callable of the module that matters here.  The body
    receives the values of the parameters in order, followed by the surplus
    positional arguments when there is a [*args]. *)
Record pyfun : Type := PyFun {
  fn_name : string;
  fn_params : list string;
  fn_varargs : bool;
  fn_body : list pyval -> M pyval
}.

Definition slots : Type := list (string * option pyval).

Fixpoint init_slots (params : list string) (args : list pyval) : slots :=
  match params, args with
  | [], _ => []
  | p :: ps, [] => (p, None) :: init_slots ps []
  | p :: ps, a :: rest => (p, Some a) :: init_slots ps rest
  end.

Inductive kw_result : Type :=
| KwUnexpected
| KwMultiple
| KwBound (s : slots).

(** Binding one keyword argument. *)
Fixpoint set_kw (k : string) (v : pyval) (s : slots) : kw_result :=
  match s with
  | [] => KwUnexpected
  | (p, o) :: r =>
      if String.eqb p k then
        match o with
        | Some _ => KwMultiple
        | None => KwBound ((p, Some v) :: r)
        end
      else
        match set_kw k v r with
        | KwBound r' => KwBound ((p, o) :: r')
        | other => other
        end
  end.

(** Binding the keyword arguments in the order of the call; the first one
    that does not fit decides the error. *)
Fixpoint set_kws (f : string) (kwargs : list (string * pyval)) (s : slots)
    : outcome slots :=
  match kwargs with
  | [] => Ok s
  | (k, v) :: rest =>
      match set_kw k v s with
      | KwUnexpected => Raise (Exn TypeError
          (f ++ "() got an unexpected keyword argument '" ++ k ++ "'"))
      | KwMultiple => Raise (Exn TypeError
          (f ++ "() got multiple values for argument '" ++ k ++ "'"))
      | KwBound s' => set_kws f rest s'
      end
  end.

Definition missing (s : slots) : list string :=
  map fst
    (filter (fun x => match snd x with None => true | Some _ => false end)
       s).

Fixpoint slot_values (s : slots) : list pyval :=
  match s with
  | [] => []
  | (_, Some v) :: r => v :: slot_values r
  | (_, None) :: r => slot_values r
  end.

(** The names of the parameters left without a value, as the interpreter
    lists them: ['a'], ['a' and 'b'], ['a', 'b', and 'c']. *)
Fixpoint name_list (names : list string) : string :=
  match names with
  | [] => EmptyString
  | [a] => repr_str a
  | [a; b] => repr_str a ++ " and " ++ repr_str b
  | a :: ((_ :: _ :: _) as rest) =>
      repr_str a ++ ", "
      ++ match rest with
         | [b; c] => repr_str b ++ ", and " ++ repr_str c
         | _ => name_list rest
         end
  end.

Definition plural (n : nat) : string :=
  match n with 1%nat => EmptyString | _ => "s" end.

Definition str_nat (n : nat) : string := str_int (Z.of_nat n).

(** The interpreter's checks at a call, in its order: keyword arguments,
    then too many positional arguments, then parameters left without a
    value. *)
Definition bind_args (f : pyfun) (args : list pyval)
    (kwargs : list (string * pyval)) : outcome (list pyval) :=
  let n := List.length (fn_params f) in
  let given := List.length args in
  match set_kws (fn_name f) kwargs (init_slots (fn_params f) args) with
  | Raise e => Raise e
  | Ok s =>
      if (Nat.ltb n given && negb (fn_varargs f))%bool then
        Raise (Exn TypeError
          (fn_name f ++ "() takes " ++ str_nat n ++ " positional argument"
           ++ plural n ++ " but " ++ str_nat given
           ++ (match given with 1%nat => " was" | _ => " were" end)
           ++ " given"))
      else
        match missing s with
        | [] => Ok (slot_values s ++ skipn n args)%list
        | names =>
            Raise (Exn TypeError
              (fn_name f ++ "() missing " ++ str_nat (List.length names)
               ++ " required positional argument"
               ++ plural (List.length names) ++ ": "
               ++ name_list names))
        end
  end.

(** A call with positional and keyword arguments. *)
Definition call (f : pyfun) (args : list pyval)
    (kwargs : list (string * pyval)) : M pyval :=
  match bind_args f args kwargs with
  | Ok vs => fn_body f vs
  | Raise e => raise e
  end.

(** Calling what [dict.get] returned, which is [None] for a missing key. *)
Definition call_opt (f : option pyfun) (args : list pyval)
    (kwargs : list (string * pyval)) : M pyval :=
  match f with
  | Some f => call f args kwargs
  | None => raise (Exn TypeError "'NoneType' object is not callable")
  end.

(** The body of a callable is only ever entered with as many values as it
    has parameters. *)
Definition not_bound : M pyval :=
  raise (Exn TypeError "arguments not bound").

Definition fun1 (name p1 : string) (b : pyval -> M pyval) : pyfun :=
  PyFun name [p1] false
    (fun vs => match vs with [a] => b a | _ => not_bound end).

Definition fun2 (name p1 p2 : string) (b : pyval -> pyval -> M pyval)
    : pyfun :=
  PyFun name [p1; p2] false
    (fun vs => match vs with [a1; a2] => b a1 a2 | _ => not_bound end).

Definition fun3 (name p1 p2 p3 : string)
    (b : pyval -> pyval -> pyval -> M pyval) : pyfun :=
  PyFun name [p1; p2; p3] false
    (fun vs => match vs with [a1; a2; a3] => b a1 a2 a3 | _ => not_bound end).

Definition fun4 (name p1 p2 p3 p4 : string)
    (b : pyval -> pyval -> pyval -> pyval -> M pyval) : pyfun :=
  PyFun name [p1; p2; p3; p4] false
    (fun vs =>
       match vs with [a1; a2; a3; a4] => b a1 a2 a3 a4 | _ => not_bound end).

Definition lambda1 := fun1 "<lambda>".
Definition lambda2 := fun2 "<lambda>".
Definition lambda3 := fun3 "<lambda>".
Definition lambda4 := fun4 "<lambda>".

(** ** Dictionaries with string keys, in insertion order *)

Definition dict (V : Type) : Type := list (string * V).

Definition keys {V} (d : dict V) : list string := map fst d.

(** [d.get(k)] *)
Fixpoint get {V} (d : dict V) (k : string) : option V :=
  match d with
  | [] => None
  | (k', v) :: r => if String.eqb k' k then Some v else get r k
  end.

(** [d[k]] *)
Definition getitem {V} (d : dict V) (k : string) : M V :=
  match get d k with
  | Some v => ret v
  | None => raise (Exn KeyError (repr_str k))
  end.

(** ** Integer arithmetic of the interpreter *)

(** [divmod(a, b)] on [int], for [b > 0]: floor division and its remainder,
    which are [Z.div] and [Z.modulo]. *)
Definition divmod (a b : Z) : Z * Z := (a / b, a mod b).

(** [round(z, n)] on an [int]: [z] itself for [n >= 0], the nearest
    multiple of [10 ** -n] otherwise, ties going to the even quotient. *)
Definition round_int (z n : Z) : Z :=
  if 0 <=? n then z
  else
    let p := 10 ^ (- n) in
    let q := z / p in
    let r := z mod p in
    if 2 * r <? p then q * p
    else if p <? 2 * r then (q + 1) * p
    else if Z.even q then q * p
    else (q + 1) * p.

(** The numbers a caller passes as a time are [int] or [float]; the code
    uses them through these operations only: [x // k] and [x % k] for an
    [int] constant [k], [round(x)], [round(x, n)], [x > 0], [str(x)], and
    the value itself handed to a library. *)
Class Number (T : Type) : Type := {
  num_floordiv : T -> Z -> T;
  num_mod : T -> Z -> T;
  num_round : T -> outcome Z;
  num_round_digits : T -> Z -> T;
  num_positive : T -> bool;
  num_str : T -> string;
  num_val : T -> pyval
}.

(** [divmod(x, k)] *)
Definition num_divmod {T} `{Number T} (x : T) (k : Z) : T * T :=
  (num_floordiv x k, num_mod x k).

(** [int], with the interpreter's floor division. *)
#[export] Instance Number_int : Number Z := {|
  num_floordiv := Z.div;
  num_mod := Z.modulo;
  num_round := fun z => Ok z;
  num_round_digits := round_int;
  num_positive := fun z => 0 <? z;
  num_str := str_int;
  num_val := VInt
|}.

(** ** Floats *)

(** A [float] of the interpreter is an IEEE binary64 number.  Sums,
    differences and quotients are the primitive ones; the operations that C
    and the interpreter define by the exact value of the number ([fmod],
    [floor], the decimal rounding of [round], the digits of [repr]) are
    computed on the mantissa and the exponent that [Prim2SF] gives: a finite
    float other than zero is [m * 2 ^ e]. *)

(** The quotient [num / den] rounded to the nearest integer, a tie going
    to the even one. *)
Definition round_half_even (num den : Z) : Z :=
  let k := num / den in
  let r := num mod den in
  if 2 * r <? den then k
  else if den <? 2 * r then k + 1
  else if Z.even k then k
  else k + 1.

(** The float nearest to [p / q] for [0 <= p] and [0 < q], a tie going to
    the even mantissa, with the sign [neg]: the rounding of [strtod] and of
    the conversion of an [int].  A quotient beyond the largest float gives
    infinity. *)
Definition float_nearest (neg : bool) (p q : Z) : float :=
  if p <=? 0 then (if neg then neg_zero else zero)
  else
    let d := Z.log2 p - Z.log2 q in
    let above := if 0 <=? d then q * 2 ^ d <=? p else q <=? p * 2 ^ (- d) in
    let fl := if above then d else d - 1 in
    let e := Z.max (fl - 52) (-1074) in
    let num := if 0 <=? e then p else p * 2 ^ (- e) in
    let den := if 0 <=? e then q * 2 ^ e else q in
    let m := round_half_even num den in
    let f := Z.ldexp (of_uint63 (Uint63.of_Z m)) e in
    if neg then (- f)%float else f.

(** [float(k)], as in [x // k] for a float [x] and an [int] [k]. *)
Definition float_from_int (k : Z) : float :=
  float_nearest (k <? 0) (Z.abs k) 1.

(** C's [fmod]: the exact remainder of the division that truncates, with
    the sign of [x]. *)
Definition float_fmod (x w : float) : float :=
  match Prim2SF x, Prim2SF w with
  | S754_nan, _ | _, S754_nan => nan
  | S754_infinity _, _ => nan
  | _, S754_zero _ => nan
  | _, S754_infinity _ => x
  | S754_zero _, _ => x
  | S754_finite s m e, S754_finite _ mw ew =>
      let c := Z.min e ew in
      let r := (Zpos m * 2 ^ (e - c)) mod (Zpos mw * 2 ^ (ew - c)) in
      if 0 <=? c then float_nearest s (r * 2 ^ c) 1
      else float_nearest s r (2 ^ (- c))
  end.

(** C's [floor]. *)
Definition float_floor (x : float) : float :=
  match Prim2SF x with
  | S754_finite s m e =>
      if 0 <=? e then x
      else
        let q := Zpos m / 2 ^ (- e) in
        if s then
          float_nearest true
            (if Zpos m mod 2 ^ (- e) =? 0 then q else q + 1) 1
        else float_nearest false q 1
  | _ => x
  end.

(** [if (x)] in C: true of every float but the two zeros. *)
Definition float_nonzero (x : float) : bool := negb (x =? 0)%float.

(** [copysign(0.0, w)] *)
Definition float_copysign_zero (w : float) : float :=
  if get_sign w then neg_zero else zero.

(** [x % w] on floats, for [w] other than zero: the remainder of [fmod],
    moved to the sign of [w]. *)
Definition float_mod (x w : float) : float :=
  let md := float_fmod x w in
  if float_nonzero md then
    if xorb (w <? 0)%float (md <? 0)%float then (md + w)%float else md
  else float_copysign_zero w.

(** [x // w] on floats, for [w] other than zero: the quotient of what is
    left of [x] without its remainder, snapped to a whole number. *)
Definition float_floordiv (x w : float) : float :=
  let md := float_fmod x w in
  let div := ((x - md) / w)%float in
  let div :=
    if (float_nonzero md && xorb (w <? 0)%float (md <? 0)%float)%bool
    then (div - 1)%float else div in
  if float_nonzero div then
    let fd := float_floor div in
    if (0.5 <? div - fd)%float then (fd + 1)%float else fd
  else float_copysign_zero (x / w)%float.

(** The float [m * 2 ^ e] moved by [n] decimal places, as a quotient of
    integers: [m * 2 ^ e * 10 ^ n = scaled_num m e n / scaled_den e n]. *)
Definition scaled_num (m : positive) (e n : Z) : Z :=
  Zpos m * (if 0 <=? e then 2 ^ e else 1)
  * (if 0 <=? n then 10 ^ n else 1).

Definition scaled_den (e n : Z) : Z :=
  (if 0 <=? e then 1 else 2 ^ (- e))
  * (if 0 <=? n then 1 else 10 ^ (- n)).

(** [round(x, n)] on a float: the exact value is rounded to a multiple of
    [10 ** -n], a tie going to the even multiple, and the float nearest to
    that decimal is returned.  Beyond 323 places a float has no digits, and
    below -308 nothing is left of it. *)
Definition float_round_digits (x : float) (n : Z) : float :=
  match Prim2SF x with
  | S754_finite s m e =>
      if 323 <? n then x
      else if n <? -308 then (if s then neg_zero else zero)
      else
        let k := round_half_even (scaled_num m e n) (scaled_den e n) in
        if 0 <=? n then float_nearest s k (10 ^ n)
        else float_nearest s (k * 10 ^ (- n)) 1
  | _ => x
  end.

(** [round(x)] on a float: the nearest [int], a tie going to the even
    one. *)
Definition float_round (x : float) : outcome Z :=
  match Prim2SF x with
  | S754_nan =>
      Raise (Exn ValueError "cannot convert float NaN to integer")
  | S754_infinity _ =>
      Raise (Exn (LibError "OverflowError")
        "cannot convert float infinity to integer")
  | S754_zero _ => Ok 0
  | S754_finite s m e =>
      let k := round_half_even (scaled_num m e 0) (scaled_den e 0) in
      Ok (if s then - k else k)
  end.

(** [p / q >= 10 ** k], for [0 < p] and [0 < q]. *)
Definition ge_pow10 (p q k : Z) : bool :=
  if 0 <=? k then q * 10 ^ k <=? p else q <=? p * 10 ^ (- k).

(** The [k] with [10 ** k <= p / q < 10 ** (k + 1)]: an estimate from the
    binary logarithms, then the comparison. *)
Definition floor_log10 (p q : Z) : Z :=
  let est := ((Z.log2 p - Z.log2 q) * 1233) / 4096 in
  if ge_pow10 p q (est + 2) then est + 2
  else if ge_pow10 p q (est + 1) then est + 1
  else if ge_pow10 p q est then est
  else if ge_pow10 p q (est - 1) then est - 1
  else est - 2.

(** The digits of [repr]: the shortest decimal that reads back as the
    float [x = p / q], and the nearest to [x] among the shortest; the search
    goes from [n] digits upwards.  The result is the digits as a number and
    the place of the decimal point before them. *)
Fixpoint shortest_digits (fuel : nat) (x : float) (p q decpt n : Z)
    : Z * Z :=
  let j := n - decpt in
  let num := if 0 <=? j then p * 10 ^ j else p in
  let den := if 0 <=? j then q else q * 10 ^ (- j) in
  let lo := num / den in
  let r := num mod den in
  let hi := lo + 1 in
  let back (c : Z) :=
    PrimFloat.eqb
      (if 0 <=? j then float_nearest false c (10 ^ j)
       else float_nearest false (c * 10 ^ (- j)) 1) x in
  let pick c := if c =? 10 ^ n then (1, decpt + 1) else (c, decpt) in
  let lo_first :=
    if 2 * r <? den then true
    else if den <? 2 * r then false
    else Z.even lo in
  let first := if lo_first then lo else hi in
  let second := if lo_first then hi else lo in
  if back first then pick first
  else if back second then pick second
  else
    match fuel with
    | O => pick first
    | S fuel' => shortest_digits fuel' x p q decpt (n + 1)
    end.

Fixpoint zeros (n : nat) : string :=
  match n with
  | O => EmptyString
  | S n' => String "0" (zeros n')
  end.

(** [repr(x)], which is also [str(x)] and what a [{}] field renders, for a
    float: the shortest digits, in exponent form when the point is more
    than 16 places after or 4 places or more before the first digit. *)
Definition float_repr (x : float) : string :=
  match Prim2SF x with
  | S754_nan => "nan"
  | S754_infinity s => if s then "-inf" else "inf"
  | S754_zero s => if s then "-0.0" else "0.0"
  | S754_finite s m e =>
      let p := scaled_num m e 0 in
      let q := scaled_den e 0 in
      let '(c, decpt) :=
        shortest_digits 17 (abs x) p q (floor_log10 p q + 1) 1 in
      let digits := str_int c in
      let n := Z.of_nat (String.length digits) in
      let body :=
        if ((decpt <=? -4) || (16 <? decpt))%bool then
          let ex := decpt - 1 in
          let mant :=
            match digits with
            | String d EmptyString => digits
            | String d rest => String d (String "." rest)
            | EmptyString => digits
            end in
          mant ++ "e" ++ (if ex <? 0 then "-" else "+")
          ++ (if Z.abs ex <? 10 then "0" else EmptyString)
          ++ str_int (Z.abs ex)
        else if decpt <=? 0 then
          "0." ++ zeros (Z.to_nat (- decpt)) ++ digits
        else if n <=? decpt then
          digits ++ zeros (Z.to_nat (decpt - n)) ++ ".0"
        else
          substring 0 (Z.to_nat decpt) digits ++ "."
          ++ substring (Z.to_nat decpt) (Z.to_nat (n - decpt)) digits
      in
      (if s then "-" else EmptyString) ++ body
  end.

(** [float].  The divisors that the code uses are the constants 3600, 24
    and 60.  Where the interpreter has no float to return ([x // 0], the
    conversion of an [int] beyond the largest float, a [round(x, n)] that
    overflows, none of which the seconds of a time can reach) the
    operations give [nan] or an infinity. *)
#[export] Instance Number_float : Number float := {|
  num_floordiv := fun x k => float_floordiv x (float_from_int k);
  num_mod := fun x k => float_mod x (float_from_int k);
  num_round := float_round;
  num_round_digits := float_round_digits;
  num_positive := fun x => (0 <? x)%float;
  num_str := float_repr;
  num_val := VFloat
|}.

(** [l[i]] on a list. *)
Definition list_item {A} (l : list A) (i : nat) : M A :=
  match nth_error l i with
  | Some x => ret x
  | None => raise (Exn IndexError "list index out of range")
  end.

(** [for x in l: s = body x s] *)
Fixpoint for_each {A S} (l : list A) (body : A -> S -> M S) (s : S) : M S :=
  match l with
  | [] => ret s
  | x :: r => s' <- body x s ;; for_each r body s'
  end.

(** A function applied to every element, stopping at the first that
    raises. *)
Fixpoint map_outcome {A B} (f : A -> outcome B) (l : list A)
    : outcome (list B) :=
  match l with
  | [] => Ok []
  | x :: r =>
      match f x with
      | Raise e => Raise e
      | Ok y =>
          match map_outcome f r with
          | Raise e => Raise e
          | Ok ys => Ok (y :: ys)
          end
      end
  end.

(** [df[col]] for a label of the frame, and [df[col] = c]. *)
Definition frame_getitem (df : dataframe) (col : string) : M column :=
  getitem df col.

Definition frame_setitem (df : dataframe) (col : string) (c : column)
    : dataframe :=
  map (fun lc => if String.eqb (fst lc) col then (fst lc, c) else lc) df.

(** ** The world outside the module *)

(** The third-party libraries and the constants of
    [paramlib.global_parameters] are parameters of the development: every
    general theorem holds whatever they are. *)
Class Backend : Type := {
  (** a call into a library: callee, positional and keyword arguments *)
  ffi : string -> list pyval -> list (string * pyval) -> outcome pyval;
  (** [hasattr(obj, name)] *)
  has_attr : pyval -> string -> bool;
  (** pandas, element by element: [astype(cls)] and the product by a scalar *)
  astype_cell : pyval -> cell -> outcome cell;
  mul_cell : cell -> pyval -> outcome cell;
  (** [global_parameters.numpy_unit_list], [pandas_unit_list],
      [unit_factor_dict] *)
  numpy_unit_list : list string;
  pandas_unit_list : list string;
  unit_factor_dict : dict pyval
}.

(** A library call, recorded in the log. *)
Definition foreign `{Backend} (name : string) (args : list pyval)
    (kwargs : list (string * pyval)) : M pyval :=
  fun l => (ffi name args kwargs, (l ++ [LibCall name args kwargs])%list).

(** [str(v)] in an f-string. *)
Definition str_val `{Backend} (v : pyval) : M string :=
  match v with
  | VStr s => ret s
  | VNone => ret "None"
  | VInt z => ret (str_int z)
  | other =>
      r <- foreign "str" [other] [] ;;
      match r with
      | VStr s => ret s
      | _ => raise (Exn TypeError "__str__ returned non-string")
      end
  end.

(** [Series.astype(cls)] and [Series * k]. *)
Definition series_astype `{Backend} (c : column) (cls : pyval)
    : outcome column :=
  map_outcome (astype_cell cls) c.

Definition series_mul `{Backend} (c : column) (k : pyval) : outcome column :=
  map_outcome (fun x => mul_cell x k) c.

(** [d.get(k)] for a key that is a value; only strings are keys. *)
Definition get_val {V} (d : dict V) (k : pyval) : option V :=
  match k with
  | VStr s => get d s
  | _ => None
  end.

End Py.


(* ================================================================== *)
(** * [time_handling/time_formatters.py] *)
(* ================================================================== *)

Module TimeFormatters.
Import Py.
Local Open Scope py_scope.

Section Code.
Context `{Backend}.

(** ** Input validation streamliners *)

Definition _validate_option {A} `{Showable A} (explanation : string)
    (opt : A) (allowed_options : list A) : M unit :=
  if negb (py_in opt allowed_options) then
    raise (Exn ValueError
      (explanation ++ " '" ++ py_str opt
       ++ "' not supported for this operation. "
       ++ "Choose one from " ++ str_list py_repr allowed_options ++ "."))
  else ret tt.

(** The defaults of [min_prec] and [max_prec]. *)
Definition default_min_prec : Z := 0.
Definition default_max_prec : Z := 9.

Definition _validate_precision (frac_precision : option Z) (opt : string)
    (min_prec max_prec : Z) : M unit :=
  out_of_range <-
    match frac_precision with
    | None => ret false
    | Some _ =>
        inside <- int_between_opt min_prec frac_precision max_prec ;;
        ret (negb inside)
    end ;;
  if out_of_range then
    raise (Exn ValueError
      ("Fractional precision must be between " ++ str_int min_prec
       ++ " and " ++ str_int max_prec ++ "."))
  else
    high <- int_between_opt 7 frac_precision max_prec ;;
    if (high && negb (String.eqb opt "pandas"))%bool then
      raise (Exn ValueError
        ("Only option 'pandas' supports precision="
         ++ match frac_precision with
            | Some p => str_int p
            | None => "None"
            end ++ "."))
    else ret tt.

Definition _validate_unit (unit_ module : string) : M unit :=
  (if (String.eqb module "numpy" && negb (py_in unit_ numpy_unit_list))%bool
   then raise (Exn ValueError
          ("Unsupported date unit for numpy.datetime64 objects. "
           ++ "Choose one from " ++ str_list repr_str numpy_unit_list ++ "."))
   else ret tt) ;;
  if (String.eqb module "pandas" && negb (py_in unit_ pandas_unit_list))%bool
  then raise (Exn ValueError
         ("Unsupported date unit for pandas.Timestamp objects. "
          ++ "Choose one from " ++ str_list repr_str pandas_unit_list ++ "."))
  else ret tt.

(** ** Parsing a time string *)

Definition time_str_parsing_dict : dict pyfun := [
  ("datetime", lambda2 "datetime_str" "dt_fmt_str"
     (fun datetime_str dt_fmt_str =>
        foreign "datetime.strptime" [datetime_str; dt_fmt_str] []));
  ("dateutil", lambda2 "datetime_str" "dt_fmt_str"
     (fun datetime_str dt_fmt_str =>
        foreign "dateutil.parser.parse" [datetime_str; dt_fmt_str] []));
  ("pandas", lambda3 "datetime_str" "dt_fmt_str" "unit"
     (fun datetime_str dt_fmt_str unit_ =>
        foreign "pd.to_datetime" [datetime_str]
          [("format", dt_fmt_str); ("unit", unit_)]));
  ("numpy", lambda3 "datetime_str" "dt_fmt_str" "unit"
     (fun datetime_str dt_fmt_str unit_ =>
        foreign "np.datetime64" [datetime_str; unit_] []));
  ("arrow", lambda2 "datetime_str" "dt_fmt_str"
     (fun datetime_str dt_fmt_str =>
        foreign "arrow.get" [datetime_str; dt_fmt_str] []))
].

(** A format string or [None], as a value. *)
Definition fmt_val (dt_fmt_str : option string) : pyval :=
  match dt_fmt_str with
  | Some s => VStr s
  | None => VNone
  end.

Definition parse_time_string (datetime_str : string)
    (dt_fmt_str : option string) (module unit_ : string) : M pyval :=
  let allowed_modules := keys time_str_parsing_dict in
  _validate_option "Module" module allowed_modules ;;
  if falsy dt_fmt_str then
    raise (Exn ValueError "A datetime format string must be provided.")
  else
    try_except
      (let parse_func := get time_str_parsing_dict module in
       if String.eqb module "pandas"
       then call_opt parse_func
              [VStr datetime_str; fmt_val dt_fmt_str; VStr unit_] []
       else call_opt parse_func [VStr datetime_str; fmt_val dt_fmt_str] [])
      is_ValueError
      (fun _ => raise (Exn ValueError
         "The time string does not match the format string provided.")).

(** ** Parsing a number of time units *)

(** Modelled from the spec: [format_string] of
    [strings.information_output_formatters] is not among the sources.  The
    design renders the parts of an elapsed time into the templates
    ["{} days {} hours {} minutes {} seconds"] and
    ["{} hours {} minutes {} seconds"]: each [{}] field takes the next part,
    a field without a part is an [IndexError], a brace outside a field a
    [ValueError]. *)
Fixpoint format_string (template : string) (parts : list string)
    : outcome string :=
  match template with
  | EmptyString => Ok EmptyString
  | String "{" (String "}" rest) =>
      match parts with
      | [] => Raise (Exn IndexError
                "Replacement index out of range for positional args tuple")
      | p :: parts' =>
          match format_string rest parts' with
          | Ok r => Ok (p ++ r)
          | Raise e => Raise e
          end
      end
  | String "{" _ =>
      Raise (Exn ValueError "Single '{' encountered in format string")
  | String "}" _ =>
      Raise (Exn ValueError "Single '}' encountered in format string")
  | String c rest =>
      match format_string rest parts with
      | Ok r => Ok (String c r)
      | Raise e => Raise e
      end
  end.

(** Preformatted strings *)
Definition _time_str_parts_fmts : list string := [
  "{} days {} hours {} minutes {} seconds";
  "{} hours {} minutes {} seconds"
].

Definition _format_arbitrary_time {T} `{Number T} (floated_time : T)
    (frac_precision : option Z) : M string :=
  (* Compute time components *)
  let '(days, hours) := num_divmod (num_floordiv floated_time 3600) 24 in
  let '(minutes, seconds) := num_divmod (num_mod floated_time 3600) 60 in
  (* Maintain precisions higher than 6 in the upper bound *)
  above <- opt_gt_int frac_precision 6 ;;
  let frac_precision := if above then Some 6 else frac_precision in
  let seconds :=
    match frac_precision with
    | Some n => num_round_digits seconds n
    | None => seconds
    end in
  (* Format time parts *)
  try_except
    (if num_positive days then
       let time_tuple := [days; hours; minutes; seconds] in
       fmt <- list_item _time_str_parts_fmts 0 ;;
       lift (format_string fmt (map num_str time_tuple))
     else
       let time_tuple := [hours; minutes; seconds] in
       fmt <- list_item _time_str_parts_fmts 1 ;;
       lift (format_string fmt (map num_str time_tuple)))
    is_Key_Index_ValueError
    (fun e => raise (Exn ValueError
       ("Invalid format string or time components: " ++ exn_msg e))).

Definition floated_time_parsing_dict : dict pyfun := [
  ("datetime", lambda2 "floated_time" "_"
     (fun floated_time _ =>
        foreign "datetime.fromtimestamp" [floated_time] []));
  ("time", lambda1 "floated_time"
     (fun floated_time =>
        st <- foreign "time.localtime" [floated_time] [] ;;
        foreign "datetime[:6]" [st] []));
  ("pandas", lambda2 "floated_time" "unit"
     (fun floated_time unit_ =>
        foreign "pd.to_datetime" [floated_time] [("unit", unit_)]));
  ("numpy", lambda2 "floated_time" "unit"
     (fun floated_time unit_ =>
        foreign "np.datetime64" [floated_time; unit_] []));
  ("arrow", lambda2 "floated_time" "_"
     (fun floated_time _ => foreign "arrow.get" [floated_time] []))
].

Definition _float_time_parser {T} `{Number T} (floated_time : T)
    (module unit_ : string) : M pyval :=
  let allowed_modules := keys floated_time_parsing_dict in
  _validate_option "Object type conversion" module allowed_modules ;;
  _validate_unit unit_ module ;;
  call_opt (get floated_time_parsing_dict module)
    [num_val floated_time; VStr unit_] [].

Definition _parse_float_to_string {T} `{Number T} (floated_time : T)
    (frac_precision : option Z) (origin : string)
    (dt_fmt_str : option string) (unit_ module : string) : M pyval :=
  if String.eqb origin "arbitrary" then
    s <- _format_arbitrary_time floated_time frac_precision ;;
    ret (VStr s)
  else if String.eqb origin "unix" then
    match frac_precision with
    | Some p =>
        if p <=? 6 then
          dt_seconds <- lift (num_round floated_time) ;;
          dt_obj <- _float_time_parser dt_seconds module unit_ ;;
          foreign ".strftime" [dt_obj; fmt_val dt_fmt_str] []
        else if ((7 <=? p) && (p <=? 9))%bool then
          foreign "get_nano_datetime"
            [num_val floated_time; VStr module] []
        else
          raise (Exn UnboundLocalError
            ("cannot access local variable 'dt_str' where it is not "
             ++ "associated with a value"))
    | None =>
        dt_obj <- _float_time_parser floated_time module unit_ ;;
        foreign ".strftime" [dt_obj; fmt_val dt_fmt_str] []
    end
  else ret VNone.

Definition parse_float_time {T} `{Number T} (datetime_float : T)
    (frac_precision : option Z) (origin unit_ : string)
    (dt_fmt_str : option string) (module : string) : M pyval :=
  let allowed_modules := ("str" :: keys floated_time_parsing_dict)%list in
  _validate_option "Object type conversion" module allowed_modules ;;
  if (negb (String.eqb module "str") && falsy dt_fmt_str)%bool then
    raise (Exn ValueError "You must provide a formatting string.")
  else
    _validate_precision frac_precision module
      default_min_prec default_max_prec ;;
    _validate_unit unit_ module ;;
    if String.eqb module "str" then
      _parse_float_to_string datetime_float frac_precision origin
        dt_fmt_str unit_ module
    else
      _float_time_parser datetime_float module unit_.

(** ** Conversions among date/time objects *)

(** Modelled from the spec: [get_type_str] of the introspection utilities
    is not among the sources.  The design detects the source kind from the
    value's runtime type name, which the conversion tables spell in lower
    case. *)
Definition get_type_str (obj : pyval) (lowercase : bool) : string :=
  if lowercase then lower (type_name obj) else type_name obj.

(** Precision classes for number integer or floating precision *)
Definition _float_class_list : list class_spec := [
  NumpyClass "float16"; NumpyClass "float32"; ByName "f";
  NumpyClass "float64"; ByName "float"; ByName "d"; NumpyClass "float128"
].

Definition _int_class_list : list class_spec := [
  NumpyClass "int8"; NumpyClass "int16"; ByName "i";
  NumpyClass "float32"; ByName "int"; NumpyClass "int64"
].

(** *** Array-like complex data *)

Definition _total_time_complex_data (datetime_obj int_class unit_factor : pyval)
    : M pyval :=
  let current_method := "_total_time_complex_data" in
  match datetime_obj with
  | VSeries s =>
      let dt_obj_aux := s in
      try_except
        (casted <- lift (series_astype dt_obj_aux int_class) ;;
         total <- lift (series_mul casted unit_factor) ;;
         ret (VSeries total))
        is_Exception
        (fun err => raise (Exn RuntimeError
           ("Error in '" ++ current_method ++ "' method "
            ++ "for 'Series' type object:" ++ nl ++ exn_msg err ++ ".")))
  | VDataFrame df =>
      let dt_obj_aux := df in
      try_except
        (dt_obj_aux <-
           for_each (keys df)
             (fun col dt_obj_aux =>
                try_except
                  (c <- frame_getitem dt_obj_aux col ;;
                   casted <- lift (series_astype c int_class) ;;
                   total <- lift (series_mul casted unit_factor) ;;
                   ret (frame_setitem dt_obj_aux col total))
                  is_ValueError
                  (fun _ => ret dt_obj_aux))
             dt_obj_aux ;;
         ret (VDataFrame dt_obj_aux))
        is_Exception
        (fun err => raise (Exn RuntimeError
           ("Error in '" ++ current_method ++ "' method "
            ++ "for 'DataFrame' type object:" ++ nl ++ exn_msg err ++ ".")))
  | other =>
      foreign ".copy" [other] [] ;;
      ret VNone
  end.

(** *** Helpers of the conversion tables

    The tables below call these functions with one, two or three arguments;
    what decides such a call first is the parameter list, which is the
    source's.  [_to_string], [_to_float] and [_to_datetime] dispatch on
    library types inside; their bodies are calls into the outside world
    under their own names. *)

Definition _tzinfo_remover : pyfun :=
  fun1 "_tzinfo_remover" "dt_obj"
    (fun dt_obj =>
       if has_attr dt_obj "tzinfo"
       then foreign ".replace" [dt_obj] [("tzinfo", VNone)]
       else ret dt_obj).

Definition _to_string : pyfun :=
  fun3 "_to_string" "dt_obj" "unit" "dt_fmt_str"
    (fun dt_obj unit_ dt_fmt_str =>
       foreign "_to_string" [dt_obj; unit_; dt_fmt_str] []).

Definition _to_float : pyfun :=
  fun3 "_to_float" "dt_obj" "unit" "float_class"
    (fun dt_obj unit_ float_class =>
       foreign "_to_float" [dt_obj; unit_; float_class] []).

Definition _to_datetime : pyfun :=
  fun2 "_to_datetime" "dt_obj" "unit"
    (fun dt_obj unit_ => foreign "_to_datetime" [dt_obj; unit_] []).

Definition _to_datetime_aux : pyfun :=
  fun2 "_to_datetime_aux" "dt_obj" "unit"
    (fun dt_obj unit_ =>
       ts <- foreign "pd.to_datetime" [dt_obj] [("unit", unit_)] ;;
       foreign ".to_pydatetime" [ts] []).

Definition _to_time_struct : pyfun :=
  fun1 "_to_time_struct" "dt_obj"
    (fun dt_obj =>
       d <- call _to_datetime [dt_obj] [] ;;
       foreign ".timetuple" [d] []).

Definition _to_pandas : pyfun :=
  fun2 "_to_pandas" "dt_obj" "unit"
    (fun dt_obj unit_ =>
       d <- call _to_datetime [dt_obj] [] ;;
       foreign "pd.to_datetime" [d] [("unit", unit_)]).

Definition _to_numpy : pyfun :=
  fun2 "_to_numpy" "dt_obj" "unit"
    (fun dt_obj unit_ =>
       dt_obj <- call _to_datetime [dt_obj] [] ;;
       naive <- call _tzinfo_remover [dt_obj] [] ;;
       foreign "np.datetime64" [naive; unit_] []).

Definition _to_arrow : pyfun :=
  fun1 "_to_arrow" "dt_obj"
    (fun dt_obj =>
       dt_obj <- call _to_datetime [dt_obj] [] ;;
       foreign "arrow.get" [dt_obj] []).

(** *** Exclusively to floated time *)

Definition _total_time_unit_dict : dict pyfun := [
  ("datetime", lambda2 "dt_obj" "_"
     (fun dt_obj _ => foreign ".timestamp" [dt_obj] []));
  ("datetime64", lambda3 "dt_obj" "unit" "float_class"
     (fun dt_obj unit_ float_class =>
        u <- str_val unit_ ;;
        td <- foreign ".astype"
                [dt_obj; VStr ("timedelta64[" ++ u ++ "]")] [] ;;
        foreign ".astype" [td; float_class] []));
  ("struct_time", lambda2 "dt_obj" "unit"
     (fun dt_obj unit_ => foreign "datetime[:6]" [dt_obj] []));
  ("arrow", lambda2 "dt_obj" "unit"
     (fun dt_obj unit_ => foreign ".float_timestamp" [dt_obj] []));
  ("dataframe", lambda4 "dt_obj" "_" "int_class" "unit_factor"
     (fun dt_obj _ int_class unit_factor =>
        _total_time_complex_data dt_obj int_class unit_factor));
  ("series", lambda4 "dt_obj" "_" "int_class" "unit_factor"
     (fun dt_obj _ int_class unit_factor =>
        _total_time_complex_data dt_obj int_class unit_factor));
  ("ndarray", lambda4 "dt_obj" "unit" "float_class" "_"
     (fun dt_obj unit_ float_class _ =>
        u <- str_val unit_ ;;
        a <- foreign ".astype" [dt_obj; VStr ("datetime64[" ++ u ++ "]")] [] ;;
        foreign ".astype" [a; float_class] []))
].

(** *** Scalar complex data *)

Definition _total_time_unit (datetime_obj unit_ float_class int_class : pyval)
    : M pyval :=
  let current_method := "_total_time_unit" in
  let unit_factor :=
    match get_val unit_factor_dict unit_ with
    | Some k => k
    | None => VNone
    end in
  let obj_type := get_type_str datetime_obj true in
  try_except
    (let conversion_func := get _total_time_unit_dict obj_type in
     match conversion_func with
     | None => raise (Exn ValueError
         ("Unsupported object type, method '" ++ current_method ++ "': "
          ++ obj_type))
     | Some conversion_func =>
         call conversion_func
           [datetime_obj; unit_; float_class; int_class; unit_factor] []
     end)
    is_Exception
    (fun err => raise (Exn RuntimeError
       ("Error in conversion process, method '" ++ current_method ++ "': "
        ++ exn_msg err))).

Definition _total_time_unit_def : pyfun :=
  fun4 "_total_time_unit" "datetime_obj" "unit" "float_class" "int_class"
    _total_time_unit.

(** *** To other objects *)

Definition datetime_obj_conversion_dict : dict pyfun := [
  ("float", lambda2 "dt_obj" "_"
     (fun dt_obj _ => foreign ".timestamp" [dt_obj] []));
  ("time", lambda2 "dt_obj" "_"
     (fun dt_obj _ => foreign ".timetuple" [dt_obj] []));
  ("pandas", lambda3 "dt_obj" "unit" "_"
     (fun dt_obj unit_ _ =>
        naive <- call _tzinfo_remover [dt_obj] [] ;;
        foreign "pd.to_datetime" [naive] [("unit", unit_)]));
  ("numpy", lambda3 "dt_obj" "unit" "_"
     (fun dt_obj unit_ _ =>
        naive <- call _tzinfo_remover [dt_obj] [] ;;
        foreign "np.datetime64" [naive; unit_] []));
  ("arrow", lambda2 "dt_obj" "_"
     (fun dt_obj _ => foreign "arrow.get" [dt_obj] []));
  ("str", lambda3 "dt_obj" "_" "dt_fmt_str"
     (fun dt_obj _ dt_fmt_str => call _to_string [dt_obj; dt_fmt_str] []))
].

Definition datetime64_obj_conversion_dict : dict pyfun := [
  ("float", lambda3 "dt_obj" "unit" "_"
     (fun dt_obj unit_ _ => call _to_float [dt_obj; unit_] []));
  ("datetime", lambda2 "dt_obj" "unit"
     (fun dt_obj unit_ => call _to_datetime [dt_obj; unit_] []));
  ("time", lambda2 "dt_obj" "_"
     (fun dt_obj _ => call _to_time_struct [dt_obj] []));
  ("pandas", lambda2 "dt_obj" "unit"
     (fun dt_obj unit_ => call _to_pandas [dt_obj; unit_] []));
  ("arrow", lambda2 "dt_obj" "_"
     (fun dt_obj _ => call _to_arrow [dt_obj] []));
  ("str", lambda3 "dt_obj" "_" "dt_fmt_str"
     (fun dt_obj _ dt_fmt_str =>
        d <- call _to_datetime [dt_obj] [] ;;
        call _to_string [d; dt_fmt_str] []))
].

Definition datetime_time_obj_conversion_dict : dict pyfun := [
  ("float", lambda2 "dt_obj" "_"
     (fun dt_obj _ => call _to_float [dt_obj] []));
  ("datetime", lambda2 "dt_obj" "_"
     (fun dt_obj _ => call _to_datetime [dt_obj] []));
  ("time", lambda2 "dt_obj" "_"
     (fun dt_obj _ => call _to_time_struct [dt_obj] []));
  ("pandas", lambda2 "dt_obj" "_"
     (fun dt_obj _ =>
        d <- call _to_datetime [dt_obj] [] ;;
        call _to_pandas [d] []));
  ("numpy", lambda2 "dt_obj" "_"
     (fun dt_obj _ =>
        d <- call _to_datetime [dt_obj] [] ;;
        call _to_numpy [d] []));
  ("arrow", lambda2 "dt_obj" "_"
     (fun dt_obj _ => call _to_arrow [dt_obj] []));
  ("str", lambda3 "dt_obj" "_" "dt_fmt_str"
     (fun dt_obj _ dt_fmt_str => call _to_string [dt_obj; dt_fmt_str] []))
].

Definition timestamp_obj_conversion_dict : dict pyfun := [
  ("float", lambda2 "dt_obj" "_"
     (fun dt_obj _ => call _to_float [dt_obj] []));
  ("datetime", lambda3 "dt_obj" "unit" "_"
     (fun dt_obj unit_ _ => call _to_datetime [dt_obj; unit_] []));
  ("time", lambda2 "dt_obj" "_"
     (fun dt_obj _ => call _to_time_struct [dt_obj] []));
  ("numpy", lambda2 "dt_obj" "_"
     (fun dt_obj _ => foreign ".to_numpy" [dt_obj] []));
  ("arrow", lambda2 "dt_obj" "_"
     (fun dt_obj _ => call _to_arrow [dt_obj] []));
  ("str", lambda3 "dt_obj" "_" "dt_fmt_str"
     (fun dt_obj _ dt_fmt_str => call _to_string [dt_obj; dt_fmt_str] []))
].

Definition arrow_obj_conversion_dict : dict pyfun := [
  ("float", lambda2 "dt_obj" "_"
     (fun dt_obj _ => call _to_float [dt_obj] []));
  ("datetime", lambda2 "dt_obj" "unit"
     (fun dt_obj unit_ => call _to_datetime [dt_obj; unit_] []));
  ("time", lambda2 "dt_obj" "_"
     (fun dt_obj _ => call _to_time_struct [dt_obj] []));
  ("pandas", lambda3 "dt_obj" "unit" "_"
     (fun dt_obj unit_ _ => call _to_pandas [dt_obj; unit_] []));
  ("numpy", lambda3 "dt_obj" "unit" "_"
     (fun dt_obj unit_ _ => call _to_numpy [dt_obj; unit_] []));
  ("str", lambda3 "dt_obj" "_" "dt_fmt_str"
     (fun dt_obj _ dt_fmt_str => call _to_string [dt_obj; dt_fmt_str] []))
].

Definition time_stt_obj_conversion_dict : dict pyfun := [
  ("float", lambda2 "dt_obj" "_"
     (fun dt_obj _ => call _to_float [dt_obj] []));
  ("datetime", lambda2 "dt_obj" "unit"
     (fun dt_obj unit_ => call _to_datetime [dt_obj; unit_] []));
  ("pandas", lambda2 "dt_obj" "unit"
     (fun dt_obj unit_ =>
        foreign "pd.Timestamp[:6]" [dt_obj] [("unit", unit_)]));
  ("numpy", lambda2 "dt_obj" "unit"
     (fun dt_obj unit_ =>
        d <- foreign "datetime[:6]" [dt_obj] [] ;;
        foreign "np.datetime64" [d; unit_] []));
  ("arrow", lambda2 "dt_obj" "_"
     (fun dt_obj _ => call _to_arrow [dt_obj] []))
].

Definition _dt_like_obj_conversion_dict : dict pyfun := [
  ("float", lambda3 "dt_obj" "unit" "_"
     (fun dt_obj unit_ _ => call _total_time_unit_def [dt_obj; unit_] []));
  ("pandas", lambda3 "dt_obj" "unit" "_"
     (fun dt_obj unit_ _ => call _to_datetime [dt_obj; unit_] []));
  ("str", lambda3 "dt_obj" "unit" "dt_fmt_str"
     (fun dt_obj unit_ dt_fmt_str =>
        call _to_string [dt_obj; dt_fmt_str; unit_] []))
].

(** Enumerate all possibilities *)
Definition conversion_opt_dict : dict (dict pyfun) := [
  ("datetime", datetime_obj_conversion_dict);
  ("datetime64", datetime64_obj_conversion_dict);
  ("time", datetime_time_obj_conversion_dict);
  ("timestamp", timestamp_obj_conversion_dict);
  ("arrow", arrow_obj_conversion_dict);
  ("struct_time", time_stt_obj_conversion_dict);
  ("dataframe", _dt_like_obj_conversion_dict);
  ("series", _dt_like_obj_conversion_dict);
  ("ndarray", _dt_like_obj_conversion_dict)
].

(** *** Main method *)

(** The dictionary that [perform_conversion] receives as its first
    argument is carried by the closure; [dict_ref] holds its place in the
    argument list. *)
Definition dict_ref : pyval := VObject "dict" 0.

(** Helper function to perform conversion and handle exceptions: the
    nested [def perform_conversion(conversion_dict, obj, *args)]. *)
Definition perform_conversion (convert_to : string)
    (conversion_dict : dict pyfun) : pyfun :=
  PyFun "datetime_obj_converter.<locals>.perform_conversion"
    ["conversion_dict"; "obj"] true
    (fun vs =>
       match vs with
       | _ :: obj :: args =>
           try_except
             (call_opt (get conversion_dict convert_to) (obj :: args) [])
             is_Exception
             (fun err => raise (Exn RuntimeError
                ("Error during conversion to '" ++ convert_to ++ "': "
                 ++ exn_msg err)))
       | _ => not_bound
       end).

Definition datetime_obj_converter (datetime_obj : pyval)
    (convert_to unit_ : string) (float_class int_class : class_spec)
    (dt_fmt_str : option string) : M pyval :=
  (* Object type to convert to *)
  if falsy (Some convert_to) then
    raise (Exn ValueError "Argument 'convert_to' not provided.")
  else
    (* Date unit factor *)
    let allowed_factors := keys unit_factor_dict in
    _validate_option "Time unit factor" unit_ allowed_factors ;;
    (* Numpy precision classes *)
    _validate_option "Numpy float precision class" float_class
      _float_class_list ;;
    _validate_option "Numpy integer precision class" int_class
      _int_class_list ;;
    (* Get the object type's name *)
    let obj_type := get_type_str datetime_obj true in
    (* Validate here the type to convert to, according the input data type *)
    targets <- getitem conversion_opt_dict obj_type ;;
    _validate_option
      ("Object type conversion for object type '" ++ obj_type ++ "' where")
      convert_to (keys targets) ;;
    (* Perform the conversion *)
    conversion_dict <- getitem conversion_opt_dict obj_type ;;
    call (perform_conversion convert_to conversion_dict)
      [dict_ref; datetime_obj]
      [("unit", VStr unit_); ("float_class", class_val float_class);
       ("int_class", class_val int_class);
       ("dt_fmt_str", fmt_val dt_fmt_str)].

End Code.
End TimeFormatters.

(* ================================================================== *)
(** * [time_handling/time_formatters_TEST_AND_NEW_METHODS.py] *)
(* ================================================================== *)

Module TestAndNewMethods.
Import Py.
Local Open Scope py_scope.

Section Code.
Context `{Backend}.

Definition validate_option {A} `{Showable A} (opt : A) (explanation : string)
    (allowed_options : list A) : M unit :=
  if negb (py_in opt allowed_options) then
    raise (Exn ValueError
      (explanation ++ " '" ++ py_str opt
       ++ "' not supported for this operation. "
       ++ "Choose one from " ++ str_list py_repr allowed_options ++ "."))
  else ret tt.

(** Modelled from the spec: [get_obj_type_str] of the introspection
    utilities is not among the sources.  The design detects the source kind
    from the value's runtime type name. *)
Definition get_obj_type_str (obj : pyval) : string := type_name obj.

(** Simple data type denoters *)
Definition float_class_list : list class_spec := [
  NumpyClass "float16"; NumpyClass "float32"; ByName "f";
  NumpyClass "float64"; ByName "float"; ByName "d"; NumpyClass "float128"
].

Definition int_class_list : list class_spec := [
  NumpyClass "int8"; NumpyClass "int16"; ByName "i";
  NumpyClass "float32"; ByName "int"; NumpyClass "int64"
].

Definition date_unit_factor_dict : dict pyval := [
  ("D", VInt 1000);
  ("s", VInt 1);
  ("ms", VFloat 1e-3);
  ("us", VFloat 1e-6);
  ("ns", VFloat 1e-9)
].

(** [obj.copy().astype(int_class) * date_unit_factor] on a column; on a
    value of another type the three steps are the library's. *)
Definition scaled (obj int_class date_unit_factor : pyval) : M pyval :=
  match obj with
  | VSeries s =>
      casted <- lift (series_astype s int_class) ;;
      total <- lift (series_mul casted date_unit_factor) ;;
      ret (VSeries total)
  | other =>
      c <- foreign ".copy" [other] [] ;;
      a <- foreign ".astype" [c; int_class] [] ;;
      foreign "*" [a; date_unit_factor] []
  end.

Definition total_time_complex_data
    (datetime_obj int_class date_unit_factor : pyval) : M pyval :=
  let obj_type_aux := lower (get_obj_type_str datetime_obj) in
  if String.eqb obj_type_aux "series" then
    try_except
      (total_time_obj <- scaled datetime_obj int_class date_unit_factor ;;
       ret tt)
      is_Exception
      (fun err => raise (Exn Exception (exn_msg err))) ;;
    (* the branch ends here: the function returns [None] *)
    ret VNone
  else if String.eqb obj_type_aux "dataframe" then
    try_except
      (match datetime_obj with
       | VDataFrame df =>
           let columns := keys df in
           for_each columns
             (fun col _ =>
                try_except
                  (let total_time_obj := df in
                   c <- frame_getitem total_time_obj col ;;
                   casted <- lift (series_astype c int_class) ;;
                   total <- lift (series_mul casted date_unit_factor) ;;
                   let total_time_obj :=
                     frame_setitem total_time_obj col total in
                   ret tt)
                  is_ValueError
                  (fun _ => ret tt))
             tt
       | other =>
           foreign ".columns" [other] [] ;;
           ret tt
       end)
      is_Exception
      (fun err => raise (Exn Exception (exn_msg err))) ;;
    ret datetime_obj
  else ret VNone.

(** Exclusively to floated time *)
Definition total_time_unit_dict : dict pyfun := [
  ("datetime", lambda2 "datetime_obj" "_"
     (fun datetime_obj _ => foreign ".timestamp" [datetime_obj] []));
  ("datetime64", lambda3 "datetime_obj" "date_unit" "float_class"
     (fun datetime_obj date_unit float_class =>
        u <- str_val date_unit ;;
        td <- foreign ".astype"
                [datetime_obj; VStr ("timedelta64[" ++ u ++ "]")] [] ;;
        foreign ".astype" [td; float_class] []));
  ("struct_time", lambda2 "datetime_obj" "date_unit"
     (fun datetime_obj date_unit => foreign "datetime[:6]" [datetime_obj] []));
  ("arrow", lambda2 "datetime_obj" "date_unit"
     (fun datetime_obj date_unit =>
        foreign ".float_timestamp" [datetime_obj] []));
  ("dataframe", lambda4 "datetime_obj" "_" "int_class" "date_unit_factor"
     (fun datetime_obj _ int_class date_unit_factor =>
        total_time_complex_data datetime_obj int_class date_unit_factor));
  ("series", lambda4 "datetime_obj" "_" "int_class" "date_unit_factor"
     (fun datetime_obj _ int_class date_unit_factor =>
        total_time_complex_data datetime_obj int_class date_unit_factor));
  ("ndarray", lambda4 "datetime_obj" "date_unit" "float_class" "_"
     (fun datetime_obj date_unit float_class _ =>
        u <- str_val date_unit ;;
        a <- foreign ".astype"
               [datetime_obj; VStr ("datetime64[" ++ u ++ "]")] [] ;;
        foreign ".astype" [a; float_class] []))
].

(** Total seconds or user-defined unit *)
Definition total_time_unit (datetime_obj : pyval) (date_unit : string)
    (float_class int_class : class_spec) : M pyval :=
  (* Date unit factor *)
  let allowed_factors := keys date_unit_factor_dict in
  validate_option date_unit "Date unit factor" allowed_factors ;;
  (* Integer and float precisions *)
  validate_option float_class "Float precision" float_class_list ;;
  validate_option int_class "Integer precision" int_class_list ;;
  let date_unit_factor :=
    match get date_unit_factor_dict date_unit with
    | Some k => k
    | None => VNone
    end in
  let obj_type := lower (get_obj_type_str datetime_obj) in
  try_except
    (call_opt (get total_time_unit_dict obj_type)
       [datetime_obj; VStr date_unit; class_val int_class;
        class_val float_class; date_unit_factor] [])
    is_Exception
    (fun err => raise (Exn Exception (exn_msg err))).

End Code.

(** ** Elapsed times, unified frames and the converter *)

(** [pd.to_datetime(series, unit=u)] on a column. *)
Class ColumnDates : Type := {
  to_datetime_column : column -> pyval -> outcome column
}.

Section Converter.
Context `{Backend} `{ColumnDates}.

(** Preformatted strings *)
Definition time_str_parts_fmts : list string := [
  "{} days {} hours {} minutes {} seconds";
  "{} hours {} minutes {} seconds"
].

Definition format_arbitrary_time {T} `{Number T} (floated_time : T)
    : M string :=
  (* Compute time components *)
  let '(days, hours) := num_divmod (num_floordiv floated_time 3600) 24 in
  let '(minutes, seconds) := num_divmod (num_mod floated_time 3600) 60 in
  (* Format time parts *)
  try_except
    (if num_positive days then
       let time_tuple := [days; hours; minutes; seconds] in
       fmt <- list_item time_str_parts_fmts 0 ;;
       lift (TimeFormatters.format_string fmt (map num_str time_tuple))
     else
       let time_tuple := [hours; minutes; seconds] in
       fmt <- list_item time_str_parts_fmts 1 ;;
       lift (TimeFormatters.format_string fmt (map num_str time_tuple)))
    is_Key_Index_ValueError
    (fun e => raise (Exn ValueError
       ("Invalid format string or time components: " ++ exn_msg e))).

Definition tzinfo_remover : pyfun :=
  fun1 "tzinfo_remover" "datetime_obj"
    (fun datetime_obj =>
       foreign ".replace" [datetime_obj] [("tzinfo", VNone)]).

(** In the frame branch the variable [dt_obj_aux] is bound anew in every
    iteration, to a fresh copy of the input, before the conversion of the
    column is tried; [None] is the variable before the first iteration. *)
Definition unify_complex_data (datetime_obj date_unit : pyval) : M pyval :=
  let obj_type_aux := lower (get_obj_type_str datetime_obj) in
  if String.eqb obj_type_aux "dataframe" then
    match datetime_obj with
    | VDataFrame df =>
        let columns := keys df in
        dt_obj_aux <-
          for_each columns
            (fun col (_ : option dataframe) =>
               let dt_obj_aux := df in
               try_except
                 (c <- frame_getitem dt_obj_aux col ;;
                  parsed <- lift (to_datetime_column c date_unit) ;;
                  ret (Some (frame_setitem dt_obj_aux col parsed)))
                 is_ValueError
                 (fun _ => ret (Some dt_obj_aux)))
            None ;;
        match dt_obj_aux with
        | Some d => ret (VDataFrame d)
        | None => raise (Exn UnboundLocalError
            ("cannot access local variable 'dt_obj_aux' where it is not "
             ++ "associated with a value"))
        end
    | other =>
        foreign ".columns" [other] [] ;;
        ret VNone
    end
  else if String.eqb obj_type_aux "series" then
    match datetime_obj with
    | VSeries s =>
        try_except
          (parsed <- lift (to_datetime_column s date_unit) ;;
           ret (VSeries parsed))
          is_ValueError
          (fun _ => ret VNone)
    | other =>
        try_except
          (c <- foreign ".copy" [other] [] ;;
           foreign "pd.to_datetime" [c] [("unit", date_unit)])
          is_ValueError
          (fun _ => ret VNone)
    end
  else ret VNone.

(** [total_time_unit(datetime_obj, date_unit)], with the defaults of the
    two precision classes, as the tables call it. *)
Definition total_time_unit_default (datetime_obj date_unit : pyval)
    : M pyval :=
  match date_unit with
  | VStr u => total_time_unit datetime_obj u (ByName "d") (ByName "int")
  | other =>
      s <- str_val other ;;
      raise (Exn ValueError
        ("Date unit factor '" ++ s
         ++ "' not supported for this operation. "
         ++ "Choose one from "
         ++ str_list repr_str (keys date_unit_factor_dict) ++ "."))
  end.

(** To other objects *)
Definition datetime_obj_conversion_dict : dict pyfun := [
  ("float", lambda2 "datetime_obj" "_"
     (fun datetime_obj _ => foreign ".timestamp" [datetime_obj] []));
  ("time", lambda2 "datetime_obj" "_"
     (fun datetime_obj _ => foreign ".timetuple" [datetime_obj] []));
  ("pandas", lambda2 "datetime_obj" "date_unit"
     (fun datetime_obj date_unit =>
        foreign "pd.to_datetime" [datetime_obj] [("unit", date_unit)]));
  ("numpy", lambda2 "datetime_obj" "date_unit"
     (fun datetime_obj date_unit =>
        naive <- call tzinfo_remover [datetime_obj] [] ;;
        foreign "np.datetime64" [naive; date_unit] []));
  ("arrow", lambda2 "datetime_obj" "_"
     (fun datetime_obj _ => foreign "arrow.get" [datetime_obj] []))
].

Definition datetime64_obj_conversion_dict : dict pyfun := [
  ("float", lambda4 "datetime_obj" "date_unit" "_" "float_class"
     (fun datetime_obj date_unit _ float_class =>
        u <- str_val date_unit ;;
        td <- foreign ".astype"
                [datetime_obj; VStr ("timedelta64[" ++ u ++ "]")] [] ;;
        foreign ".astype" [td; float_class] []));
  ("datetime", lambda2 "datetime_obj" "_"
     (fun datetime_obj _ =>
        foreign ".astype" [datetime_obj; VClass "datetime"] []));
  ("time", lambda2 "datetime_obj" "_"
     (fun datetime_obj _ =>
        d <- foreign ".astype" [datetime_obj; VClass "datetime"] [] ;;
        foreign ".timetuple" [d] []));
  ("pandas", lambda2 "datetime_obj" "date_unit"
     (fun datetime_obj date_unit =>
        foreign "pd.to_datetime" [datetime_obj] [("unit", date_unit)]));
  ("arrow", lambda2 "datetime_obj" "_"
     (fun datetime_obj _ =>
        d <- foreign ".astype" [datetime_obj; VClass "datetime"] [] ;;
        foreign "arrow.get" [d] []))
].

Definition timestamp_obj_conversion_dict : dict pyfun := [
  ("float", lambda1 "datetime_obj"
     (fun datetime_obj =>
        d <- foreign ".to_pydatetime" [datetime_obj] [] ;;
        foreign ".timestamp" [d] []));
  ("datetime", lambda1 "datetime_obj"
     (fun datetime_obj => foreign ".to_pydatetime" [datetime_obj] []));
  ("time", lambda1 "datetime_obj"
     (fun datetime_obj =>
        d <- foreign ".to_pydatetime" [datetime_obj] [] ;;
        foreign ".timetuple" [d] []));
  ("numpy", lambda1 "datetime_obj"
     (fun datetime_obj => foreign ".to_numpy" [datetime_obj] []));
  ("arrow", lambda1 "datetime_obj"
     (fun datetime_obj =>
        d <- foreign ".to_pydatetime" [datetime_obj] [] ;;
        foreign "arrow.get" [d] []))
].

Definition arrow_obj_conversion_dict : dict pyfun := [
  ("float", lambda2 "datetime_obj" "_"
     (fun datetime_obj _ => foreign ".float_timestamp" [datetime_obj] []));
  ("datetime", lambda2 "datetime_obj" "_"
     (fun datetime_obj _ =>
        ts <- foreign ".float_timestamp" [datetime_obj] [] ;;
        foreign ".fromtimestamp" [datetime_obj; ts] []));
  ("time", lambda2 "datetime_obj" "_"
     (fun datetime_obj _ => foreign ".timetuple" [datetime_obj] []));
  ("pandas", lambda2 "datetime_obj" "date_unit"
     (fun datetime_obj date_unit =>
        tt <- foreign ".timetuple" [datetime_obj] [] ;;
        d <- foreign "datetime[:6]" [tt] [] ;;
        foreign "pd.to_datetime" [d] [("unit", date_unit)]));
  ("numpy", lambda2 "datetime_obj" "date_unit"
     (fun datetime_obj date_unit =>
        naive <- call tzinfo_remover [datetime_obj] [] ;;
        foreign "np.datetime64" [naive; date_unit] []))
].

Definition time_stt_obj_conversion_dict : dict pyfun := [
  ("float", lambda2 "datetime_obj" "_"
     (fun datetime_obj _ => foreign ".float_timestamp" [datetime_obj] []));
  ("datetime", lambda2 "datetime_obj" "_"
     (fun datetime_obj _ =>
        ts <- foreign ".float_timestamp" [datetime_obj] [] ;;
        foreign ".fromtimestamp" [datetime_obj; ts] []));
  ("pandas", lambda2 "datetime_obj" "date_unit"
     (fun datetime_obj date_unit =>
        foreign "pd.Timestamp[:6]" [datetime_obj] [("unit", date_unit)]));
  ("numpy", lambda2 "datetime_obj" "date_unit"
     (fun datetime_obj date_unit =>
        d <- foreign "datetime[:6]" [datetime_obj] [] ;;
        foreign "np.datetime64" [d; date_unit] []));
  ("arrow", lambda2 "datetime_obj" "_"
     (fun datetime_obj _ => foreign "arrow.get" [datetime_obj] []))
].

Definition df_obj_conversion_dict : dict pyfun := [
  ("float", lambda2 "datetime_obj" "date_unit" total_time_unit_default);
  ("pandas", lambda2 "datetime_obj" "date_unit" unify_complex_data)
].

Definition series_obj_conversion_dict : dict pyfun := [
  ("float", lambda2 "datetime_obj" "date_unit" total_time_unit_default);
  ("pandas", lambda2 "datetime_obj" "date_unit" unify_complex_data)
].

Definition np_obj_conversion_dict : dict pyfun := [
  ("float", lambda2 "datetime_obj" "date_unit" total_time_unit_default);
  ("pandas", lambda2 "datetime_obj" "date_unit"
     (fun datetime_obj date_unit =>
        foreign "pd.to_datetime" [datetime_obj] [("unit", date_unit)]))
].

(** The three array-like branches: the table entry is called inside
    [try], and whatever it raises is raised again as an [Exception]. *)
Definition convert_array_like (table : dict pyfun)
    (datetime_obj : pyval) (convert_to date_unit : string) : M pyval :=
  let allowed_obj_type_conversions := keys table in
  validate_option convert_to "Object type conversion"
    allowed_obj_type_conversions ;;
  try_except
    (call_opt (get table convert_to) [datetime_obj; VStr date_unit] [])
    is_Exception
    (fun err => raise (Exn Exception (exn_msg err))).

(** Main method: the chain of [if]/[elif] on the type name; a value of any
    other type falls through it. *)
Definition datetime_obj_converter (datetime_obj : pyval)
    (convert_to date_unit : string) (float_class : class_spec) : M pyval :=
  (* Get the object type's name *)
  let obj_type := lower (get_obj_type_str datetime_obj) in
  if String.eqb obj_type "datetime" then
    let allowed_obj_type_conversions := keys datetime_obj_conversion_dict in
    validate_option convert_to "Object type conversion"
      allowed_obj_type_conversions ;;
    call_opt (get datetime_obj_conversion_dict convert_to)
      [datetime_obj; VStr date_unit] []
  else if String.eqb obj_type "datetime64" then
    let allowed_obj_type_conversions := keys datetime64_obj_conversion_dict in
    validate_option convert_to "Object type conversion"
      allowed_obj_type_conversions ;;
    call_opt (get datetime64_obj_conversion_dict convert_to)
      [datetime_obj; VStr date_unit] []
  else if String.eqb obj_type "timestamp" then
    let allowed_obj_type_conversions := keys timestamp_obj_conversion_dict in
    validate_option convert_to "Object type conversion"
      allowed_obj_type_conversions ;;
    call_opt (get timestamp_obj_conversion_dict convert_to) [datetime_obj] []
  else if String.eqb obj_type "arrow" then
    let allowed_obj_type_conversions := keys arrow_obj_conversion_dict in
    validate_option convert_to "Object type conversion"
      allowed_obj_type_conversions ;;
    call_opt (get arrow_obj_conversion_dict convert_to)
      [datetime_obj; VStr date_unit] []
  else if String.eqb obj_type "struct_time" then
    let allowed_obj_type_conversions := keys time_stt_obj_conversion_dict in
    validate_option convert_to "Object type conversion"
      allowed_obj_type_conversions ;;
    call_opt (get time_stt_obj_conversion_dict convert_to) [datetime_obj] []
  else if String.eqb obj_type "dataframe" then
    convert_array_like df_obj_conversion_dict datetime_obj convert_to date_unit
  else if String.eqb obj_type "series" then
    convert_array_like series_obj_conversion_dict datetime_obj convert_to
      date_unit
  else if String.eqb obj_type "ndarray" then
    convert_array_like np_obj_conversion_dict datetime_obj convert_to
      date_unit
  else ret VNone.

End Converter.
End TestAndNewMethods.

(* ================================================================== *)
(** * The best-effort policy on columns, as a function *)
(* ================================================================== *)

(** What the design asks of the conversion of a frame to total time, written
    as a function on the list of columns, to compare the loop of
    [_total_time_complex_data] with. *)
Module Policy.
Import Py.
Local Open Scope py_scope.

Section Policy.
Context `{Backend}.

(** One column to total time: the cast, then the product. *)
Definition convert_column (int_class unit_factor : pyval) (c : column)
    : outcome column :=
  match series_astype c int_class with
  | Ok casted => series_mul casted unit_factor
  | Raise e => Raise e
  end.

(** Column by column: a column whose conversion raises a [ValueError] stays
    as it is, any other exception ends the conversion. *)
Fixpoint best_effort (int_class unit_factor : pyval) (df : dataframe)
    : outcome dataframe :=
  match df with
  | [] => Ok []
  | (label, c) :: rest =>
      match convert_column int_class unit_factor c with
      | Ok total =>
          match best_effort int_class unit_factor rest with
          | Ok r => Ok ((label, total) :: r)
          | Raise e => Raise e
          end
      | Raise e =>
          if is_ValueError e then
            match best_effort int_class unit_factor rest with
            | Ok r => Ok ((label, c) :: r)
            | Raise e' => Raise e'
            end
          else Raise e
      end
  end.

(** A column of the result against the column of the input: converted, or
    left as it was because its conversion raised a [ValueError]. *)
Definition column_outcome (int_class unit_factor : pyval)
    (a b : string * column) : Prop :=
  fst b = fst a /\
  match convert_column int_class unit_factor (snd a) with
  | Ok t => snd b = t
  | Raise e => is_ValueError e = true /\ snd b = snd a
  end.

(** The body of the loop of [_total_time_complex_data] over the columns. *)
Definition column_step (int_class unit_factor : pyval) (col : string)
    (dt_obj_aux : dataframe) : M dataframe :=
  try_except
    (c <- frame_getitem dt_obj_aux col ;;
     casted <- lift (series_astype c int_class) ;;
     total <- lift (series_mul casted unit_factor) ;;
     ret (frame_setitem dt_obj_aux col total))
    is_ValueError
    (fun _ => ret dt_obj_aux).

End Policy.

(** ** Conversions whose table entry cannot be called *)

(** The pairs of type name and target whose entry in [conversion_opt_dict]
    calls a helper with fewer arguments than the helper takes. *)
Definition unreachable_conversions : list (string * string) := [
  ("datetime", "str");
  ("datetime64", "float"); ("datetime64", "time"); ("datetime64", "pandas");
  ("datetime64", "arrow"); ("datetime64", "str");
  ("time", "float"); ("time", "datetime"); ("time", "time");
  ("time", "pandas"); ("time", "numpy"); ("time", "arrow"); ("time", "str");
  ("timestamp", "float"); ("timestamp", "time"); ("timestamp", "arrow");
  ("timestamp", "str");
  ("arrow", "float"); ("arrow", "time"); ("arrow", "pandas");
  ("arrow", "numpy"); ("arrow", "str");
  ("struct_time", "float"); ("struct_time", "arrow");
  ("dataframe", "float"); ("series", "float"); ("ndarray", "float")
].

End Policy.

(* ================================================================== *)
(** * A concrete environment *)
(* ================================================================== *)

(** An environment to run the code in: the unit tables of the design, a
    pandas that casts the cells of an object column with [int()] and
    multiplies them by a scalar, and a clock in UTC for the two library
    calls answered here, [datetime.fromtimestamp] and [datetime.timestamp]. *)
Module Sample.
Import Py.

(** [int(x)] on a 64-bit float and back. *)
Definition float_of_int (z : Z) : float :=
  if z <? 0 then PrimFloat.opp (PrimFloat.of_uint63 (Uint63.of_Z (- z)))
  else PrimFloat.of_uint63 (Uint63.of_Z z).

(** [int(s)] on decimal text. *)
Definition int_of_text (s : string) : option Z :=
  option_map Z.of_int (NilZero.int_of_string s).

Definition astype_cell (cls : pyval) (c : cell) : outcome cell :=
  match c with
  | CInt z => Ok (CInt z)
  | CStr s =>
      match int_of_text s with
      | Some z => Ok (CInt z)
      | None => Raise (Exn ValueError
          ("invalid literal for int() with base 10: " ++ repr_str s))
      end
  | CNone => Raise (Exn TypeError
      ("int() argument must be a string, a bytes-like object or a real "
       ++ "number, not 'NoneType'"))
  | CObj ty _ => Raise (Exn TypeError
      ("int() argument must be a string, a bytes-like object or a real "
       ++ "number, not '" ++ ty ++ "'"))
  | CFloat f => Raise (Exn (LibError "NotImplementedError") "astype")
  end.

Definition mul_cell (c : cell) (k : pyval) : outcome cell :=
  match c, k with
  | CInt z, VInt n => Ok (CInt (z * n))
  | CInt z, VFloat f => Ok (CFloat (PrimFloat.mul (float_of_int z) f))
  | CFloat g, VInt n => Ok (CFloat (PrimFloat.mul g (float_of_int n)))
  | CFloat g, VFloat f => Ok (CFloat (PrimFloat.mul g f))
  | _, _ => Raise (Exn TypeError "unsupported operand type(s) for *")
  end.

(** Days from 1970-01-01 to a date of the proleptic Gregorian calendar. *)
Definition days_from_civil (y m d : Z) : Z :=
  let y := if m <=? 2 then y - 1 else y in
  let era := y / 400 in
  let yoe := y - era * 400 in
  let mp := (m + 9) mod 12 in
  let doy := (153 * mp + 2) / 5 + d - 1 in
  let doe := yoe * 365 + yoe / 4 - yoe / 100 + doy in
  era * 146097 + doe - 719468.

(** [d.timestamp()] of a naive date-time, the local zone being UTC. *)
Definition timestamp (d : datetime) : float :=
  let secs := days_from_civil (year d) (month d) (day d) * 86400
              + hour d * 3600 + minute d * 60 + second d in
  PrimFloat.add (float_of_int secs)
    (PrimFloat.div (float_of_int (microsecond d)) 1e6).

(** The date that lies a number of days after 1970-01-01. *)
Definition civil_from_days (z : Z) : Z * Z * Z :=
  let z := z + 719468 in
  let era := z / 146097 in
  let doe := z - era * 146097 in
  let yoe := (doe - doe / 1460 + doe / 36524 - doe / 146096) / 365 in
  let doy := doe - (365 * yoe + yoe / 4 - yoe / 100) in
  let mp := (5 * doy + 2) / 153 in
  let d := doy - (153 * mp + 2) / 5 + 1 in
  let m := if mp <? 10 then mp + 3 else mp - 9 in
  let y := yoe + era * 400 in
  (if m <=? 2 then y + 1 else y, m, d).

(** [datetime.fromtimestamp(secs)] for whole seconds, the local zone being
    UTC. *)
Definition fromtimestamp (secs : Z) : datetime :=
  let '(y, m, d) := civil_from_days (secs / 86400) in
  let r := secs mod 86400 in
  Datetime y m d (r / 3600) (r mod 3600 / 60) (r mod 60) 0 None.

Definition ffi (name : string) (args : list pyval)
    (kwargs : list (string * pyval)) : outcome pyval :=
  match args, kwargs with
  | [VDatetime d], [] =>
      if (String.eqb name ".timestamp"
          && match tzinfo d with None => true | Some _ => false end)%bool
      then Ok (VFloat (timestamp d))
      else Raise (Exn (LibError "NotImplementedError") name)
  | [VInt secs], [] =>
      if String.eqb name "datetime.fromtimestamp"
      then Ok (VDatetime (fromtimestamp secs))
      else Raise (Exn (LibError "NotImplementedError") name)
  | _, _ => Raise (Exn (LibError "NotImplementedError") name)
  end.

Definition has_attr (v : pyval) (name : string) : bool :=
  match v with
  | VDatetime _ =>
      existsb (String.eqb name)
        ["tzinfo"; "replace"; "strftime"; "timestamp"; "timetuple"]
  | _ => false
  end.

Definition numpy_unit_list : list string :=
  ["Y"; "M"; "D"; "h"; "m"; "s"; "ms"; "us"; "ns"].

Definition pandas_unit_list : list string := ["D"; "s"; "ms"; "us"; "ns"].

#[export] Instance backend : Backend := {|
  Py.ffi := ffi;
  Py.has_attr := has_attr;
  Py.astype_cell := astype_cell;
  Py.mul_cell := mul_cell;
  Py.numpy_unit_list := numpy_unit_list;
  Py.pandas_unit_list := pandas_unit_list;
  Py.unit_factor_dict := TestAndNewMethods.date_unit_factor_dict
|}.

(** [pd.to_datetime(column, unit=u)] on an object column: whole numbers
    give the instants that many units after the epoch, free text is refused
    with a [ValueError]. *)
Definition to_datetime_cell (date_unit : pyval) (c : cell) : outcome cell :=
  match c with
  | CInt z => Ok (CObj "Timestamp" z)
  | CStr s =>
      Raise (Exn ValueError
        ("non convertible value " ++ s ++ " with the unit '"
         ++ match date_unit with VStr u => u | _ => "None" end ++ "'"))
  | _ => Raise (Exn (LibError "NotImplementedError") "to_datetime")
  end.

#[export] Instance column_dates : TestAndNewMethods.ColumnDates := {|
  TestAndNewMethods.to_datetime_column :=
    fun c date_unit => map_outcome (to_datetime_cell date_unit) c
|}.

(** The naive instant 1970-01-01T00:00:01. *)
Definition epoch_plus_one : datetime := Datetime 1970 1 1 0 0 1 0 None.

(** Three columns of an object frame: integers, [None]s, integers. *)
Definition frame_with_none : dataframe := [
  ("start", [CInt 1; CInt 2]);
  ("note", [CNone; CNone]);
  ("stop", [CInt 3; CInt 4])
].

(** Three columns of an object frame: integers, free text, integers. *)
Definition frame_with_text : dataframe := [
  ("start", [CInt 1; CInt 2]);
  ("note", [CStr "n/a"; CStr "late"]);
  ("stop", [CInt 3; CInt 4])
].

End Sample.

(* ================================================================== *)
(** * Properties *)
(* ================================================================== *)

Import Py TimeFormatters Policy.

(** A call on a list of arguments of any length, by the cases of the
    length. *)
Ltac every_call_raises args :=
  destruct args as [| ?a [| ?a [| ?a [| ?a [| ?a ?rest]]]]];
  eexists; reflexivity.

Section Properties.
Context `{Backend}.
Local Open Scope py_scope.

(** ** Membership, dictionaries and calls *)

Lemma py_in_string_In : forall (x : string) (l : list string),
  py_in x l = true <-> In x l.
Proof.
  intros x l. unfold py_in. rewrite existsb_exists. split.
  - intros [y [Hy E]]. apply String.eqb_eq in E. now subst.
  - intros Hx. exists x. split; [assumption | apply String.eqb_refl].
Qed.

Lemma validate_option_in {A} `{Showable A} :
  forall explanation (opt : A) allowed l,
    py_in opt allowed = true ->
    _validate_option explanation opt allowed l = (Ok tt, l).
Proof. intros. unfold _validate_option. now rewrite H1. Qed.

Lemma get_In {V} : forall (d : dict V) (k : string) (v : V),
  get d k = Some v -> In v (map snd d).
Proof.
  induction d as [|[k' v'] d IH]; intros k v; cbn; [discriminate |].
  destruct (String.eqb k' k).
  - intros [= ->]. now left.
  - intros Hg. right. eapply IH; eassumption.
Qed.

Lemma get_app_notin {V} : forall (pre r : dict V) (k : string),
  ~ In k (keys pre) -> get (pre ++ r)%list k = get r k.
Proof.
  induction pre as [|[k' v] pre IH]; intros r k Hn; cbn; [reflexivity |].
  destruct (String.eqb_spec k' k) as [-> | Hne].
  - exfalso. apply Hn. now left.
  - apply IH. intros Hin. apply Hn. now right.
Qed.

(** More positional arguments than parameters, and no [*args] to take the
    surplus: the call raises [TypeError] and the body does not run. *)
Lemma call_too_many_positional :
  forall (f : pyfun) (args : list pyval) (l : log),
    fn_varargs f = false ->
    (List.length (fn_params f) < List.length args)%nat ->
    exists msg, call f args [] l = (Raise (Exn TypeError msg), l).
Proof.
  intros f args l Hv Hlen. unfold call, bind_args. cbn [set_kws].
  apply Nat.ltb_lt in Hlen. rewrite Hlen, Hv. cbn. eexists. reflexivity.
Qed.

(** ** Validation of the fractional precision *)

(** C6.  For an integer precision, [_validate_precision] with the default
    bounds fails, with a [ValueError], exactly when the precision is outside
    [0, 9] or is in [7, 9] while the backend is not ["pandas"]; it returns
    normally exactly for a precision in [0, 6] with any backend and in
    [7, 9] with ["pandas"].  It calls no library. *)
Theorem validate_precision_integer :
  forall (p : Z) (opt : string) (l : log),
    let r := _validate_precision (Some p) opt
               default_min_prec default_max_prec l in
    snd r = l /\
    (raises_class is_ValueError (fst r) = true <->
       (p < 0 \/ 9 < p \/ (7 <= p <= 9 /\ opt <> "pandas"))) /\
    (fst r = Ok tt <->
       (0 <= p <= 6 \/ (7 <= p <= 9 /\ opt = "pandas"))).
Proof.
  intros p opt l r. subst r.
  unfold _validate_precision, int_between_opt, int_le_opt,
    default_min_prec, default_max_prec, bind, ret, raise.
  destruct (0 <=? p) eqn:E0; destruct (p <=? 9) eqn:E9;
    destruct (7 <=? p) eqn:E7;
    destruct (String.eqb_spec opt "pandas") as [Eo | Eo];
    cbn; rewrite ?E9; cbn;
    apply Z.leb_le in E0 || apply Z.leb_gt in E0;
    apply Z.leb_le in E9 || apply Z.leb_gt in E9;
    apply Z.leb_le in E7 || apply Z.leb_gt in E7;
    (split; [reflexivity |]); split; split; intros;
    try discriminate; try reflexivity; try lia; try tauto.
  all: try (exfalso; intuition (try lia; try congruence)); try (intuition lia).
Qed.

(** ** Parsing a time string *)

(** The format string is checked right after the module, before any
    parser runs. *)
Lemma missing_format_checked_first :
  forall (datetime_str module unit_ : string) (dt_fmt_str : option string)
         (l : log),
    py_in module (keys time_str_parsing_dict) = true ->
    falsy dt_fmt_str = true ->
    parse_time_string datetime_str dt_fmt_str module unit_ l
    = (Raise (Exn ValueError "A datetime format string must be provided."),
       l).
Proof.
  intros s m u f l Hm Hf. unfold parse_time_string.
  cbv zeta. unfold bind. rewrite validate_option_in by assumption.
  now rewrite Hf.
Qed.

(** With the [datetime] module, a [ValueError] of the parser becomes the
    format-mismatch error. *)
Lemma datetime_mismatch_reported :
  forall (datetime_str fmt unit_ : string) (e : exn) (l : log),
    fmt <> EmptyString ->
    ffi "datetime.strptime" [VStr datetime_str; VStr fmt] [] = Raise e ->
    is_ValueError e = true ->
    parse_time_string datetime_str (Some fmt) "datetime" unit_ l
    = (Raise (Exn ValueError
         "The time string does not match the format string provided."),
       (l ++ [LibCall "datetime.strptime"
                [VStr datetime_str; VStr fmt] []])%list).
Proof.
  intros s fmt u e l Hf Hffi He.
  destruct fmt as [|c rest]; [contradiction |].
  unfold parse_time_string. cbn. unfold try_except, foreign. cbn.
  rewrite Hffi, He. reflexivity.
Qed.

(** C10.  With [module="numpy"], [parse_time_string] returns for no input:
    an empty or absent format is refused, and with a format the table's
    three-parameter entry is called with two arguments, which raises
    [TypeError]; the [except ValueError] clause lets it through and numpy
    is never called. *)
Theorem numpy_time_string_never_parsed :
  forall (datetime_str unit_ : string) (l : log),
    (forall dt_fmt_str,
       returns (fst (parse_time_string datetime_str dt_fmt_str "numpy"
                       unit_ l)) = false) /\
    (forall (c : ascii) (rest : string),
       parse_time_string datetime_str (Some (String c rest)) "numpy" unit_ l
       = (Raise (Exn TypeError
            "<lambda>() missing 1 required positional argument: 'unit'"),
          l)).
Proof.
  intros. split.
  - intros [[|c rest]|]; reflexivity.
  - reflexivity.
Qed.

(** C8.  At [module="numpy"] a text that does not match its format does not
    raise the format-mismatch [ValueError]: the call raises [TypeError],
    which [except ValueError] does not catch. *)
Theorem numpy_mismatch_is_type_error :
  forall l : log,
    parse_time_string "not a date" (Some "%Y-%m-%d") "numpy" "ns" l
    = (Raise (Exn TypeError
         "<lambda>() missing 1 required positional argument: 'unit'"), l)
    /\ is_ValueError (Exn TypeError
         "<lambda>() missing 1 required positional argument: 'unit'") = false.
Proof. intros. split; reflexivity. Qed.

(** ** Parsing a number of time units *)

(** C2.  With [frac_precision=None], its default, [parse_float_time] does
    not return for any supported module, offset, origin, unit and non-empty
    format: [_validate_precision] compares [7 <= None], which raises
    [TypeError], before anything is parsed. *)
Theorem parse_float_time_default_precision_raises :
  forall T `{Number T} (datetime_float : T)
         (origin unit_ module fmt : string) (l : log),
    py_in module ("str" :: keys floated_time_parsing_dict) = true ->
    fmt <> EmptyString ->
    parse_float_time datetime_float None origin unit_ (Some fmt) module l
    = (Raise (Exn TypeError
         "'<=' not supported between instances of 'int' and 'NoneType'"), l).
Proof.
  intros T NT x origin unit_ module fmt l Hm Hf.
  destruct fmt as [|c rest]; [contradiction |].
  apply py_in_string_In in Hm. simpl in Hm.
  repeat (destruct Hm as [<- | Hm]; [reflexivity |]).
  contradiction.
Qed.

Lemma round_int_digits : forall z n, 0 <= n -> round_int z n = z.
Proof.
  intros z n Hn. unfold round_int.
  apply Z.leb_le in Hn. now rewrite Hn.
Qed.

(** ** Rounding to decimal places *)

(** [round_half_even] gives an integer at most one half away from the
    quotient. *)
Lemma round_half_even_spec : forall num den : Z,
  0 < den ->
  2 * Z.abs (num - round_half_even num den * den) <= den.
Proof.
  intros num den Hd. unfold round_half_even.
  pose proof (Z.div_mod num den ltac:(lia)) as E.
  pose proof (Z.mod_pos_bound num den Hd) as B.
  set (k := num / den) in *. set (r := num mod den) in *.
  destruct (2 * r <? den) eqn:E1.
  - apply Z.ltb_lt in E1. replace (num - k * den) with r by lia.
    rewrite Z.abs_eq by lia. lia.
  - apply Z.ltb_ge in E1. destruct (den <? 2 * r) eqn:E2.
    + apply Z.ltb_lt in E2. replace (num - (k + 1) * den) with (r - den) by lia.
      rewrite Z.abs_neq by lia. lia.
    + apply Z.ltb_ge in E2. destruct (Z.even k).
      * replace (num - k * den) with r by lia.
        rewrite Z.abs_eq by lia. lia.
      * replace (num - (k + 1) * den) with (r - den) by lia.
        rewrite Z.abs_neq by lia. lia.
Qed.

Lemma scaled_den_pos : forall e n : Z, 0 < scaled_den e n.
Proof.
  intros e n. unfold scaled_den.
  assert (0 < 2 ^ (- e) \/ e >= 0).
  { destruct (Z_le_gt_dec 0 e); [right; lia | left].
    apply Z.pow_pos_nonneg; lia. }
  assert (0 < 10 ^ (- n) \/ n >= 0).
  { destruct (Z_le_gt_dec 0 n); [right; lia | left].
    apply Z.pow_pos_nonneg; lia. }
  destruct (0 <=? e) eqn:Ee; destruct (0 <=? n) eqn:En;
    try apply Z.leb_le in Ee; try apply Z.leb_le in En;
    try apply Z.leb_gt in Ee; try apply Z.leb_gt in En; nia.
Qed.

(** [round(x, n)] on a finite float, for [n] from 0 to 323: the float
    nearest to [k / 10 ** n], where [k] is the integer nearest to
    [x * 10 ** n]. *)
Lemma float_round_digits_decimal :
  forall (x : float) (n : Z) (s : bool) (m : positive) (e : Z),
    Prim2SF x = S754_finite s m e ->
    0 <= n <= 323 ->
    float_round_digits x n
    = float_nearest s
        (round_half_even (scaled_num m e n) (scaled_den e n)) (10 ^ n).
Proof.
  intros x n s m e Hx Hn. unfold float_round_digits. rewrite Hx.
  destruct (323 <? n) eqn:E1; [apply Z.ltb_lt in E1; lia |].
  destruct (n <? -308) eqn:E2; [apply Z.ltb_lt in E2; lia |].
  destruct (0 <=? n) eqn:E3; [reflexivity | apply Z.leb_gt in E3; lia].
Qed.

(** [_format_arbitrary_time] for every kind of number and every
    precision. *)
Lemma format_arbitrary_time_run :
  forall T `{Number T} (offset : T) (prec : Z) (l : log),
    let '(days, hours) := num_divmod (num_floordiv offset 3600) 24 in
    let '(minutes, seconds) := num_divmod (num_mod offset 3600) 60 in
    let seconds := num_round_digits seconds (Z.min prec 6) in
    _format_arbitrary_time offset (Some prec) l
    = (Ok (if num_positive days
           then num_str days ++ " days " ++ num_str hours ++ " hours "
                ++ num_str minutes ++ " minutes " ++ num_str seconds
                ++ " seconds"
           else num_str hours ++ " hours " ++ num_str minutes
                ++ " minutes " ++ num_str seconds ++ " seconds"), l).
Proof.
  intros T NT offset prec l.
  unfold _format_arbitrary_time, num_divmod, opt_gt_int, bind, ret.
  destruct (6 <? prec) eqn:E6.
  - apply Z.ltb_lt in E6. rewrite Z.min_r by lia.
    unfold try_except.
    destruct (num_positive (num_floordiv (num_floordiv offset 3600) 24));
      reflexivity.
  - apply Z.ltb_ge in E6. rewrite Z.min_l by lia.
    unfold try_except.
    destruct (num_positive (num_floordiv (num_floordiv offset 3600) 24));
      reflexivity.
Qed.

(** C3.  For every precision in [0, 9], [_format_arbitrary_time] takes
    [days, hours = divmod(offset // 3600, 24)] and
    [minutes, seconds = divmod(offset % 3600, 60)], rounds the seconds to
    [min(precision, 6)] places, and renders the four parts when [days > 0],
    the last three otherwise: for an [int] and for a [float] offset, and for
    any number with these operations.  For a non-negative [int] the
    rounding leaves the seconds as they are, the hours are below 24, the
    minutes and seconds below 60, and the parts add up to the offset.  For a
    [float] the rounded seconds are the float nearest to [k / 10 ** d],
    where [d = min(precision, 6)] and [k] is an integer at most one half
    away from [seconds * 10 ** d].  An offset of 90000 gives 1 day, 1 hour,
    0 minutes, 0 seconds, as an [int] and as a [float]; 3661.123456789 at
    precision 9 is rendered with six places. *)
Theorem format_arbitrary_time_parts :
  forall (prec : Z) (l : log),
    0 <= prec <= 9 ->
    (forall T `{Number T} (offset : T),
       let '(days, hours) := num_divmod (num_floordiv offset 3600) 24 in
       let '(minutes, seconds) := num_divmod (num_mod offset 3600) 60 in
       let seconds := num_round_digits seconds (Z.min prec 6) in
       _format_arbitrary_time offset (Some prec) l
       = (Ok (if num_positive days
              then num_str days ++ " days " ++ num_str hours ++ " hours "
                   ++ num_str minutes ++ " minutes " ++ num_str seconds
                   ++ " seconds"
              else num_str hours ++ " hours " ++ num_str minutes
                   ++ " minutes " ++ num_str seconds ++ " seconds"), l))
    /\ (forall offset : Z,
          0 <= offset ->
          let '(days, hours) := divmod (offset / 3600) 24 in
          let '(minutes, seconds) := divmod (offset mod 3600) 60 in
          round_int seconds (Z.min prec 6) = seconds
          /\ _format_arbitrary_time offset (Some prec) l
             = (Ok (if 0 <? days
                    then str_int days ++ " days " ++ str_int hours
                         ++ " hours " ++ str_int minutes ++ " minutes "
                         ++ str_int seconds ++ " seconds"
                    else str_int hours ++ " hours " ++ str_int minutes
                         ++ " minutes " ++ str_int seconds ++ " seconds"),
                l)
          /\ 0 <= days /\ 0 <= hours < 24 /\ 0 <= minutes < 60
          /\ 0 <= seconds < 60
          /\ offset = ((days * 24 + hours) * 60 + minutes) * 60 + seconds)
    /\ (forall (seconds : float) (s : bool) (m : positive) (e : Z),
          Prim2SF seconds = S754_finite s m e ->
          let d := Z.min prec 6 in
          let k := round_half_even (scaled_num m e d) (scaled_den e d) in
          num_round_digits seconds d = float_nearest s k (10 ^ d)
          /\ 2 * Z.abs (scaled_num m e d - k * scaled_den e d)
             <= scaled_den e d)
    /\ divmod (90000 / 3600) 24 = (1, 1)
    /\ divmod (90000 mod 3600) 60 = (0, 0)
    /\ _format_arbitrary_time 90000 (Some prec) l
       = (Ok "1 days 1 hours 0 minutes 0 seconds", l)
    /\ num_divmod (num_floordiv 90000%float 3600) 24 = (1%float, 1%float)
    /\ num_divmod (num_mod 90000%float 3600) 60 = (0%float, 0%float)
    /\ _format_arbitrary_time 90000%float (Some prec) l
       = (Ok "1.0 days 1.0 hours 0.0 minutes 0.0 seconds", l)
    /\ _format_arbitrary_time 3661.5%float (Some 2) l
       = (Ok "1.0 hours 1.0 minutes 1.5 seconds", l)
    /\ _format_arbitrary_time 3661.123456789%float (Some 2) l
       = (Ok "1.0 hours 1.0 minutes 1.12 seconds", l)
    /\ _format_arbitrary_time 3661.123456789%float (Some 9) l
       = (Ok "1.0 hours 1.0 minutes 1.123457 seconds", l)
    /\ _format_arbitrary_time 200000.75%float (Some 1) l
       = (Ok "2.0 days 7.0 hours 33.0 minutes 20.8 seconds", l).
Proof.
  intros prec l Hprec.
  split; [intros T NT offset; apply format_arbitrary_time_run |].
  split.
  { intros offset Hoff. unfold divmod.
    assert (Hr : forall s, round_int s (Z.min prec 6) = s)
      by (intros; apply round_int_digits; lia).
    split; [apply Hr |].
    split.
    { pose proof (format_arbitrary_time_run Z offset prec l) as R.
      unfold num_divmod in R.
      cbn [num_floordiv num_mod num_round_digits num_positive num_str
           Number_int] in R.
      rewrite Hr in R. exact R. }
    pose proof (Z.div_pos offset 3600 Hoff ltac:(lia)).
    pose proof (Z.mod_pos_bound (offset / 3600) 24 ltac:(lia)).
    pose proof (Z.mod_pos_bound offset 3600 ltac:(lia)).
    pose proof (Z.mod_pos_bound (offset mod 3600) 60 ltac:(lia)).
    pose proof (Z.div_mod offset 3600 ltac:(lia)).
    pose proof (Z.div_mod (offset / 3600) 24 ltac:(lia)).
    pose proof (Z.div_mod (offset mod 3600) 60 ltac:(lia)).
    assert (0 <= offset / 3600 / 24) by (apply Z.div_pos; lia).
    assert (0 <= offset mod 3600 / 60 < 60)
      by (split; [apply Z.div_pos | apply Z.div_lt_upper_bound]; lia).
    split; [assumption |]. split; [lia |]. split; [assumption |].
    split; lia. }
  split.
  { intros seconds s m e Hs d k. split.
    - apply float_round_digits_decimal; [assumption | unfold d; lia].
    - apply round_half_even_spec, scaled_den_pos. }
  assert (Hcases : prec = 0 \/ prec = 1 \/ prec = 2 \/ prec = 3 \/ prec = 4
                   \/ prec = 5 \/ prec = 6 \/ prec = 7 \/ prec = 8
                   \/ prec = 9) by lia.
  split; [reflexivity |]. split; [reflexivity |].
  split.
  { pose proof (format_arbitrary_time_run Z 90000 prec l) as R.
    unfold num_divmod in R.
    cbn [num_floordiv num_mod num_round_digits num_positive num_str
         Number_int] in R.
    rewrite round_int_digits in R by lia. exact R. }
  split; [vm_compute; reflexivity |]. split; [vm_compute; reflexivity |].
  split.
  { destruct Hcases
      as [-> | [-> | [-> | [-> | [-> | [-> | [-> | [-> | [-> | ->]]]]]]]]];
      vm_compute; reflexivity. }
  split; [vm_compute; reflexivity |]. split; [vm_compute; reflexivity |].
  split; vm_compute; reflexivity.
Qed.

(** ** The converter *)

(** [perform_conversion] has the parameters [conversion_dict], [obj] and
    [*args]; a keyword argument named [unit] fits none of them. *)
Lemma perform_conversion_rejects_keywords :
  forall convert_to d a b u rest l,
    call (perform_conversion convert_to d) [a; b] (("unit", u) :: rest) l
    = (Raise (Exn TypeError
         ("datetime_obj_converter.<locals>.perform_conversion() "
          ++ "got an unexpected keyword argument 'unit'")), l).
Proof. reflexivity. Qed.

(** The converter returns for no input, and calls no library. *)
Lemma converter_never_returns :
  forall obj convert_to unit_ fc ic fmt l,
    returns (fst (datetime_obj_converter obj convert_to unit_ fc ic fmt l))
    = false
    /\ snd (datetime_obj_converter obj convert_to unit_ fc ic fmt l) = l.
Proof.
  intros. unfold datetime_obj_converter.
  destruct (falsy (Some convert_to)); [split; reflexivity |].
  cbv zeta. unfold bind, _validate_option, getitem.
  destruct (py_in unit_ (keys unit_factor_dict)); [| split; reflexivity].
  destruct (py_in fc _float_class_list); [| split; reflexivity].
  destruct (py_in ic _int_class_list); [| split; reflexivity].
  cbn -[conversion_opt_dict perform_conversion call py_in get_type_str].
  destruct (get conversion_opt_dict (get_type_str obj true)) as [d|];
    [| split; reflexivity].
  cbn -[perform_conversion call py_in].
  destruct (py_in convert_to (keys d)); [| split; reflexivity].
  cbn -[perform_conversion call].
  rewrite perform_conversion_rejects_keywords. split; reflexivity.
Qed.

(** C1.  Converting the naive instant 1970-01-01T00:00:01 to ["float"] in
    unit ["s"] does not return [1.0]: the options pass validation, and the
    call of [perform_conversion] with keyword arguments raises [TypeError]
    before the table entry for ["float"] is looked up. *)
Theorem converter_to_float_raises_type_error :
  forall l : log,
    py_in "s" (keys unit_factor_dict) = true ->
    datetime_obj_converter (VDatetime Sample.epoch_plus_one) "float" "s"
      (ByName "d") (ByName "int") None l
    = (Raise (Exn TypeError
         ("datetime_obj_converter.<locals>.perform_conversion() "
          ++ "got an unexpected keyword argument 'unit'")), l).
Proof.
  intros l Hs. unfold datetime_obj_converter. cbv zeta.
  cbn -[_validate_option keys unit_factor_dict perform_conversion call
        conversion_opt_dict getitem get_type_str].
  unfold bind. rewrite validate_option_in by assumption.
  reflexivity.
Qed.

(** C7.  For a value whose detected kind is ["datetime"], asking for
    ["datetime"] fails with a [ValueError] and no library is called; when
    the unit and the precision classes are legal, the error is the one that
    lists the legal targets of a [datetime], among which ["datetime"] is
    not. *)
Theorem datetime_to_datetime_rejected :
  forall (obj : pyval) (unit_ : string) (fc ic : class_spec)
         (fmt : option string) (l : log),
    get_type_str obj true = "datetime" ->
    (exists msg,
       datetime_obj_converter obj "datetime" unit_ fc ic fmt l
       = (Raise (Exn ValueError msg), l)) /\
    (py_in unit_ (keys unit_factor_dict) = true ->
     py_in fc _float_class_list = true ->
     py_in ic _int_class_list = true ->
     datetime_obj_converter obj "datetime" unit_ fc ic fmt l
     = (Raise (Exn ValueError
          ("Object type conversion for object type 'datetime' where "
           ++ "'datetime' not supported for this operation. "
           ++ "Choose one from "
           ++ "['float', 'time', 'pandas', 'numpy', 'arrow', 'str'].")), l))
    /\ py_in "datetime" (keys datetime_obj_conversion_dict) = false.
Proof.
  intros obj unit_ fc ic fmt l Hty.
  assert (Hall : py_in unit_ (keys unit_factor_dict) = true ->
     py_in fc _float_class_list = true ->
     py_in ic _int_class_list = true ->
     datetime_obj_converter obj "datetime" unit_ fc ic fmt l
     = (Raise (Exn ValueError
          ("Object type conversion for object type 'datetime' where "
           ++ "'datetime' not supported for this operation. "
           ++ "Choose one from "
           ++ "['float', 'time', 'pandas', 'numpy', 'arrow', 'str'].")), l)).
  { intros Hu Hf Hi. unfold datetime_obj_converter. cbv zeta.
    rewrite Hty. unfold bind.
    cbn -[_validate_option keys unit_factor_dict _float_class_list
          _int_class_list py_in].
    rewrite !validate_option_in by assumption.
    reflexivity. }
  split; [| split; [exact Hall | reflexivity]].
  destruct (py_in unit_ (keys unit_factor_dict)) eqn:Hu.
  2:{ unfold datetime_obj_converter. cbv zeta. unfold bind, _validate_option.
      cbn -[keys unit_factor_dict py_in]. rewrite Hu. eexists; reflexivity. }
  destruct (py_in fc _float_class_list) eqn:Hf.
  2:{ unfold datetime_obj_converter. cbv zeta. unfold bind, _validate_option.
      cbn -[keys unit_factor_dict py_in _float_class_list]. rewrite Hu, Hf.
      eexists; reflexivity. }
  destruct (py_in ic _int_class_list) eqn:Hi.
  2:{ unfold datetime_obj_converter. cbv zeta. unfold bind, _validate_option.
      cbn -[keys unit_factor_dict py_in _float_class_list _int_class_list].
      rewrite Hu, Hf, Hi. eexists; reflexivity. }
  eexists. apply Hall; reflexivity.
Qed.

(** ** Total time *)

Lemma total_time_unit_dict_arities :
  Forall (fun f => fn_varargs f = false
                   /\ (List.length (fn_params f) <= 4)%nat)
         (map snd _total_time_unit_dict).
Proof. repeat constructor. Qed.

(** [_total_time_unit] hands five arguments to an entry of a table whose
    entries take two to four: it raises [RuntimeError] for every input. *)
Lemma total_time_unit_always_raises :
  forall (datetime_obj unit_ float_class int_class : pyval) (l : log),
    exists msg,
      _total_time_unit datetime_obj unit_ float_class int_class l
      = (Raise (Exn RuntimeError msg), l).
Proof.
  intros obj u fc ic l. unfold _total_time_unit. cbv zeta.
  unfold try_except.
  destruct (get _total_time_unit_dict (get_type_str obj true)) as [f|] eqn:G.
  - apply get_In in G.
    pose proof total_time_unit_dict_arities as A.
    rewrite Forall_forall in A. destruct (A f G) as [Hv Hn].
    match goal with
    | |- context [call f ?args []] =>
        destruct (call_too_many_positional f args l Hv) as [msg E];
          [cbn [List.length]; lia |]
    end.
    rewrite E. cbn. eexists. reflexivity.
  - cbn. eexists. reflexivity.
Qed.

(** C9.  Parsing an epoch offset and converting the result back to an
    offset in the same unit returns no value at all, whatever the backend,
    the unit, the precision and the libraries: both ways back,
    [_total_time_unit] and the converter with target ["float"], raise for
    every object. *)
Theorem epoch_round_trip_never_returns :
  forall T `{Number T} (f : T) (frac_precision : option Z)
         (unit_ module : string) (dt_fmt_str : option string)
         (float_class int_class : class_spec) (l : log),
    returns (fst (bind
      (parse_float_time f frac_precision "unix" unit_ dt_fmt_str module)
      (fun obj => _total_time_unit obj (VStr unit_) (class_val float_class)
                    (class_val int_class)) l)) = false
    /\
    returns (fst (bind
      (parse_float_time f frac_precision "unix" unit_ dt_fmt_str module)
      (fun obj => datetime_obj_converter obj "float" unit_ float_class
                    int_class None) l)) = false.
Proof.
  intros. unfold bind.
  destruct (parse_float_time f frac_precision "unix" unit_ dt_fmt_str module l)
    as [[obj | e] l'].
  - split.
    + destruct (total_time_unit_always_raises obj (VStr unit_)
                  (class_val float_class) (class_val int_class) l') as [msg E].
      now rewrite E.
    + apply converter_never_returns.
  - split; reflexivity.
Qed.

(** ** Frames and columns *)

Lemma frame_setitem_notin :
  forall (df : dataframe) (col : string) (c : column),
    ~ In col (keys df) -> frame_setitem df col c = df.
Proof.
  induction df as [|[k v] df IH]; intros col c Hn; cbn; [reflexivity |].
  destruct (String.eqb_spec k col) as [-> | Hne].
  - exfalso. apply Hn. now left.
  - f_equal. apply IH. intros Hin. apply Hn. now right.
Qed.

Lemma frame_setitem_at :
  forall (pre post : dataframe) (col : string) (c t : column),
    ~ In col (keys pre) -> ~ In col (keys post) ->
    frame_setitem (pre ++ (col, c) :: post)%list col t
    = (pre ++ (col, t) :: post)%list.
Proof.
  intros pre post col c t Hpre Hpost. unfold frame_setitem.
  rewrite map_app. cbn. rewrite String.eqb_refl.
  fold (frame_setitem pre col t). fold (frame_setitem post col t).
  now rewrite !frame_setitem_notin.
Qed.

Lemma column_step_spec : forall ic k col cur c l,
  get cur col = Some c ->
  column_step ic k col cur l =
    match convert_column ic k c with
    | Ok t => (Ok (frame_setitem cur col t), l)
    | Raise e => if is_ValueError e then (Ok cur, l) else (Raise e, l)
    end.
Proof.
  intros ic k col cur c l Hg.
  unfold column_step, try_except, bind, frame_getitem, getitem, lift, ret,
    convert_column.
  rewrite Hg.
  destruct (series_astype c ic) as [casted | e]; [| reflexivity].
  destruct (series_mul casted k) as [t | e]; reflexivity.
Qed.

(** The loop over the labels, started on a frame whose columns [pre] are
    done, computes [best_effort] on the columns [post] that are left. *)
Lemma columns_loop_spec : forall ic k (post pre : dataframe) (l : log),
  NoDup (keys (pre ++ post)%list) ->
  for_each (keys post) (column_step ic k) (pre ++ post)%list l =
    match best_effort ic k post with
    | Ok out => (Ok (pre ++ out)%list, l)
    | Raise e => (Raise e, l)
    end.
Proof.
  intros ic k post. induction post as [|[col c] post IH]; intros pre l Hnd.
  - cbn. now rewrite app_nil_r.
  - assert (Hk : keys (pre ++ (col, c) :: post)%list
                 = (keys pre ++ col :: keys post)%list)
      by (unfold keys; now rewrite map_app).
    rewrite Hk in Hnd.
    pose proof (NoDup_remove_2 _ _ _ Hnd) as Hnot.
    assert (Hpre : ~ In col (keys pre))
      by (intros Hin; apply Hnot; apply in_or_app; now left).
    assert (Hpost : ~ In col (keys post))
      by (intros Hin; apply Hnot; apply in_or_app; now right).
    assert (Hnd' : forall t, NoDup (keys ((pre ++ [(col, t)]) ++ post)%list)).
    { intros t. unfold keys. rewrite !map_app. cbn.
      rewrite <- app_assoc. exact Hnd. }
    cbn [keys map fst for_each]. unfold bind at 1.
    rewrite (column_step_spec ic k col _ c).
    2:{ rewrite get_app_notin by assumption. cbn. now rewrite String.eqb_refl. }
    cbn [best_effort].
    destruct (convert_column ic k c) as [t | e].
    + rewrite frame_setitem_at by assumption.
      replace (pre ++ (col, t) :: post)%list
        with ((pre ++ [(col, t)]) ++ post)%list
        by (rewrite <- app_assoc; reflexivity).
      fold (keys post). rewrite IH by apply Hnd'.
      destruct (best_effort ic k post); [| reflexivity].
      now rewrite <- app_assoc.
    + destruct (is_ValueError e); [| reflexivity].
      replace (pre ++ (col, c) :: post)%list
        with ((pre ++ [(col, c)]) ++ post)%list
        by (rewrite <- app_assoc; reflexivity).
      fold (keys post). rewrite IH by apply Hnd'.
      destruct (best_effort ic k post); [| reflexivity].
      now rewrite <- app_assoc.
Qed.

Lemma map_outcome_length {A B} : forall (f : A -> outcome B) l r,
  map_outcome f l = Ok r -> List.length r = List.length l.
Proof.
  induction l as [|x l IH]; intros r; cbn.
  - now intros [= <-].
  - destruct (f x); [| discriminate].
    destruct (map_outcome f l) as [ys |]; [| discriminate].
    intros [= <-]. cbn. f_equal. now apply IH.
Qed.

Lemma convert_column_length : forall ic k c t,
  convert_column ic k c = Ok t -> List.length t = List.length c.
Proof.
  intros ic k c t. unfold convert_column, series_astype, series_mul.
  destruct (map_outcome (astype_cell ic) c) as [casted |] eqn:E1;
    [| discriminate].
  intros E2. apply map_outcome_length in E1, E2. congruence.
Qed.

Lemma best_effort_ok : forall ic k df out,
  best_effort ic k df = Ok out ->
  keys out = keys df
  /\ map (fun lc => List.length (snd lc)) out
     = map (fun lc => List.length (snd lc)) df
  /\ Forall2 (column_outcome ic k) df out.
Proof.
  intros ic k. induction df as [|[col c] df IH]; intros out; cbn.
  - intros [= <-]. repeat split; constructor.
  - destruct (convert_column ic k c) as [t | e] eqn:Ec.
    + destruct (best_effort ic k df) as [r |]; [| discriminate].
      intros [= <-]. destruct (IH r eq_refl) as (Hk & Hl & Hf).
      unfold keys in *. cbn.
      rewrite Hk, Hl, (convert_column_length _ _ _ _ Ec).
      repeat split; try reflexivity.
      constructor; [| assumption].
      split; [reflexivity |]. cbn. now rewrite Ec.
    + destruct (is_ValueError e) eqn:Ev; [| discriminate].
      destruct (best_effort ic k df) as [r |]; [| discriminate].
      intros [= <-]. destruct (IH r eq_refl) as (Hk & Hl & Hf).
      unfold keys in *. cbn. rewrite Hk, Hl. repeat split; try reflexivity.
      constructor; [| assumption].
      split; [reflexivity |]. cbn. now rewrite Ec.
Qed.

Lemma best_effort_raise : forall ic k df e,
  best_effort ic k df = Raise e ->
  is_ValueError e = false
  /\ exists col c, In (col, c) df /\ convert_column ic k c = Raise e.
Proof.
  intros ic k. induction df as [|[col c] df IH]; intros e; cbn;
    [discriminate |].
  destruct (convert_column ic k c) as [t | e0] eqn:Ec.
  - destruct (best_effort ic k df) as [r | e1]; [discriminate |].
    intros [= <-]. destruct (IH e1 eq_refl) as (Hv & col' & c' & Hin & Hc).
    split; [assumption |]. exists col', c'. split; [now right | assumption].
  - destruct (is_ValueError e0) eqn:Ev.
    + destruct (best_effort ic k df) as [r | e1]; [discriminate |].
      intros [= <-]. destruct (IH e1 eq_refl) as (Hv & col' & c' & Hin & Hc).
      split; [assumption |]. exists col', c'. split; [now right | assumption].
    + intros [= <-]. split; [assumption |].
      exists col, c. split; [now left | assumption].
Qed.

(** On a frame with distinct labels, [_total_time_complex_data] computes
    [best_effort] and wraps the exception that ends it. *)
Lemma frame_total_time_run :
  forall (df : dataframe) (int_class unit_factor : pyval) (l : log),
    NoDup (keys df) ->
    _total_time_complex_data (VDataFrame df) int_class unit_factor l
    = match best_effort int_class unit_factor df with
      | Ok out => (Ok (VDataFrame out), l)
      | Raise e =>
          (Raise (Exn RuntimeError
             ("Error in '_total_time_complex_data' method "
              ++ "for 'DataFrame' type object:" ++ nl ++ exn_msg e ++ ".")),
           l)
      end.
Proof.
  intros df ic k l Hnd.
  pose proof (columns_loop_spec ic k df [] l Hnd) as Hloop.
  cbn [app] in Hloop.
  unfold _total_time_complex_data. cbv zeta.
  unfold try_except at 1. unfold bind at 1.
  change (for_each (keys df) _ df l)
    with (for_each (keys df) (column_step ic k) df l).
  rewrite Hloop.
  destruct (best_effort ic k df) as [out | e]; reflexivity.
Qed.

(** C4, as the code has it.  On a frame with distinct column labels,
    [_total_time_complex_data] leaves every column whose conversion raises
    a [ValueError] as it was and converts every other one, as long as no
    column raises an exception of another class: it then returns a frame
    with the same labels in the same order and the same number of rows in
    every column.  When the conversion of a column raises an exception that
    is not a [ValueError], the call raises [RuntimeError] with that
    exception's message. *)
Theorem frame_total_time_best_effort :
  forall (df : dataframe) (int_class unit_factor : pyval) (l : log),
    NoDup (keys df) ->
    match best_effort int_class unit_factor df with
    | Ok out =>
        _total_time_complex_data (VDataFrame df) int_class unit_factor l
        = (Ok (VDataFrame out), l)
        /\ keys out = keys df
        /\ map (fun lc => List.length (snd lc)) out
           = map (fun lc => List.length (snd lc)) df
        /\ Forall2 (column_outcome int_class unit_factor) df out
    | Raise e =>
        is_ValueError e = false
        /\ (exists col c, In (col, c) df
              /\ convert_column int_class unit_factor c = Raise e)
        /\ _total_time_complex_data (VDataFrame df) int_class unit_factor l
           = (Raise (Exn RuntimeError
                ("Error in '_total_time_complex_data' method "
                 ++ "for 'DataFrame' type object:" ++ nl ++ exn_msg e ++ ".")),
              l)
    end.
Proof.
  intros df ic k l Hnd.
  rewrite (frame_total_time_run df ic k l Hnd).
  destruct (best_effort ic k df) as [out | e] eqn:Eb.
  - split; [reflexivity |]. now apply best_effort_ok.
  - destruct (best_effort_raise _ _ _ _ Eb) as [Hv Hex].
    split; [assumption |]. split; [assumption |]. reflexivity.
Qed.

(** On a column, [_total_time_complex_data] returns the product. *)
Lemma series_total_time_run :
  forall (s : column) (int_class unit_factor : pyval) (l : log),
    _total_time_complex_data (VSeries s) int_class unit_factor l
    = match convert_column int_class unit_factor s with
      | Ok total => (Ok (VSeries total), l)
      | Raise e =>
          (Raise (Exn RuntimeError
             ("Error in '_total_time_complex_data' method "
              ++ "for 'Series' type object:" ++ nl ++ exn_msg e ++ ".")), l)
      end.
Proof.
  intros s ic k l.
  unfold _total_time_complex_data, convert_column, try_except, bind, lift, ret.
  destruct (series_astype s ic) as [casted | e]; [| reflexivity].
  destruct (series_mul casted k) as [t | e]; reflexivity.
Qed.

(** The loop of the test module's [total_time_complex_data] keeps nothing:
    it ends normally or with the exception of a column, and the log is as
    before. *)
Lemma test_loop_keeps_nothing :
  forall (df : dataframe) (ic k : pyval) (cols : list string) (l : log),
    let step := fun (col : string) (_ : unit) =>
      try_except
        (c <- frame_getitem df col ;;
         casted <- lift (series_astype c ic) ;;
         total <- lift (series_mul casted k) ;;
         ret tt)
        is_ValueError
        (fun _ => ret tt) in
    for_each cols step tt l = (Ok tt, l)
    \/ exists e, for_each cols step tt l = (Raise e, l).
Proof.
  intros df ic k cols l step. revert l.
  induction cols as [|col cols IH]; intros l; cbn [for_each].
  - left. reflexivity.
  - unfold bind.
    assert (Hs : step col tt l = (Ok tt, l)
                 \/ exists e, step col tt l = (Raise e, l)).
    { unfold step, try_except, bind, frame_getitem, getitem, lift, ret, raise.
      destruct (get df col) as [c |];
        [| cbn; right; eexists; reflexivity].
      destruct (series_astype c ic) as [casted | e].
      - destruct (series_mul casted k) as [t | e];
          [left; reflexivity |].
        destruct (is_ValueError e);
          [left; reflexivity | right; eexists; reflexivity].
      - destruct (is_ValueError e);
          [left; reflexivity | right; eexists; reflexivity]. }
    destruct Hs as [-> | [e ->]]; [apply IH | right; eexists; reflexivity].
Qed.

(** C5.  The factor table of the test module maps ["D"] to 1000, ["s"] to
    1, ["ms"] to 1e-3, ["us"] to 1e-6 and ["ns"] to 1e-9.  Its
    [total_time_complex_data] does not return the product: for a column
    whose conversion succeeds it returns [None], and for a frame it returns
    the frame it was given, or raises; the function of the same name in
    [time_formatters.py] returns the converted column. *)
Theorem test_module_total_time_discards_product :
  (get TestAndNewMethods.date_unit_factor_dict "D" = Some (VInt 1000)
   /\ get TestAndNewMethods.date_unit_factor_dict "s" = Some (VInt 1)
   /\ get TestAndNewMethods.date_unit_factor_dict "ms" = Some (VFloat 1e-3)
   /\ get TestAndNewMethods.date_unit_factor_dict "us" = Some (VFloat 1e-6)
   /\ get TestAndNewMethods.date_unit_factor_dict "ns" = Some (VFloat 1e-9))
  /\ (forall (s : column) (ic k : pyval) (l : log),
        TestAndNewMethods.total_time_complex_data (VSeries s) ic k l
        = match convert_column ic k s with
          | Ok _ => (Ok VNone, l)
          | Raise e => (Raise (Exn Exception (exn_msg e)), l)
          end
        /\ _total_time_complex_data (VSeries s) ic k l
           = match convert_column ic k s with
             | Ok total => (Ok (VSeries total), l)
             | Raise e =>
                 (Raise (Exn RuntimeError
                    ("Error in '_total_time_complex_data' method "
                     ++ "for 'Series' type object:" ++ nl ++ exn_msg e
                     ++ ".")), l)
             end)
  /\ (forall (df : dataframe) (ic k : pyval) (l : log),
        TestAndNewMethods.total_time_complex_data (VDataFrame df) ic k l
        = (Ok (VDataFrame df), l)
        \/ exists msg,
             TestAndNewMethods.total_time_complex_data (VDataFrame df) ic k l
             = (Raise (Exn Exception msg), l)).
Proof.
  split; [repeat split |]. split.
  - intros s ic k l. split; [| apply series_total_time_run].
    unfold TestAndNewMethods.total_time_complex_data. cbn [lower].
    cbn -[TestAndNewMethods.scaled try_except bind].
    unfold TestAndNewMethods.scaled, convert_column, try_except, bind, lift,
      ret, raise.
    destruct (series_astype s ic) as [casted | e]; [| reflexivity].
    destruct (series_mul casted k) as [t | e]; reflexivity.
  - intros df ic k l.
    destruct (test_loop_keeps_nothing df ic k (keys df) l) as [E | [e E]];
      cbv zeta in E; [left | right; exists (exn_msg e)];
      unfold TestAndNewMethods.total_time_complex_data; cbv zeta;
      change (lower (TestAndNewMethods.get_obj_type_str (VDataFrame df)))
        with "dataframe";
      change (String.eqb "dataframe" "series") with false;
      change (String.eqb "dataframe" "dataframe") with true;
      cbv iota; unfold bind at 1; unfold try_except at 1;
      rewrite E; reflexivity.
Qed.

End Properties.

(* ================================================================== *)
(** * The properties at concrete inputs *)
(* ================================================================== *)

Section Runs.
Import Sample.

(** The converter on the instant 1970-01-01T00:00:01, in the concrete
    environment. *)
Lemma converter_to_float_witness :
  py_in "s" (keys unit_factor_dict) = true
  /\ run (datetime_obj_converter (VDatetime epoch_plus_one) "float" "s"
            (ByName "d") (ByName "int") None)
     = (Raise (Exn TypeError
          ("datetime_obj_converter.<locals>.perform_conversion() "
           ++ "got an unexpected keyword argument 'unit'")), []).
Proof.
  split; [reflexivity |].
  apply (converter_to_float_raises_type_error (H := backend) []).
  reflexivity.
Defined.

(** The table entry that the converter never reaches does give [1.0] for
    that instant. *)
Lemma float_entry_of_epoch_plus_one :
  fst (run (call_opt (get datetime_obj_conversion_dict "float")
              [VDatetime epoch_plus_one; VStr "s"] []))
  = Ok (VFloat 1).
Proof. reflexivity. Qed.

(** [parse_float_time(0, unit="us", dt_fmt_str="%Y", module="pandas")]. *)
Lemma parse_float_time_default_precision_witness :
  py_in "pandas" ("str" :: keys floated_time_parsing_dict) = true
  /\ "%Y" <> EmptyString
  /\ run (parse_float_time 0 None "unix" "us" (Some "%Y") "pandas")
     = (Raise (Exn TypeError
          "'<=' not supported between instances of 'int' and 'NoneType'"),
        []).
Proof.
  split; [reflexivity |]. split; [discriminate |].
  apply (parse_float_time_default_precision_raises (H := backend) Z 0
           "unix" "us" "pandas" "%Y" []).
  - reflexivity.
  - discriminate.
Defined.

(** An offset of 90000 seconds at precision 9, as an [int] and as a
    [float], and one and a half seconds rounded to six places. *)
Lemma format_arbitrary_time_witness :
  0 <= 9 <= 9 /\ 0 <= 90000
  /\ Prim2SF 1.5%float = S754_finite false 6755399441055744 (-52)
  /\ run (_format_arbitrary_time 90000 (Some 9))
     = (Ok "1 days 1 hours 0 minutes 0 seconds", [])
  /\ 90000 = ((1 * 24 + 1) * 60 + 0) * 60 + 0
  /\ run (_format_arbitrary_time 90000%float (Some 9))
     = (Ok "1.0 days 1.0 hours 0.0 minutes 0.0 seconds", [])
  /\ float_round_digits 1.5%float 6 = float_nearest false 1500000 1000000.
Proof.
  assert (H9 : 0 <= 9 <= 9) by lia.
  assert (H0 : 0 <= 90000) by lia.
  assert (Hs : Prim2SF 1.5%float = S754_finite false 6755399441055744 (-52))
    by reflexivity.
  destruct (format_arbitrary_time_parts 9 [] H9)
    as (_ & Pparts & Pround & _ & _ & Pint & _ & _ & Pfloat & _).
  split; [exact H9 |]. split; [exact H0 |]. split; [exact Hs |].
  split; [exact Pint |].
  split; [exact (proj2 (proj2 (proj2 (proj2 (proj2 (proj2
                   (Pparts 90000 H0))))))) |].
  split; [exact Pfloat |].
  exact (proj1 (Pround 1.5%float false 6755399441055744%positive (-52) Hs)).
Defined.

(** Called with a negative precision, which [_validate_precision] would
    refuse, the formatter rounds the seconds of an [int] to tens. *)
Lemma format_arbitrary_time_negative_precision :
  run (_format_arbitrary_time 3655 (Some (-1)))
  = (Ok "1 hours 0 minutes 60 seconds", []).
Proof. reflexivity. Qed.

(** On a [float] the rounding can carry the seconds to 60: the minutes are
    not adjusted. *)
Lemma format_arbitrary_time_float_carry :
  run (_format_arbitrary_time 59.9999999%float (Some 6))
  = (Ok "0.0 hours 0.0 minutes 60.0 seconds", []).
Proof. vm_compute. reflexivity. Qed.

(** A frame whose second column holds [None]: its cast raises [TypeError],
    and the exception leaves [_total_time_complex_data] as a
    [RuntimeError]. *)
Lemma frame_with_none_escapes :
  convert_column (VStr "int") (VInt 1000) [CNone; CNone]
  = Raise (Exn TypeError
      ("int() argument must be a string, a bytes-like object or a real "
       ++ "number, not 'NoneType'"))
  /\ NoDup (keys frame_with_none)
  /\ returns (fst (run (_total_time_complex_data (VDataFrame frame_with_none)
                          (VStr "int") (VInt 1000)))) = false
  /\ raises_class is_RuntimeError
       (fst (run (_total_time_complex_data (VDataFrame frame_with_none)
                    (VStr "int") (VInt 1000)))) = true.
Proof.
  split; [reflexivity |]. split; [| split; reflexivity].
  repeat constructor; cbn; intuition discriminate.
Qed.

(** A frame whose second column holds text: that column stays, the other
    two are converted. *)
Lemma frame_total_time_witness :
  NoDup (keys frame_with_text)
  /\ run (_total_time_complex_data (VDataFrame frame_with_text)
            (VStr "int") (VInt 1000))
     = (Ok (VDataFrame [
          ("start", [CInt 1000; CInt 2000]);
          ("note", [CStr "n/a"; CStr "late"]);
          ("stop", [CInt 3000; CInt 4000])
        ]), []).
Proof.
  assert (Hnd : NoDup (keys frame_with_text))
    by (repeat constructor; cbn; intuition discriminate).
  split; [exact Hnd |].
  exact (proj1 (frame_total_time_best_effort (H := backend) frame_with_text
                  (VStr "int") (VInt 1000) [] Hnd)).
Defined.

(** A [datetime] asked to become a [datetime]. *)
Lemma datetime_to_datetime_witness :
  get_type_str (VDatetime epoch_plus_one) true = "datetime"
  /\ run (datetime_obj_converter (VDatetime epoch_plus_one) "datetime" "s"
            (ByName "d") (ByName "int") None)
     = (Raise (Exn ValueError
          ("Object type conversion for object type 'datetime' where "
           ++ "'datetime' not supported for this operation. "
           ++ "Choose one from "
           ++ "['float', 'time', 'pandas', 'numpy', 'arrow', 'str'].")), []).
Proof.
  split; [reflexivity |].
  apply (datetime_to_datetime_rejected (H := backend)
           (VDatetime epoch_plus_one) "s" (ByName "d") (ByName "int") None []
           eq_refl); reflexivity.
Defined.

(** The test module on a column of milliseconds: [None], where
    [time_formatters.py] returns the seconds. *)
Lemma test_module_series_run :
  run (TestAndNewMethods.total_time_complex_data
         (VSeries [CInt 1000; CInt 2500]) (VStr "int") (VFloat 1e-3))
  = (Ok VNone, [])
  /\ run (_total_time_complex_data
            (VSeries [CInt 1000; CInt 2500]) (VStr "int") (VFloat 1e-3))
     = (Ok (VSeries [CFloat 1; CFloat 2.5]), [])
  /\ run (TestAndNewMethods.total_time_complex_data
            (VDataFrame [("t", [CInt 1000; CInt 2500])]) (VStr "int")
            (VFloat 1e-3))
     = (Ok (VDataFrame [("t", [CInt 1000; CInt 2500])]), []).
Proof. repeat split. Qed.

(** One second after the epoch, parsed and sent back: the parse returns the
    instant, the way back raises. *)
Lemma epoch_round_trip_run :
  fst (run (parse_float_time 1 (Some 0) "unix" "s" (Some "%Y") "datetime"))
  = Ok (VDatetime epoch_plus_one)
  /\ fst (run (_total_time_unit (VDatetime epoch_plus_one) (VStr "s")
                 (VStr "d") (VStr "int")))
     = Raise (Exn RuntimeError
         ("Error in conversion process, method '_total_time_unit': "
          ++ "<lambda>() takes 2 positional arguments but 5 were given")).
Proof. split; reflexivity. Qed.

End Runs.

(* ================================================================== *)
(** * Further properties of [time_formatters.py] *)
(* ================================================================== *)

Section MoreProperties.
Context `{Backend}.
Local Open Scope py_scope.

(** ** Parsing a number of time units *)

(** [_format_arbitrary_time] calls no library. *)
Lemma format_arbitrary_time_log :
  forall T `{Number T} (x : T) (fp : option Z) (l : log),
    snd (_format_arbitrary_time x fp l) = l.
Proof.
  intros T NT x fp l. unfold _format_arbitrary_time.
  destruct (num_divmod (num_floordiv x 3600) 24) as [days hours].
  destruct (num_divmod (num_mod x 3600) 60) as [minutes seconds].
  unfold bind, opt_gt_int, ret, raise.
  destruct fp as [p |]; [| reflexivity].
  unfold try_except, list_item, lift, bind, ret. cbn [nth_error _time_str_parts_fmts].
  destruct (num_positive days).
  - match goal with |- context [format_string ?a ?b] =>
      destruct (format_string a b) as [s | e] end; [reflexivity |].
    destruct (is_Key_Index_ValueError e); reflexivity.
  - match goal with |- context [format_string ?a ?b] =>
      destruct (format_string a b) as [s | e] end; [reflexivity |].
    destruct (is_Key_Index_ValueError e); reflexivity.
Qed.

(** The two validators call no library. *)
Lemma validate_precision_log :
  forall fp opt a b l, snd (_validate_precision fp opt a b l) = l.
Proof.
  intros. unfold _validate_precision, int_between_opt, int_le_opt, bind, ret, raise.
  destruct fp as [p |]; [| reflexivity]. cbn.
  destruct (a <=? p); cbn; [destruct (p <=? b); cbn |].
  all: destruct (7 <=? p); cbn; try reflexivity.
  all: try (destruct (p <=? b); cbn); try reflexivity.
  all: destruct (negb (String.eqb opt "pandas")); reflexivity.
Qed.

Lemma validate_unit_log :
  forall u m l, snd (_validate_unit u m l) = l.
Proof.
  intros. unfold _validate_unit, bind, ret, raise.
  destruct (String.eqb m "numpy" && negb (py_in u numpy_unit_list))%bool;
    [reflexivity |].
  destruct (String.eqb m "pandas" && negb (py_in u pandas_unit_list))%bool;
    reflexivity.
Qed.

(** [_validate_precision] on an integer precision, with the default
    bounds. *)
Lemma validate_precision_run :
  forall (p : Z) (opt : string) (l : log),
    _validate_precision (Some p) opt default_min_prec default_max_prec l
    = if ((p <? 0) || (9 <? p))%bool then
        (Raise (Exn ValueError
           "Fractional precision must be between 0 and 9."), l)
      else if ((7 <=? p) && negb (String.eqb opt "pandas"))%bool then
        (Raise (Exn ValueError
           ("Only option 'pandas' supports precision=" ++ str_int p ++ ".")),
         l)
      else (Ok tt, l).
Proof.
  intros p opt l.
  unfold _validate_precision, int_between_opt, int_le_opt,
    default_min_prec, default_max_prec, bind, ret, raise.
  destruct (0 <=? p) eqn:E0; destruct (p <=? 9) eqn:E9;
    destruct (7 <=? p) eqn:E7; destruct (String.eqb opt "pandas") eqn:Eo;
    destruct (p <? 0) eqn:F0; destruct (9 <? p) eqn:F9;
    cbn; rewrite ?E9; cbn; try reflexivity; exfalso; lia.
Qed.

(** [_validate_unit], as a case distinction. *)
Lemma validate_unit_run :
  forall (u m : string) (l : log),
    _validate_unit u m l
    = if (String.eqb m "numpy" && negb (py_in u numpy_unit_list))%bool then
        (Raise (Exn ValueError
           ("Unsupported date unit for numpy.datetime64 objects. "
            ++ "Choose one from " ++ str_list repr_str numpy_unit_list ++ ".")),
         l)
      else if (String.eqb m "pandas" && negb (py_in u pandas_unit_list))%bool
      then
        (Raise (Exn ValueError
           ("Unsupported date unit for pandas.Timestamp objects. "
            ++ "Choose one from " ++ str_list repr_str pandas_unit_list ++ ".")),
         l)
      else (Ok tt, l).
Proof.
  intros. unfold _validate_unit, bind, ret, raise.
  destruct (String.eqb m "numpy" && negb (py_in u numpy_unit_list))%bool;
    [reflexivity |].
  destruct (String.eqb m "pandas" && negb (py_in u pandas_unit_list))%bool;
    reflexivity.
Qed.

(** [_float_time_parser]: the module is checked, then the unit, then the
    table entry is called with the offset and the unit. *)
Lemma float_time_parser_run :
  forall T `{Number T} (x : T) (module unit_ : string) (l : log),
    _float_time_parser x module unit_ l
    = if py_in module (keys floated_time_parsing_dict) then
        match _validate_unit unit_ module l with
        | (Ok _, l') =>
            call_opt (get floated_time_parsing_dict module)
              [num_val x; VStr unit_] [] l'
        | (Raise e, l') => (Raise e, l')
        end
      else
        (Raise (Exn ValueError
           ("Object type conversion '" ++ module
            ++ "' not supported for this operation. "
            ++ "Choose one from "
            ++ "['datetime', 'time', 'pandas', 'numpy', 'arrow'].")), l).
Proof.
  intros. unfold _float_time_parser, _validate_option. cbv zeta.
  unfold bind at 1.
  destruct (py_in module (keys floated_time_parsing_dict)); reflexivity.
Qed.

(** [_float_time_parser], module by module. *)
Lemma float_time_parser_datetime :
  forall T `{Number T} (x : T) (unit_ : string) (l : log),
    _float_time_parser x "datetime" unit_ l
    = (ffi "datetime.fromtimestamp" [num_val x] [],
       (l ++ [LibCall "datetime.fromtimestamp" [num_val x] []])%list).
Proof.
  intros. rewrite float_time_parser_run, validate_unit_run. reflexivity.
Qed.

Lemma float_time_parser_arrow :
  forall T `{Number T} (x : T) (unit_ : string) (l : log),
    _float_time_parser x "arrow" unit_ l
    = (ffi "arrow.get" [num_val x] [],
       (l ++ [LibCall "arrow.get" [num_val x] []])%list).
Proof.
  intros. rewrite float_time_parser_run, validate_unit_run. reflexivity.
Qed.

Lemma float_time_parser_time :
  forall T `{Number T} (x : T) (unit_ : string) (l : log),
    _float_time_parser x "time" unit_ l
    = (Raise (Exn TypeError
         "<lambda>() takes 1 positional argument but 2 were given"), l).
Proof.
  intros. rewrite float_time_parser_run, validate_unit_run. reflexivity.
Qed.

Lemma float_time_parser_pandas :
  forall T `{Number T} (x : T) (unit_ : string) (l : log),
    _float_time_parser x "pandas" unit_ l
    = if py_in unit_ pandas_unit_list then
        (ffi "pd.to_datetime" [num_val x] [("unit", VStr unit_)],
         (l ++ [LibCall "pd.to_datetime" [num_val x]
                  [("unit", VStr unit_)]])%list)
      else
        (Raise (Exn ValueError
           ("Unsupported date unit for pandas.Timestamp objects. "
            ++ "Choose one from " ++ str_list repr_str pandas_unit_list ++ ".")),
         l).
Proof.
  intros. rewrite float_time_parser_run, validate_unit_run.
  change (py_in "pandas" (keys floated_time_parsing_dict)) with true.
  change (String.eqb "pandas" "numpy") with false.
  change (String.eqb "pandas" "pandas") with true.
  cbn [andb]. destruct (py_in unit_ pandas_unit_list); reflexivity.
Qed.

Lemma float_time_parser_numpy :
  forall T `{Number T} (x : T) (unit_ : string) (l : log),
    _float_time_parser x "numpy" unit_ l
    = if py_in unit_ numpy_unit_list then
        (ffi "np.datetime64" [num_val x; VStr unit_] [],
         (l ++ [LibCall "np.datetime64" [num_val x; VStr unit_] []])%list)
      else
        (Raise (Exn ValueError
           ("Unsupported date unit for numpy.datetime64 objects. "
            ++ "Choose one from " ++ str_list repr_str numpy_unit_list ++ ".")),
         l).
Proof.
  intros. rewrite float_time_parser_run, validate_unit_run.
  change (py_in "numpy" (keys floated_time_parsing_dict)) with true.
  change (String.eqb "numpy" "numpy") with true.
  cbn [andb]. destruct (py_in unit_ numpy_unit_list); reflexivity.
Qed.

Lemma float_time_parser_unsupported :
  forall T `{Number T} (x : T) (module unit_ : string) (l : log),
    py_in module (keys floated_time_parsing_dict) = false ->
    _float_time_parser x module unit_ l
    = (Raise (Exn ValueError
         ("Object type conversion '" ++ module
          ++ "' not supported for this operation. "
          ++ "Choose one from "
          ++ "['datetime', 'time', 'pandas', 'numpy', 'arrow'].")), l).
Proof.
  intros T NT x m u l Hm. rewrite float_time_parser_run. now rewrite Hm.
Qed.

(** [parse_float_time]: the four validations in their order, then the
    branch on the module. *)
Lemma parse_float_time_run :
  forall T `{Number T} (x : T) (fp : option Z) (origin unit_ : string)
         (fmt : option string) (module : string) (l : log),
    parse_float_time x fp origin unit_ fmt module l
    = if py_in module ("str" :: keys floated_time_parsing_dict) then
        if (negb (String.eqb module "str") && falsy fmt)%bool then
          (Raise (Exn ValueError "You must provide a formatting string."), l)
        else
          match _validate_precision fp module
                  default_min_prec default_max_prec l with
          | (Raise e, l') => (Raise e, l')
          | (Ok _, l') =>
              match _validate_unit unit_ module l' with
              | (Raise e, l'') => (Raise e, l'')
              | (Ok _, l'') =>
                  if String.eqb module "str" then
                    _parse_float_to_string x fp origin fmt unit_ module l''
                  else _float_time_parser x module unit_ l''
              end
          end
      else
        (Raise (Exn ValueError
           ("Object type conversion '" ++ module
            ++ "' not supported for this operation. "
            ++ "Choose one from "
            ++ "['str', 'datetime', 'time', 'pandas', 'numpy', 'arrow'].")),
         l).
Proof.
  intros. unfold parse_float_time, _validate_option. cbv zeta.
  unfold bind at 1.
  destruct (py_in module ("str" :: keys floated_time_parsing_dict));
    [| reflexivity].
  cbn [negb]. cbv iota. unfold ret at 1. cbv beta iota.
  destruct (negb (String.eqb module "str") && falsy fmt)%bool;
    [reflexivity |].
  unfold bind.
  destruct (_validate_precision fp module default_min_prec default_max_prec l)
    as [[u | e] l']; [| reflexivity].
  destruct (_validate_unit unit_ module l') as [[u2 | e] l''];
    [| reflexivity].
  destruct (String.eqb module "str"); reflexivity.
Qed.

(** What [_parse_float_to_string] does when it is reached from
    [parse_float_time], that is with [module="str"] and a precision that
    passed validation. *)
Lemma parse_float_to_string_str :
  forall T `{Number T} (x : T) (p : Z) (origin unit_ : string)
         (fmt : option string) (l : log),
    p <= 6 ->
    _parse_float_to_string x (Some p) origin fmt unit_ "str" l
    = if String.eqb origin "arbitrary" then
        match _format_arbitrary_time x (Some p) l with
        | (Ok s, l') => (Ok (VStr s), l')
        | (Raise e, l') => (Raise e, l')
        end
      else if String.eqb origin "unix" then
        match num_round x with
        | Ok _ =>
            (Raise (Exn ValueError
               ("Object type conversion 'str' not supported for this "
                ++ "operation. Choose one from "
                ++ "['datetime', 'time', 'pandas', 'numpy', 'arrow'].")), l)
        | Raise e => (Raise e, l)
        end
      else (Ok VNone, l).
Proof.
  intros T NT x p origin unit_ fmt l Hp. unfold _parse_float_to_string.
  destruct (String.eqb origin "arbitrary"); [reflexivity |].
  destruct (String.eqb origin "unix"); [| reflexivity].
  apply Z.leb_le in Hp. rewrite Hp.
  unfold bind at 1. unfold lift.
  destruct (num_round x) as [z | e]; [| reflexivity].
  unfold bind at 1.
  rewrite (float_time_parser_unsupported Z z "str" unit_ l eq_refl).
  reflexivity.
Qed.

(** When [_validate_precision] returns, the precision is an integer in
    0..9, and in 0..6 unless the option is ["pandas"]. *)
Lemma validate_precision_ok_inv :
  forall (fp : option Z) (opt : string) (l l' : log) (u : unit),
    _validate_precision fp opt default_min_prec default_max_prec l = (Ok u, l') ->
    l' = l /\ exists p, fp = Some p /\ 0 <= p <= 9
                        /\ (opt <> "pandas" -> p <= 6).
Proof.
  intros fp opt l l' u E. destruct fp as [p |]; [| discriminate].
  rewrite validate_precision_run in E.
  destruct (p <? 0) eqn:F0; [discriminate |].
  destruct (9 <? p) eqn:F9; [discriminate |]. cbn [orb] in E.
  destruct (7 <=? p) eqn:F7; cbn [andb] in E.
  - destruct (String.eqb_spec opt "pandas") as [-> | Hne]; [| discriminate].
    cbn [negb] in E. injection E as _ <-. split; [reflexivity |].
    exists p. repeat split; try lia. intros Hc. now elim Hc.
  - injection E as _ <-. split; [reflexivity |].
    exists p. repeat split; lia.
Qed.

(** X1.  Whatever its arguments, [parse_float_time] calls the libraries at
    most once, and the one call is a constructor of the chosen backend
    ([datetime.fromtimestamp], [pd.to_datetime], [np.datetime64] or
    [arrow.get]): [strftime] and [get_nano_datetime] are never reached. *)
Theorem parse_float_time_one_constructor_call :
  forall T `{Number T} (x : T) (fp : option Z) (origin unit_ : string)
         (fmt : option string) (module : string) (l : log),
    snd (parse_float_time x fp origin unit_ fmt module l) = l
    \/ exists c,
         snd (parse_float_time x fp origin unit_ fmt module l)
         = (l ++ [c])%list
         /\ In (callee c)
              ["datetime.fromtimestamp"; "pd.to_datetime"; "np.datetime64";
               "arrow.get"].
Proof.
  intros T NT x fp origin unit_ fmt module l. rewrite parse_float_time_run.
  destruct (py_in module ("str" :: keys floated_time_parsing_dict)) eqn:Hm;
    [| left; reflexivity].
  destruct (negb (String.eqb module "str") && falsy fmt)%bool;
    [left; reflexivity |].
  destruct (_validate_precision fp module default_min_prec default_max_prec l)
    as [[u | e] l'] eqn:Ep.
  2:{ left. pose proof (validate_precision_log fp module default_min_prec
                          default_max_prec l) as Hl.
      rewrite Ep in Hl. exact Hl. }
  destruct (validate_precision_ok_inv _ _ _ _ _ Ep) as [-> [p [-> [Hp H6]]]].
  rewrite validate_unit_run.
  apply py_in_string_In in Hm. cbn in Hm.
  destruct Hm as [<- | [<- | [<- | [<- | [<- | [<- | []]]]]]].
  - cbn [String.eqb Ascii.eqb Bool.eqb andb].
    change (String.eqb "str" "numpy") with false.
    change (String.eqb "str" "pandas") with false.
    change (String.eqb "str" "str") with true. cbn [andb]. cbv iota.
    rewrite parse_float_to_string_str by (apply H6; discriminate).
    left. destruct (String.eqb origin "arbitrary").
    + pose proof (format_arbitrary_time_log T x (Some p) l) as Hl.
      destruct (_format_arbitrary_time x (Some p) l) as [[s | e] l2];
        exact Hl.
    + destruct (String.eqb origin "unix"); [| reflexivity].
      destruct (num_round x); reflexivity.
  - change (String.eqb "datetime" "numpy") with false.
    change (String.eqb "datetime" "pandas") with false.
    change (String.eqb "datetime" "str") with false. cbn [andb]. cbv iota.
    rewrite float_time_parser_datetime. right. eexists.
    split; [reflexivity |]. cbn. auto.
  - change (String.eqb "time" "numpy") with false.
    change (String.eqb "time" "pandas") with false.
    change (String.eqb "time" "str") with false. cbn [andb]. cbv iota.
    rewrite float_time_parser_time. left. reflexivity.
  - change (String.eqb "pandas" "numpy") with false.
    change (String.eqb "pandas" "pandas") with true.
    change (String.eqb "pandas" "str") with false. cbn [andb].
    destruct (py_in unit_ pandas_unit_list) eqn:Eu; cbn [negb]; cbv iota;
      [| left; reflexivity].
    rewrite float_time_parser_pandas, Eu. right. eexists.
    split; [reflexivity |]. cbn. auto.
  - change (String.eqb "numpy" "numpy") with true.
    change (String.eqb "numpy" "str") with false. cbn [andb].
    destruct (py_in unit_ numpy_unit_list) eqn:Eu; cbn [negb]; cbv iota;
      [| left; reflexivity].
    change (String.eqb "numpy" "pandas") with false. cbn [andb]. cbv iota.
    rewrite float_time_parser_numpy, Eu. right. eexists.
    split; [reflexivity |]. cbn. auto.
  - change (String.eqb "arrow" "numpy") with false.
    change (String.eqb "arrow" "pandas") with false.
    change (String.eqb "arrow" "str") with false. cbn [andb]. cbv iota.
    rewrite float_time_parser_arrow. right. eexists.
    split; [reflexivity |]. cbn. auto 6.
Qed.

(** A precision in 0..6 passes for every option. *)
Lemma validate_precision_low :
  forall (p : Z) (opt : string) (l : log),
    0 <= p <= 6 ->
    _validate_precision (Some p) opt default_min_prec default_max_prec l
    = (Ok tt, l).
Proof.
  intros p opt l Hp. rewrite validate_precision_run.
  destruct (p <? 0) eqn:F0; [lia |]. destruct (9 <? p) eqn:F9; [lia |].
  destruct (7 <=? p) eqn:F7; [lia |]. reflexivity.
Qed.

(** X2.  With [module="str"] and [origin="unix"], [parse_float_time] returns
    for no offset, precision, unit or format, and calls no library: a
    precision that is absent or outside 0..6 is refused by
    [_validate_precision], and otherwise [_parse_float_to_string] hands the
    module name ["str"] to [_float_time_parser], which rejects it. *)
Theorem parse_float_time_str_unix_never_returns :
  forall T `{Number T} (x : T) (fp : option Z) (unit_ : string)
         (fmt : option string) (l : log),
    returns (fst (parse_float_time x fp "unix" unit_ fmt "str" l)) = false
    /\ snd (parse_float_time x fp "unix" unit_ fmt "str" l) = l.
Proof.
  intros T NT x fp unit_ fmt l. rewrite parse_float_time_run.
  change (py_in "str" ("str" :: keys floated_time_parsing_dict)) with true.
  change (String.eqb "str" "str") with true. cbn [negb andb]. cbv iota.
  destruct (_validate_precision fp "str" default_min_prec default_max_prec l)
    as [[u | e] l'] eqn:Ep.
  2:{ pose proof (validate_precision_log fp "str" default_min_prec
                    default_max_prec l) as Hl.
      rewrite Ep in Hl. cbn in Hl. subst l'. split; reflexivity. }
  destruct (validate_precision_ok_inv _ _ _ _ _ Ep) as [-> [p [-> [Hp H6]]]].
  rewrite validate_unit_run.
  change (String.eqb "str" "numpy") with false.
  change (String.eqb "str" "pandas") with false. cbn [andb]. cbv iota.
  rewrite parse_float_to_string_str by (apply H6; discriminate).
  change (String.eqb "unix" "arbitrary") with false.
  change (String.eqb "unix" "unix") with true. cbv iota.
  destruct (num_round x); split; reflexivity.
Qed.

(** X3.  With [module="time"], [parse_float_time] returns for no input and
    calls no library: the table entry takes one parameter and
    [_float_time_parser] calls it with two arguments. *)
Theorem parse_float_time_time_module_never_returns :
  forall T `{Number T} (x : T) (fp : option Z) (origin unit_ : string)
         (fmt : option string) (l : log),
    returns (fst (parse_float_time x fp origin unit_ fmt "time" l)) = false
    /\ snd (parse_float_time x fp origin unit_ fmt "time" l) = l.
Proof.
  intros T NT x fp origin unit_ fmt l. rewrite parse_float_time_run.
  change (py_in "time" ("str" :: keys floated_time_parsing_dict)) with true.
  change (String.eqb "time" "str") with false. cbn [negb andb].
  destruct (falsy fmt); [split; reflexivity |].
  destruct (_validate_precision fp "time" default_min_prec default_max_prec l)
    as [[u | e] l'] eqn:Ep.
  2:{ pose proof (validate_precision_log fp "time" default_min_prec
                    default_max_prec l) as Hl.
      rewrite Ep in Hl. cbn in Hl. subst l'. split; reflexivity. }
  destruct (validate_precision_ok_inv _ _ _ _ _ Ep) as [-> _].
  rewrite validate_unit_run.
  change (String.eqb "time" "numpy") with false.
  change (String.eqb "time" "pandas") with false. cbn [andb]. cbv iota.
  rewrite float_time_parser_time. split; reflexivity.
Qed.

(** A non-empty format string is truthy. *)
Lemma falsy_nonempty : forall fmt : string,
  fmt <> EmptyString -> falsy (Some fmt) = false.
Proof. intros [| c r] Hf; [contradiction | reflexivity]. Qed.

(** X4.  With a precision in 0..6 and a non-empty format, the modules
    ["datetime"] and ["arrow"] give the result of the one library call on
    the offset, [datetime.fromtimestamp(x)] and [arrow.get(x)]: the origin,
    the unit, the precision and the format have no effect on it. *)
Theorem parse_float_time_datetime_ignores_options :
  forall T `{Number T} (x : T) (p : Z) (origin unit_ fmt : string) (l : log),
    0 <= p <= 6 -> fmt <> EmptyString ->
    parse_float_time x (Some p) origin unit_ (Some fmt) "datetime" l
    = (ffi "datetime.fromtimestamp" [num_val x] [],
       (l ++ [LibCall "datetime.fromtimestamp" [num_val x] []])%list)
    /\ parse_float_time x (Some p) origin unit_ (Some fmt) "arrow" l
       = (ffi "arrow.get" [num_val x] [],
          (l ++ [LibCall "arrow.get" [num_val x] []])%list).
Proof.
  intros T NT x p origin unit_ fmt l Hp Hf. split.
  - rewrite parse_float_time_run.
    change (py_in "datetime" ("str" :: keys floated_time_parsing_dict))
      with true.
    change (String.eqb "datetime" "str") with false. cbn [negb andb].
    rewrite falsy_nonempty by assumption.
    rewrite validate_precision_low by assumption.
    rewrite validate_unit_run.
    change (String.eqb "datetime" "numpy") with false.
    change (String.eqb "datetime" "pandas") with false. cbn [andb]. cbv iota.
    apply float_time_parser_datetime.
  - rewrite parse_float_time_run.
    change (py_in "arrow" ("str" :: keys floated_time_parsing_dict))
      with true.
    change (String.eqb "arrow" "str") with false. cbn [negb andb].
    rewrite falsy_nonempty by assumption.
    rewrite validate_precision_low by assumption.
    rewrite validate_unit_run.
    change (String.eqb "arrow" "numpy") with false.
    change (String.eqb "arrow" "pandas") with false. cbn [andb]. cbv iota.
    apply float_time_parser_arrow.
Qed.

(** X5.  With a precision in 0..6 and a non-empty format, the modules
    ["pandas"] and ["numpy"] check the unit against the backend's list
    before anything is called: a listed unit gives the result of
    [pd.to_datetime(x, unit=unit)] or [np.datetime64(x, unit)], any other
    one the [ValueError] that lists the supported units. *)
Theorem parse_float_time_unit_checked_for_pandas_and_numpy :
  forall T `{Number T} (x : T) (p : Z) (origin unit_ fmt : string) (l : log),
    0 <= p <= 6 -> fmt <> EmptyString ->
    parse_float_time x (Some p) origin unit_ (Some fmt) "pandas" l
    = (if py_in unit_ pandas_unit_list then
         (ffi "pd.to_datetime" [num_val x] [("unit", VStr unit_)],
          (l ++ [LibCall "pd.to_datetime" [num_val x]
                   [("unit", VStr unit_)]])%list)
       else
         (Raise (Exn ValueError
            ("Unsupported date unit for pandas.Timestamp objects. "
             ++ "Choose one from " ++ str_list repr_str pandas_unit_list
             ++ ".")), l))
    /\ parse_float_time x (Some p) origin unit_ (Some fmt) "numpy" l
       = (if py_in unit_ numpy_unit_list then
            (ffi "np.datetime64" [num_val x; VStr unit_] [],
             (l ++ [LibCall "np.datetime64" [num_val x; VStr unit_] []])%list)
          else
            (Raise (Exn ValueError
               ("Unsupported date unit for numpy.datetime64 objects. "
                ++ "Choose one from " ++ str_list repr_str numpy_unit_list
                ++ ".")), l)).
Proof.
  intros T NT x p origin unit_ fmt l Hp Hf. split.
  - rewrite parse_float_time_run.
    change (py_in "pandas" ("str" :: keys floated_time_parsing_dict))
      with true.
    change (String.eqb "pandas" "str") with false. cbn [negb andb].
    rewrite falsy_nonempty by assumption.
    rewrite validate_precision_low by assumption.
    rewrite validate_unit_run.
    change (String.eqb "pandas" "numpy") with false.
    change (String.eqb "pandas" "pandas") with true. cbn [andb].
    destruct (py_in unit_ pandas_unit_list) eqn:Eu; cbn [negb]; cbv iota;
      [| reflexivity].
    rewrite float_time_parser_pandas, Eu. reflexivity.
  - rewrite parse_float_time_run.
    change (py_in "numpy" ("str" :: keys floated_time_parsing_dict))
      with true.
    change (String.eqb "numpy" "str") with false. cbn [negb andb].
    rewrite falsy_nonempty by assumption.
    rewrite validate_precision_low by assumption.
    rewrite validate_unit_run.
    change (String.eqb "numpy" "numpy") with true. cbn [andb].
    destruct (py_in unit_ numpy_unit_list) eqn:Eu; cbn [negb]; cbv iota;
      [| reflexivity].
    change (String.eqb "numpy" "pandas") with false. cbn [andb]. cbv iota.
    rewrite float_time_parser_numpy, Eu. reflexivity.
Qed.

(** X6.  With [module="str"] and [origin="arbitrary"], a precision in 0..6
    gives the text of [_format_arbitrary_time], and a precision in 7..9 is
    refused with [ValueError], although [_format_arbitrary_time] has a
    branch for precisions above 6; neither the unit nor the format is
    looked at. *)
Theorem parse_float_time_arbitrary_str :
  forall T `{Number T} (x : T) (p : Z) (unit_ : string)
         (fmt : option string) (l : log),
    0 <= p <= 9 ->
    parse_float_time x (Some p) "arbitrary" unit_ fmt "str" l
    = if p <=? 6 then
        match _format_arbitrary_time x (Some p) l with
        | (Ok s, l') => (Ok (VStr s), l')
        | (Raise e, l') => (Raise e, l')
        end
      else
        (Raise (Exn ValueError
           ("Only option 'pandas' supports precision=" ++ str_int p ++ ".")),
         l).
Proof.
  intros T NT x p unit_ fmt l Hp. rewrite parse_float_time_run.
  change (py_in "str" ("str" :: keys floated_time_parsing_dict)) with true.
  change (String.eqb "str" "str") with true. cbn [negb andb]. cbv iota.
  rewrite validate_precision_run.
  destruct (p <? 0) eqn:F0; [lia |]. destruct (9 <? p) eqn:F9; [lia |].
  cbn [orb]. cbv iota.
  change (String.eqb "str" "pandas") with false. cbn [negb].
  rewrite andb_true_r.
  destruct (p <=? 6) eqn:E6.
  - destruct (7 <=? p) eqn:E7; [lia |].
    rewrite validate_unit_run.
    change (String.eqb "str" "numpy") with false.
    change (String.eqb "str" "pandas") with false. cbn [andb]. cbv iota.
    rewrite parse_float_to_string_str by lia. reflexivity.
  - destruct (7 <=? p) eqn:E7; [reflexivity | lia].
Qed.

(** X7.  With [module="str"] and a precision in 0..6, an origin that is
    neither ["arbitrary"] nor ["unix"] is not refused: [parse_float_time]
    returns [None] and calls no library. *)
Theorem parse_float_time_unknown_origin :
  forall T `{Number T} (x : T) (p : Z) (origin unit_ : string)
         (fmt : option string) (l : log),
    0 <= p <= 6 -> origin <> "arbitrary" -> origin <> "unix" ->
    parse_float_time x (Some p) origin unit_ fmt "str" l = (Ok VNone, l).
Proof.
  intros T NT x p origin unit_ fmt l Hp Ha Hu. rewrite parse_float_time_run.
  change (py_in "str" ("str" :: keys floated_time_parsing_dict)) with true.
  change (String.eqb "str" "str") with true. cbn [negb andb]. cbv iota.
  rewrite validate_precision_low by assumption.
  rewrite validate_unit_run.
  change (String.eqb "str" "numpy") with false.
  change (String.eqb "str" "pandas") with false. cbn [andb]. cbv iota.
  rewrite parse_float_to_string_str by lia.
  apply String.eqb_neq in Ha, Hu. now rewrite Ha, Hu.
Qed.

(** X8.  For an integer offset below one day, negative ones included,
    [_format_arbitrary_time] renders the offset modulo 86400 in the
    three-part layout: the sign and the whole days are lost, and the offset
    and its remainder give the same text. *)
Theorem format_arbitrary_time_drops_days_below_one :
  forall (offset prec : Z) (l : log),
    offset < 86400 -> 0 <= prec ->
    let r := offset mod 86400 in
    _format_arbitrary_time offset (Some prec) l
    = (Ok (str_int (r / 3600) ++ " hours " ++ str_int (r mod 3600 / 60)
           ++ " minutes " ++ str_int (r mod 60) ++ " seconds"), l)
    /\ _format_arbitrary_time offset (Some prec) l
       = _format_arbitrary_time r (Some prec) l.
Proof.
  intros offset prec l Hlt Hprec r.
  assert (Hfmt : forall z, z < 86400 ->
    _format_arbitrary_time z (Some prec) l
    = (Ok (str_int ((z / 3600) mod 24) ++ " hours "
           ++ str_int (z mod 3600 / 60) ++ " minutes "
           ++ str_int ((z mod 3600) mod 60) ++ " seconds"), l)).
  { intros z Hz.
    unfold _format_arbitrary_time, num_divmod, opt_gt_int, bind, ret.
    cbn [num_floordiv num_mod num_round_digits num_positive num_str Number_int].
    assert (Hd : (0 <? z / 3600 / 24) = false).
    { apply Z.ltb_ge. rewrite Z.div_div by lia.
      change (3600 * 24) with 86400.
      assert (z / 86400 < 1) by (apply Z.div_lt_upper_bound; lia). lia. }
    destruct (6 <? prec); cbn [num_round_digits Number_int];
      rewrite round_int_digits by lia;
      unfold try_except; rewrite Hd; reflexivity. }
  assert (Hr : 0 <= r < 86400) by (apply Z.mod_pos_bound; lia).
  assert (E1 : (offset / 3600) mod 24 = r / 3600).
  { unfold r. change 86400 with (3600 * 24).
    rewrite Z.rem_mul_r by lia.
    rewrite Z.mul_comm, Z.div_add by lia.
    rewrite (Z.div_small (offset mod 3600)) by (apply Z.mod_pos_bound; lia).
    reflexivity. }
  assert (E2 : offset mod 3600 = r mod 3600).
  { unfold r. change 86400 with (3600 * 24).
    rewrite Z.rem_mul_r by lia.
    rewrite Z.mul_comm, Z.mod_add by lia.
    now rewrite Z.mod_mod by lia. }
  assert (E3 : (r mod 3600) mod 60 = r mod 60).
  { change 3600 with (60 * 60). rewrite Z.rem_mul_r by lia.
    rewrite Z.mul_comm, Z.mod_add by lia. now rewrite Z.mod_mod by lia. }
  assert (E4 : (r / 3600) mod 24 = r / 3600).
  { apply Z.mod_small. split; [apply Z.div_pos; lia |].
    apply Z.div_lt_upper_bound; lia. }
  split.
  - rewrite Hfmt by assumption. now rewrite E1, E2, E3.
  - rewrite (Hfmt offset) by assumption. rewrite (Hfmt r) by lia.
    now rewrite E1, E2, E4.
Qed.

(** ** Parsing a time string *)

(** X9.  With a non-empty format, [parse_time_string] makes one library
    call for each of the modules ["datetime"], ["dateutil"], ["pandas"] and
    ["arrow"] and returns its result; only ["pandas"] is given the unit.  A
    [ValueError] of the library becomes the format-mismatch [ValueError],
    and an exception of any other class passes unchanged. *)
Theorem parse_time_string_supported_modules :
  forall (datetime_str fmt unit_ : string) (l : log),
    fmt <> EmptyString ->
    let report := fun (c : lib_call) =>
      (match ffi (callee c) (call_args c) (call_kwargs c) with
       | Ok v => Ok v
       | Raise e =>
           if is_ValueError e
           then Raise (Exn ValueError
                  "The time string does not match the format string provided.")
           else Raise e
       end, (l ++ [c])%list) in
    parse_time_string datetime_str (Some fmt) "datetime" unit_ l
    = report (LibCall "datetime.strptime" [VStr datetime_str; VStr fmt] [])
    /\ parse_time_string datetime_str (Some fmt) "dateutil" unit_ l
       = report (LibCall "dateutil.parser.parse"
                   [VStr datetime_str; VStr fmt] [])
    /\ parse_time_string datetime_str (Some fmt) "pandas" unit_ l
       = report (LibCall "pd.to_datetime" [VStr datetime_str]
                   [("format", VStr fmt); ("unit", VStr unit_)])
    /\ parse_time_string datetime_str (Some fmt) "arrow" unit_ l
       = report (LibCall "arrow.get" [VStr datetime_str; VStr fmt] []).
Proof.
  intros s fmt u l Hf report. unfold report.
  destruct fmt as [| c rest]; [contradiction |].
  repeat split;
    unfold parse_time_string; cbn; unfold try_except, foreign; cbn;
    match goal with
    | |- context [ffi ?f ?a ?k] => destruct (ffi f a k) as [v | e]
    end;
    try reflexivity; destruct (is_ValueError e); reflexivity.
Qed.

(** ** The converter and its tables *)

(** X10.  [datetime_obj_converter] raises for every input and calls no
    library; the exception is a [ValueError], a [KeyError] or a
    [TypeError], and it is the [TypeError] of the keyword call exactly when
    the target is non-empty, the unit and the two precision classes are
    legal, the type of the value has a table and the target is one of its
    keys. *)
Theorem converter_outcome_classified :
  forall (obj : pyval) (convert_to unit_ : string) (fc ic : class_spec)
         (fmt : option string) (l : log),
    exists e,
      datetime_obj_converter obj convert_to unit_ fc ic fmt l = (Raise e, l)
      /\ (exn_cls e = ValueError \/ exn_cls e = KeyError
          \/ exn_cls e = TypeError)
      /\ (exn_cls e = TypeError <->
            (convert_to <> EmptyString
             /\ py_in unit_ (keys unit_factor_dict) = true
             /\ py_in fc _float_class_list = true
             /\ py_in ic _int_class_list = true
             /\ exists d,
                  get conversion_opt_dict (get_type_str obj true) = Some d
                  /\ py_in convert_to (keys d) = true)).
Proof.
  intros. unfold datetime_obj_converter.
  destruct (String.eqb_spec convert_to EmptyString) as [-> | Hc].
  { cbn. eexists. split; [reflexivity |]. split; [auto |].
    split; [discriminate | intros [Hne _]; now elim Hne]. }
  assert (Hfal : falsy (Some convert_to) = false)
    by (cbn; now apply String.eqb_neq).
  rewrite Hfal. cbv zeta. unfold bind, _validate_option, getitem.
  destruct (py_in unit_ (keys unit_factor_dict)) eqn:Hu.
  2:{ cbn. eexists. split; [reflexivity |]. split; [auto |].
      split; [discriminate | intros (_ & Hx & _); discriminate]. }
  destruct (py_in fc _float_class_list) eqn:Hf.
  2:{ cbn. eexists. split; [reflexivity |]. split; [auto |].
      split; [discriminate | intros (_ & _ & Hx & _); discriminate]. }
  destruct (py_in ic _int_class_list) eqn:Hi.
  2:{ cbn. eexists. split; [reflexivity |]. split; [auto |].
      split; [discriminate | intros (_ & _ & _ & Hx & _); discriminate]. }
  cbn -[conversion_opt_dict perform_conversion call py_in get_type_str].
  destruct (get conversion_opt_dict (get_type_str obj true)) as [d|] eqn:Hd.
  2:{ cbn. eexists. split; [reflexivity |]. split; [auto |].
      split; [discriminate |].
      intros (_ & _ & _ & _ & d & Hx & _); discriminate. }
  cbn -[perform_conversion call py_in].
  destruct (py_in convert_to (keys d)) eqn:Hk.
  2:{ cbn. eexists. split; [reflexivity |]. split; [auto |].
      split; [discriminate |].
      intros (_ & _ & _ & _ & d' & Hx & Hy).
      injection Hx as <-. congruence. }
  cbn -[perform_conversion call].
  rewrite perform_conversion_rejects_keywords.
  eexists. split; [reflexivity |]. split; [auto |].
  split; [| reflexivity]. intros _. repeat split; try assumption.
  exists d. split; [reflexivity | assumption].
Qed.

(** X11.  The helpers [_to_time_struct], [_to_pandas], [_to_numpy] and
    [_to_arrow] raise [TypeError] on every list of positional arguments and
    call no library: each of them calls [_to_datetime(dt_obj)] without its
    second parameter [unit]. *)
Theorem datetime_helpers_always_raise :
  forall (args : list pyval) (l : log),
    Forall (fun f => exists msg,
              call f args [] l = (Raise (Exn TypeError msg), l))
           [_to_time_struct; _to_pandas; _to_numpy; _to_arrow].
Proof.
  intros args l. repeat constructor; every_call_raises args.
Qed.

(** X12.  Each of the listed pairs has an entry in [conversion_opt_dict], and
    that entry raises [TypeError] on every list of positional arguments
    without calling a library: the entry calls a helper with fewer arguments
    than the helper has parameters. *)
Theorem unreachable_conversions_raise :
  Forall (fun kt =>
            exists d f,
              get conversion_opt_dict (fst kt) = Some d
              /\ get d (snd kt) = Some f
              /\ forall (args : list pyval) (l : log),
                   exists msg,
                     call f args [] l = (Raise (Exn TypeError msg), l))
         unreachable_conversions.
Proof.
  unfold unreachable_conversions.
  repeat (constructor;
          [eexists; eexists; split; [reflexivity |]; split; [reflexivity |];
           intros args l; cbn [fst snd]; every_call_raises args |]).
  constructor.
Qed.

End MoreProperties.

(* ================================================================== *)
(** * Further properties of the test module *)
(* ================================================================== *)

Section TestModuleProperties.
Context `{Backend} `{TestAndNewMethods.ColumnDates}.
Local Open Scope py_scope.

(** ** Total time *)

(** No entry of the test module's [total_time_unit_dict] takes more than
    four arguments. *)
Lemma test_total_time_unit_dict_arities :
  Forall (fun f => fn_varargs f = false
                   /\ (List.length (fn_params f) <= 4)%nat)
         (map snd TestAndNewMethods.total_time_unit_dict).
Proof. repeat constructor. Qed.

(** X13.  In the test module, [total_time_unit] raises for every input and
    calls no library: a [ValueError] when the unit or a precision class is
    not legal, and otherwise an [Exception], because the table entry is
    called with five arguments and no entry takes more than four. *)
Theorem test_total_time_unit_never_returns :
  forall (datetime_obj : pyval) (date_unit : string)
         (float_class int_class : class_spec) (l : log),
    exists e,
      TestAndNewMethods.total_time_unit datetime_obj date_unit
        float_class int_class l = (Raise e, l)
      /\ (exn_cls e = ValueError \/ exn_cls e = Exception)
      /\ (exn_cls e = Exception <->
            (py_in date_unit (keys TestAndNewMethods.date_unit_factor_dict)
             = true
             /\ py_in float_class TestAndNewMethods.float_class_list = true
             /\ py_in int_class TestAndNewMethods.int_class_list = true)).
Proof.
  intros obj u fc ic l. unfold TestAndNewMethods.total_time_unit.
  cbv zeta. unfold bind, TestAndNewMethods.validate_option.
  destruct (py_in u (keys TestAndNewMethods.date_unit_factor_dict)) eqn:Hu.
  2:{ cbn. eexists. split; [reflexivity |]. split; [auto |].
      split; [discriminate | intros (Hx & _); discriminate]. }
  destruct (py_in fc TestAndNewMethods.float_class_list) eqn:Hf.
  2:{ cbn. eexists. split; [reflexivity |]. split; [auto |].
      split; [discriminate | intros (_ & Hx & _); discriminate]. }
  destruct (py_in ic TestAndNewMethods.int_class_list) eqn:Hi.
  2:{ cbn. eexists. split; [reflexivity |]. split; [auto |].
      split; [discriminate | intros (_ & _ & Hx); discriminate]. }
  cbn [negb]. cbv iota. unfold ret at 1 2 3. cbv beta iota.
  unfold try_except.
  destruct (get TestAndNewMethods.total_time_unit_dict
              (lower (TestAndNewMethods.get_obj_type_str obj))) as [f|] eqn:G.
  - apply get_In in G.
    pose proof test_total_time_unit_dict_arities as A.
    rewrite Forall_forall in A. destruct (A f G) as [Hv Hn].
    unfold call_opt.
    match goal with
    | |- context [call f ?args []] =>
        destruct (call_too_many_positional f args l Hv) as [msg E];
          [cbn [List.length]; lia |]
    end.
    rewrite E. cbn. eexists. split; [reflexivity |]. split; [auto |].
    split; auto.
  - cbn. eexists. split; [reflexivity |]. split; [auto |]. split; auto.
Qed.

(** ** The formatter and the converter *)

(** X14.  On integer offsets the two versions of the formatter agree: for
    any precision that is not negative, [_format_arbitrary_time] of
    [time_formatters.py] gives what [format_arbitrary_time] of the test
    module, which takes no precision, gives. *)
Theorem format_arbitrary_time_versions_agree :
  forall (offset prec : Z) (l : log),
    0 <= prec ->
    _format_arbitrary_time offset (Some prec) l
    = TestAndNewMethods.format_arbitrary_time offset l.
Proof.
  intros offset prec l Hp.
  unfold _format_arbitrary_time, TestAndNewMethods.format_arbitrary_time,
    num_divmod, opt_gt_int, bind, ret.
  cbn [num_floordiv num_mod num_round_digits num_positive num_str Number_int].
  destruct (6 <? prec); cbn [num_round_digits Number_int];
    rewrite round_int_digits by lia; reflexivity.
Qed.

(** X15.  In the test module, converting a value of type [datetime] to
    ["float"] returns what its [timestamp()] method returns, by that one
    library call, whatever the unit and the float class. *)
Theorem test_converter_datetime_to_float :
  forall (obj : pyval) (date_unit : string) (float_class : class_spec)
         (l : log),
    lower (TestAndNewMethods.get_obj_type_str obj) = "datetime" ->
    TestAndNewMethods.datetime_obj_converter obj "float" date_unit
      float_class l
    = (ffi ".timestamp" [obj] [],
       (l ++ [LibCall ".timestamp" [obj] []])%list).
Proof.
  intros obj u fc l Hty. unfold TestAndNewMethods.datetime_obj_converter.
  cbv zeta. rewrite Hty. reflexivity.
Qed.

(** X16.  In the test module, [datetime_obj_converter] returns for no value
    of type [struct_time] and calls no library: an illegal target raises
    [ValueError], and for every legal one the table entry of two parameters
    is called with one argument, which raises [TypeError]. *)
Theorem test_converter_struct_time_never_returns :
  forall (obj : pyval) (convert_to date_unit : string)
         (float_class : class_spec) (l : log),
    lower (TestAndNewMethods.get_obj_type_str obj) = "struct_time" ->
    exists e,
      TestAndNewMethods.datetime_obj_converter obj convert_to date_unit
        float_class l = (Raise e, l)
      /\ (exn_cls e = ValueError \/ exn_cls e = TypeError)
      /\ (exn_cls e = TypeError <->
            py_in convert_to
              (keys TestAndNewMethods.time_stt_obj_conversion_dict) = true).
Proof.
  intros obj c u fc l Hty. unfold TestAndNewMethods.datetime_obj_converter.
  cbv zeta. rewrite Hty.
  change (String.eqb "struct_time" "datetime") with false.
  change (String.eqb "struct_time" "datetime64") with false.
  change (String.eqb "struct_time" "timestamp") with false.
  change (String.eqb "struct_time" "arrow") with false.
  change (String.eqb "struct_time" "struct_time") with true. cbv iota.
  unfold bind, TestAndNewMethods.validate_option.
  destruct (py_in c (keys TestAndNewMethods.time_stt_obj_conversion_dict))
    eqn:Hk.
  2:{ cbn. eexists. split; [reflexivity |]. split; [auto |].
      split; discriminate. }
  apply py_in_string_In in Hk. cbn in Hk.
  destruct Hk as [<- | [<- | [<- | [<- | [<- | []]]]]];
    (eexists; split; [reflexivity |]; split; [auto |]; split; auto).
Qed.

(** X17.  In the test module, converting a value of type [datetime64] to
    ["float"] raises [TypeError] and calls no library: the entry has four
    parameters and is called with two arguments. *)
Theorem test_converter_datetime64_to_float_raises :
  forall (obj : pyval) (date_unit : string) (float_class : class_spec)
         (l : log),
    lower (TestAndNewMethods.get_obj_type_str obj) = "datetime64" ->
    TestAndNewMethods.datetime_obj_converter obj "float" date_unit
      float_class l
    = (Raise (Exn TypeError
         ("<lambda>() missing 2 required positional arguments: "
          ++ "'_' and 'float_class'")), l).
Proof.
  intros obj u fc l Hty. unfold TestAndNewMethods.datetime_obj_converter.
  cbv zeta. rewrite Hty. reflexivity.
Qed.

(** The test module's [total_time_unit] raises on every input, with the
    log as before. *)
Lemma test_total_time_unit_raises :
  forall (obj : pyval) (date_unit : string) (fc ic : class_spec) (l : log),
    exists e,
      TestAndNewMethods.total_time_unit obj date_unit fc ic l = (Raise e, l).
Proof.
  intros obj u fc ic l. unfold TestAndNewMethods.total_time_unit.
  cbv zeta. unfold bind, TestAndNewMethods.validate_option.
  destruct (py_in u _); [| eexists; reflexivity].
  destruct (py_in fc _); [| eexists; reflexivity].
  destruct (py_in ic _); [| eexists; reflexivity].
  cbn [ret]. unfold try_except.
  destruct (get TestAndNewMethods.total_time_unit_dict
              (lower (TestAndNewMethods.get_obj_type_str obj))) as [f |] eqn:Hg.
  2:{ cbn. eexists. reflexivity. }
  apply get_In in Hg. cbn in Hg.
  destruct Hg as [<- | [<- | [<- | [<- | [<- | [<- | [<- | []]]]]]]];
    cbn; eexists; reflexivity.
Qed.

(** X20.  In the test module, converting a [DataFrame], a [Series] or an
    [ndarray] to ["float"] raises an [Exception] for every unit and calls no
    library: [total_time_unit] always raises, and the converter raises
    whatever it catches again as a plain [Exception]. *)
Theorem test_converter_array_to_float_raises_exception :
  forall (obj : pyval) (date_unit : string) (float_class : class_spec)
         (l : log),
    In (lower (TestAndNewMethods.get_obj_type_str obj))
       ["dataframe"; "series"; "ndarray"] ->
    exists msg,
      TestAndNewMethods.datetime_obj_converter obj "float" date_unit
        float_class l = (Raise (Exn Exception msg), l).
Proof.
  intros obj u fc l Hty.
  destruct (test_total_time_unit_raises obj u (ByName "d") (ByName "int") l)
    as (e & He).
  assert (Hexc : is_Exception e = true) by (destruct e as [[] ?]; reflexivity).
  unfold TestAndNewMethods.datetime_obj_converter. cbv zeta.
  destruct Hty as [Hty | [Hty | [Hty | []]]]; rewrite <- Hty;
    [ change (String.eqb "dataframe" "datetime") with false;
      change (String.eqb "dataframe" "datetime64") with false;
      change (String.eqb "dataframe" "timestamp") with false;
      change (String.eqb "dataframe" "arrow") with false;
      change (String.eqb "dataframe" "struct_time") with false;
      change (String.eqb "dataframe" "dataframe") with true
    | change (String.eqb "series" "datetime") with false;
      change (String.eqb "series" "datetime64") with false;
      change (String.eqb "series" "timestamp") with false;
      change (String.eqb "series" "arrow") with false;
      change (String.eqb "series" "struct_time") with false;
      change (String.eqb "series" "dataframe") with false;
      change (String.eqb "series" "series") with true
    | change (String.eqb "ndarray" "datetime") with false;
      change (String.eqb "ndarray" "datetime64") with false;
      change (String.eqb "ndarray" "timestamp") with false;
      change (String.eqb "ndarray" "arrow") with false;
      change (String.eqb "ndarray" "struct_time") with false;
      change (String.eqb "ndarray" "dataframe") with false;
      change (String.eqb "ndarray" "series") with false;
      change (String.eqb "ndarray" "ndarray") with true ];
    cbv iota;
    unfold TestAndNewMethods.convert_array_like; cbv zeta;
    unfold bind at 1;
    change (TestAndNewMethods.validate_option _ _ _ l) with (Ok tt, l);
    cbv iota; unfold try_except;
    match goal with
    | |- context [call_opt ?f ?a ?k l] =>
        change (call_opt f a k l)
          with (TestAndNewMethods.total_time_unit obj u (ByName "d")
                  (ByName "int") l)
    end;
    rewrite He, Hexc; eexists; reflexivity.
Qed.

(** X21.  In the test module, converting a [Series] to ["pandas"] returns the
    parsed column; when the parse raises [ValueError] the converter returns
    [None] without an error, and an exception of another class is raised
    again as a plain [Exception] with the same message. *)
Theorem test_converter_series_to_pandas :
  forall (s : column) (date_unit : string) (float_class : class_spec)
         (l : log),
    TestAndNewMethods.datetime_obj_converter (VSeries s) "pandas" date_unit
      float_class l
    = match TestAndNewMethods.to_datetime_column s (VStr date_unit) with
      | Ok parsed => (Ok (VSeries parsed), l)
      | Raise e =>
          if is_ValueError e then (Ok VNone, l)
          else if is_Exception e
               then (Raise (Exn Exception (exn_msg e)), l)
               else (Raise e, l)
      end.
Proof.
  intros s u fc l. unfold TestAndNewMethods.datetime_obj_converter.
  cbv zeta.
  change (lower (TestAndNewMethods.get_obj_type_str (VSeries s)))
    with "series".
  change (String.eqb "series" "datetime") with false;
      change (String.eqb "series" "datetime64") with false;
      change (String.eqb "series" "timestamp") with false;
      change (String.eqb "series" "arrow") with false;
      change (String.eqb "series" "struct_time") with false;
      change (String.eqb "series" "dataframe") with false;
      change (String.eqb "series" "series") with true.
  cbv iota. unfold TestAndNewMethods.convert_array_like; cbv zeta.
  unfold bind at 1.
  change (TestAndNewMethods.validate_option _ _ _ l) with (Ok tt, l).
  cbv iota. unfold try_except at 1.
  match goal with
    | |- context [call_opt ?f ?a ?k l] =>
        change (call_opt f a k l)
          with (TestAndNewMethods.unify_complex_data (VSeries s) (VStr u) l)
  end.
  unfold TestAndNewMethods.unify_complex_data. cbv zeta.
  change (lower (TestAndNewMethods.get_obj_type_str (VSeries s)))
    with "series".
  change (String.eqb "series" "dataframe") with false;
      change (String.eqb "series" "series") with true.
  cbv iota. unfold try_except, bind, lift, ret.
  destruct (TestAndNewMethods.to_datetime_column s (VStr u)) as [p | e];
    [reflexivity |].
  destruct (is_ValueError e); [reflexivity |].
  destruct (is_Exception e); reflexivity.
Qed.

(** X22.  In the test module, a value whose type is none of the eight that
    the converter tests for makes it return [None]: the target is not
    validated and no library is called. *)
Theorem test_converter_other_types_return_none :
  forall (obj : pyval) (convert_to date_unit : string)
         (float_class : class_spec) (l : log),
    ~ In (lower (TestAndNewMethods.get_obj_type_str obj))
        ["datetime"; "datetime64"; "timestamp"; "arrow"; "struct_time";
         "dataframe"; "series"; "ndarray"] ->
    TestAndNewMethods.datetime_obj_converter obj convert_to date_unit
      float_class l = (Ok VNone, l).
Proof.
  intros obj c u fc l Hty. unfold TestAndNewMethods.datetime_obj_converter.
  cbv zeta.
  repeat match goal with
  | |- context [String.eqb ?a ?b] =>
      destruct (String.eqb_spec a b) as [Heq | _];
        [exfalso; apply Hty; rewrite Heq; cbn; tauto |]
  end.
  reflexivity.
Qed.

(** ** Frames *)

(** A label among the keys has an entry. *)
Lemma get_in_keys {V} : forall (d : dict V) (k : string),
  In k (keys d) -> exists v, get d k = Some v /\ In (k, v) d.
Proof.
  induction d as [|[k' v'] d IH]; intros k Hin; cbn in *; [contradiction |].
  destruct (String.eqb_spec k' k) as [-> | Hne].
  - exists v'. split; [reflexivity | now left].
  - destruct Hin as [Heq | Hin]; [contradiction |].
    destruct (IH k Hin) as (v & Hg & Hv). exists v. split; [assumption |].
    now right.
Qed.

(** The loop of [unify_complex_data] forgets every column but the last:
    when the columns before it parse or raise [ValueError], the loop ends as
    the last iteration alone does. *)
Lemma unify_loop_last :
  forall (df : dataframe) (date_unit : pyval) (cols : list string)
         (last : string) (acc : option dataframe) (l : log),
    (forall k, In k cols ->
       exists c, get df k = Some c /\
         forall e, TestAndNewMethods.to_datetime_column c date_unit = Raise e ->
                   is_ValueError e = true) ->
    for_each (cols ++ [last])%list
      (fun col (_ : option dataframe) =>
         let dt_obj_aux := df in
         try_except
           (c <- frame_getitem dt_obj_aux col ;;
            parsed <- lift (TestAndNewMethods.to_datetime_column c date_unit) ;;
            ret (Some (frame_setitem dt_obj_aux col parsed)))
           is_ValueError
           (fun _ => ret (Some dt_obj_aux))) acc l
    = match get df last with
      | None => (Raise (Exn KeyError (repr_str last)), l)
      | Some c =>
          match TestAndNewMethods.to_datetime_column c date_unit with
          | Ok parsed => (Ok (Some (frame_setitem df last parsed)), l)
          | Raise e =>
              if is_ValueError e then (Ok (Some df), l) else (Raise e, l)
          end
      end.
Proof.
  intros df u cols last. induction cols as [|k cols IH]; intros acc l Hall.
  - cbn [app for_each].
    unfold bind, try_except, frame_getitem, getitem, lift, ret, raise.
    destruct (get df last) as [c |]; [| reflexivity].
    destruct (TestAndNewMethods.to_datetime_column c u) as [p | e];
      [reflexivity |].
    destruct (is_ValueError e); reflexivity.
  - cbn [app for_each]. unfold bind at 1.
    destruct (Hall k (or_introl eq_refl)) as (c & Hg & Hv).
    unfold try_except at 1.
    unfold bind at 1, frame_getitem, getitem. rewrite Hg.
    unfold ret at 1, bind at 1, lift at 1.
    destruct (TestAndNewMethods.to_datetime_column c u) as [p | e] eqn:Hp.
    + unfold ret at 1. apply IH. intros k' Hk'. apply Hall. now right.
    + rewrite (Hv e eq_refl). unfold ret at 1. apply IH.
      intros k' Hk'. apply Hall. now right.
Qed.

(** X18.  On a frame with distinct labels whose columns before the last one
    parse or raise [ValueError], [unify_complex_data] returns the input
    frame with the last column alone replaced by its parsed dates (or the
    unchanged input when the last column raises [ValueError]): every
    iteration starts from a fresh copy, so the columns converted before are
    lost.  An exception of another class in the last column escapes. *)
Theorem unify_frame_converts_last_column_only :
  forall (init : dataframe) (col : string) (c : column) (date_unit : pyval)
         (l : log),
    NoDup (keys (init ++ [(col, c)])%list) ->
    (forall k c', In (k, c') init ->
       forall e, TestAndNewMethods.to_datetime_column c' date_unit = Raise e ->
                 is_ValueError e = true) ->
    TestAndNewMethods.unify_complex_data
      (VDataFrame (init ++ [(col, c)])%list) date_unit l
    = match TestAndNewMethods.to_datetime_column c date_unit with
      | Ok parsed => (Ok (VDataFrame (init ++ [(col, parsed)])%list), l)
      | Raise e =>
          if is_ValueError e
          then (Ok (VDataFrame (init ++ [(col, c)])%list), l)
          else (Raise e, l)
      end.
Proof.
  intros init col c u l Hnd Hall.
  assert (Hnotin : ~ In col (keys init)).
  { unfold keys in *. rewrite map_app in Hnd. cbn in Hnd.
    apply NoDup_remove_2 in Hnd. rewrite app_nil_r in Hnd. exact Hnd. }
  unfold TestAndNewMethods.unify_complex_data. cbv zeta.
  change (lower (TestAndNewMethods.get_obj_type_str (VDataFrame _)))
    with "dataframe".
  change (String.eqb "dataframe" "dataframe") with true. cbv iota.
  unfold bind at 1.
  replace (keys (init ++ [(col, c)])%list) with (keys init ++ [col])%list
    by (unfold keys; rewrite map_app; reflexivity).
  rewrite unify_loop_last.
  2:{ intros k Hk. destruct (get_in_keys init k Hk) as (v & Hg & Hv).
      exists v. split.
      - clear - Hg. induction init as [|[k' v'] init IH]; cbn in *;
          [discriminate |].
        destruct (String.eqb k' k); [assumption | now apply IH].
      - intros e He. eapply Hall; eassumption. }
  rewrite get_app_notin by assumption. cbn [get]. rewrite String.eqb_refl.
  destruct (TestAndNewMethods.to_datetime_column c u) as [p | e].
  - rewrite (frame_setitem_at init [] col c p Hnotin (fun x => x)).
    reflexivity.
  - destruct (is_ValueError e); reflexivity.
Qed.

(** X19.  On a frame without columns [unify_complex_data] does not return the
    frame: the loop body never binds [dt_obj_aux] and the [return] raises
    [UnboundLocalError]. *)
Theorem unify_frame_without_columns_raises :
  forall (date_unit : pyval) (l : log),
    exists msg,
      TestAndNewMethods.unify_complex_data (VDataFrame []) date_unit l
      = (Raise (Exn UnboundLocalError msg), l).
Proof. intros u l. eexists. reflexivity. Qed.

End TestModuleProperties.

(* ================================================================== *)
(** * The further properties at concrete inputs *)
(* ================================================================== *)

Section MoreRuns.
Import Sample.

(** One second after the epoch with the [datetime] module: the origin and
    the unit, here not even legal ones, are not looked at. *)
Lemma parse_float_time_datetime_witness :
  0 <= 0 <= 6 /\ "%Y" <> EmptyString
  /\ run (parse_float_time 1 (Some 0) "arbitrary" "fortnight" (Some "%Y")
            "datetime")
     = (Ok (VDatetime epoch_plus_one),
        [LibCall "datetime.fromtimestamp" [VInt 1] []]).
Proof.
  assert (Hp : 0 <= 0 <= 6) by lia.
  assert (Hf : "%Y" <> EmptyString) by discriminate.
  split; [exact Hp |]. split; [exact Hf |].
  exact (proj1 (parse_float_time_datetime_ignores_options (H := backend)
                  Z 1 0 "arbitrary" "fortnight" "%Y" [] Hp Hf)).
Defined.

(** The same offset with the [numpy] module and a unit that numpy does not
    list. *)
Lemma parse_float_time_unit_witness :
  0 <= 0 <= 6 /\ "%Y" <> EmptyString
  /\ run (parse_float_time 1 (Some 0) "unix" "fortnight" (Some "%Y") "numpy")
     = (Raise (Exn ValueError
          ("Unsupported date unit for numpy.datetime64 objects. "
           ++ "Choose one from " ++ str_list repr_str numpy_unit_list
           ++ ".")), []).
Proof.
  assert (Hp : 0 <= 0 <= 6) by lia.
  assert (Hf : "%Y" <> EmptyString) by discriminate.
  split; [exact Hp |]. split; [exact Hf |].
  exact (proj2 (parse_float_time_unit_checked_for_pandas_and_numpy
                  (H := backend) Z 1 0 "unix" "fortnight" "%Y" [] Hp Hf)).
Defined.

(** An elapsed time of 3661 seconds as text. *)
Lemma parse_float_time_arbitrary_witness :
  0 <= 3 <= 9
  /\ run (parse_float_time 3661 (Some 3) "arbitrary" "us" None "str")
     = (Ok (VStr "1 hours 1 minutes 1 seconds"), []).
Proof.
  assert (Hp : 0 <= 3 <= 9) by lia.
  split; [exact Hp |].
  exact (parse_float_time_arbitrary_str (H := backend) Z 3661 3 "us" None []
           Hp).
Defined.

(** An origin that the module does not know. *)
Lemma parse_float_time_unknown_origin_witness :
  0 <= 3 <= 6 /\ "epoch" <> "arbitrary" /\ "epoch" <> "unix"
  /\ run (parse_float_time 3661 (Some 3) "epoch" "us" None "str")
     = (Ok VNone, []).
Proof.
  assert (Hp : 0 <= 3 <= 6) by lia.
  assert (Ha : "epoch" <> "arbitrary") by discriminate.
  assert (Hu : "epoch" <> "unix") by discriminate.
  split; [exact Hp |]. split; [exact Ha |]. split; [exact Hu |].
  exact (parse_float_time_unknown_origin (H := backend) Z 3661 3 "epoch" "us"
           None [] Hp Ha Hu).
Defined.

(** One second before the origin. *)
Lemma format_arbitrary_time_negative_witness :
  -1 < 86400 /\ 0 <= 0
  /\ run (_format_arbitrary_time (-1) (Some 0))
     = (Ok "23 hours 59 minutes 59 seconds", []).
Proof.
  assert (Hl : -1 < 86400) by lia.
  assert (Hp : 0 <= 0) by lia.
  split; [exact Hl |]. split; [exact Hp |].
  exact (proj1 (format_arbitrary_time_drops_days_below_one (-1) 0 [] Hl Hp)).
Defined.

(** A year parsed with pandas: the one call, with the format and the unit
    as keywords. *)
Lemma parse_time_string_witness :
  "%Y" <> EmptyString
  /\ snd (run (parse_time_string "1970" (Some "%Y") "pandas" "ns"))
     = [LibCall "pd.to_datetime" [VStr "1970"]
          [("format", VStr "%Y"); ("unit", VStr "ns")]].
Proof.
  assert (Hf : "%Y" <> EmptyString) by discriminate.
  split; [exact Hf |].
  exact (f_equal snd
           (proj1 (proj2 (proj2
              (parse_time_string_supported_modules (H := backend)
                 "1970" "%Y" "ns" [] Hf))))).
Defined.

(** 90000 seconds, with and without a precision. *)
Lemma format_arbitrary_time_versions_witness :
  0 <= 2
  /\ run (_format_arbitrary_time 90000 (Some 2))
     = run (TestAndNewMethods.format_arbitrary_time 90000).
Proof.
  assert (Hp : 0 <= 2) by lia.
  split; [exact Hp |].
  exact (format_arbitrary_time_versions_agree 90000 2 [] Hp).
Defined.

(** The test module's converter on the instant 1970-01-01T00:00:01. *)
Lemma test_converter_datetime_to_float_witness :
  lower (TestAndNewMethods.get_obj_type_str (VDatetime epoch_plus_one))
  = "datetime"
  /\ run (TestAndNewMethods.datetime_obj_converter
            (VDatetime epoch_plus_one) "float" "ns" (ByName "d"))
     = (Ok (VFloat 1), [LibCall ".timestamp" [VDatetime epoch_plus_one] []]).
Proof.
  split; [reflexivity |].
  exact (test_converter_datetime_to_float (H := backend)
           (H0 := column_dates) (VDatetime epoch_plus_one) "ns" (ByName "d")
           [] eq_refl).
Defined.

(** A [struct_time] asked to become a float. *)
Lemma test_converter_struct_time_witness :
  lower (TestAndNewMethods.get_obj_type_str (VObject "struct_time" 0))
  = "struct_time"
  /\ exists e,
       run (TestAndNewMethods.datetime_obj_converter
              (VObject "struct_time" 0) "float" "ns" (ByName "d"))
       = (Raise e, [])
       /\ (exn_cls e = ValueError \/ exn_cls e = TypeError)
       /\ (exn_cls e = TypeError <->
             py_in "float"
               (keys TestAndNewMethods.time_stt_obj_conversion_dict) = true).
Proof.
  split; [reflexivity |].
  exact (test_converter_struct_time_never_returns (H := backend)
           (H0 := column_dates) (VObject "struct_time" 0) "float" "ns"
           (ByName "d") [] eq_refl).
Defined.

(** A [datetime64] asked to become a float. *)
Lemma test_converter_datetime64_witness :
  lower (TestAndNewMethods.get_obj_type_str (VObject "datetime64" 0))
  = "datetime64"
  /\ run (TestAndNewMethods.datetime_obj_converter
            (VObject "datetime64" 0) "float" "ns" (ByName "d"))
     = (Raise (Exn TypeError
          ("<lambda>() missing 2 required positional arguments: "
           ++ "'_' and 'float_class'")), []).
Proof.
  split; [reflexivity |].
  exact (test_converter_datetime64_to_float_raises (H := backend)
           (H0 := column_dates) (VObject "datetime64" 0) "ns" (ByName "d")
           [] eq_refl).
Defined.

(** A column of seconds asked to become floats. *)
Lemma test_converter_array_to_float_witness :
  In (lower (TestAndNewMethods.get_obj_type_str (VSeries [CInt 1; CInt 2])))
     ["dataframe"; "series"; "ndarray"]
  /\ exists msg,
       run (TestAndNewMethods.datetime_obj_converter
              (VSeries [CInt 1; CInt 2]) "float" "s" (ByName "d"))
       = (Raise (Exn Exception msg), []).
Proof.
  assert (Hty : In (lower (TestAndNewMethods.get_obj_type_str
                             (VSeries [CInt 1; CInt 2])))
                   ["dataframe"; "series"; "ndarray"])
    by (right; left; reflexivity).
  split; [exact Hty |].
  exact (test_converter_array_to_float_raises_exception (H := backend)
           (H0 := column_dates) (VSeries [CInt 1; CInt 2]) "s" (ByName "d")
           [] Hty).
Defined.

(** A whole number is none of the converter's types, and the target is not
    a legal one either. *)
Lemma test_converter_other_types_witness :
  ~ In (lower (TestAndNewMethods.get_obj_type_str (VInt 5)))
      ["datetime"; "datetime64"; "timestamp"; "arrow"; "struct_time";
       "dataframe"; "series"; "ndarray"]
  /\ run (TestAndNewMethods.datetime_obj_converter (VInt 5) "nothing" "ns"
            (ByName "d"))
     = (Ok VNone, []).
Proof.
  assert (Hty : ~ In (lower (TestAndNewMethods.get_obj_type_str (VInt 5)))
                    ["datetime"; "datetime64"; "timestamp"; "arrow";
                     "struct_time"; "dataframe"; "series"; "ndarray"])
    by (cbn; intuition discriminate).
  split; [exact Hty |].
  exact (test_converter_other_types_return_none (H := backend)
           (H0 := column_dates) (VInt 5) "nothing" "ns" (ByName "d") [] Hty).
Defined.

(** A frame of two columns of seconds around a column of text: the first
    column comes back as it went in. *)
Lemma unify_frame_witness :
  NoDup (keys ([("start", [CInt 1; CInt 2]);
                ("note", [CStr "n/a"; CStr "late"])]
               ++ [("stop", [CInt 3; CInt 4])])%list)
  /\ run (TestAndNewMethods.unify_complex_data
            (VDataFrame [("start", [CInt 1; CInt 2]);
                         ("note", [CStr "n/a"; CStr "late"]);
                         ("stop", [CInt 3; CInt 4])])
            (VStr "s"))
     = (Ok (VDataFrame [("start", [CInt 1; CInt 2]);
                        ("note", [CStr "n/a"; CStr "late"]);
                        ("stop", [CObj "Timestamp" 3; CObj "Timestamp" 4])]),
        []).
Proof.
  assert (Hnd : NoDup (keys ([("start", [CInt 1; CInt 2]);
                              ("note", [CStr "n/a"; CStr "late"])]
                             ++ [("stop", [CInt 3; CInt 4])])%list))
    by (repeat constructor; cbn; intuition discriminate).
  assert (Hall : forall k c',
            In (k, c') [("start", [CInt 1; CInt 2]);
                        ("note", [CStr "n/a"; CStr "late"])] ->
            forall e,
              TestAndNewMethods.to_datetime_column c' (VStr "s") = Raise e ->
              is_ValueError e = true).
  { intros k c' [[= <- <-] | [[= <- <-] | []]] e; cbn;
      [discriminate | intros [= <-]; reflexivity]. }
  split; [exact Hnd |].
  exact (unify_frame_converts_last_column_only (H := backend)
           (H0 := column_dates)
           [("start", [CInt 1; CInt 2]); ("note", [CStr "n/a"; CStr "late"])]
           "stop" [CInt 3; CInt 4] (VStr "s") [] Hnd Hall).
Defined.

End MoreRuns.
